(** * Superconducting TF coil: conductor evaluation and quench stress

    A shallow embedding of [supercon], [protect] and [vv_stress_on_quench]
    from [process/superconducting_tf_coil.py].

    Numbers.  The program computes with binary64 values; here every
    number is an exact real, so rounding, overflow and the non-finite
    values [inf] and [nan] are outside the model.  Arithmetic does not
    raise: the program's numbers are NumPy scalars, for which a division
    by zero gives a non-finite value and a warning, not an exception.
    Division is the total division of [R]; wherever a statement depends
    on a divisor being non-zero the divisor is named and the condition
    is written out.

    Effects.  [supercon] reads and writes module-level variables
    ([tfcoil_variables], [rebco_variables], [error_handling]) and can
    raise; it is embedded in a state-and-exception monad in which the
    store survives a raise, as the Python globals do. *)

From Stdlib Require Import Reals Lra Lia ZArith List String Bool.
Import ListNotations.

Open Scope R_scope.

(** ** Python outcomes *)

Inductive exn : Type :=
| ProcessValueError (msg : string) (isumat : option Z)
| IndexError
| UnboundLocalError (name : string)
| ValueError (msg : string)
| RuntimeError (msg : string).

Inductive outcome (A : Type) : Type :=
| Returns (a : A)
| Raises (e : exn).

Arguments Returns {A} a.
Arguments Raises {A} e.

Definition raised {A} (o : outcome A) : Prop :=
  match o with Returns _ => False | Raises _ => True end.

Definition obind {A B} (o : outcome A) (k : A -> outcome B) : outcome B :=
  match o with
  | Returns a => k a
  | Raises e => Raises e
  end.

Declare Scope outcome_scope.
Delimit Scope outcome_scope with outcome.
Notation "x <~ c ; k" := (obind c (fun x => k))
  (at level 61, c at next level, right associativity) : outcome_scope.

(** ** Python primitives used by the code *)

(** [int(x)] on a float: truncation towards zero. *)
Definition py_int (x : R) : Z :=
  if Rle_dec 0 x then Int_part x else (- Int_part (- x))%Z.

(** [t[i]] on a tuple: a negative index counts from the end, anything
    outside [-len, len) raises [IndexError]. *)
Definition py_getitem (t : list R) (i : Z) : outcome R :=
  let n := Z.of_nat (List.length t) in
  if ((0 <=? i) && (i <? n))%Z then Returns (nth (Z.to_nat i) t 0)
  else if ((- n <=? i) && (i <? 0))%Z then Returns (nth (Z.to_nat (i + n)) t 0)
  else Raises IndexError.

(** [np.sign]. *)
Definition np_sign (x : R) : R :=
  if Rlt_dec x 0 then -1 else if Rlt_dec 0 x then 1 else 0.

(** ** [protect] *)

Module Protect.

Definition p1 : list R :=
  [0.0; 0.8; 1.75; 2.4; 2.7; 2.95; 3.1; 3.2; 3.3; 3.4; 3.5].

Definition p2 : list R :=
  [0.0; 0.05; 0.5; 1.4; 2.6; 3.7; 4.6; 5.3; 5.95; 6.55; 7.1].

Definition p3 : list R :=
  [0.0; 0.05; 0.5; 1.4; 2.6; 3.7; 4.6; 5.4; 6.05; 6.8; 7.2].

(** Dump voltage, [vd = 2.0e0 * tfes / (tdump * aio)]. *)
Definition dump_voltage (aio tfes tdump : R) : R :=
  2.0 * tfes / (tdump * aio).

(** Normalised temperature-rise index [tav] and the two table
    positions [n_o], [n_p] derived from it. *)
Definition tav (tba tmax : R) : R := 1.0 + (tmax - tba) / 20.0.

Definition n_o (tba tmax : R) : Z := py_int (tav tba tmax).

Definition n_p (tba tmax : R) : Z := Z.min (n_o tba tmax + 1) 11.

(** One interpolated coefficient:
    [1.0e16 * (p[n_o - 1] + (p[n_p - 1] - p[n_o - 1]) * (tav - n_o))]. *)
Definition interp (p : list R) (tba tmax : R) : outcome R :=
  let t := tav tba tmax in
  let no := n_o tba tmax in
  let np := n_p tba tmax in
  (a <~ py_getitem p (no - 1) ;
   b <~ py_getitem p (np - 1) ;
   c <~ py_getitem p (no - 1) ;
   Returns (1.0e16 * (a + (b - c) * (t - IZR no))))%outcome.

(** [protect(aio, tfes, acs, aturn, tdump, fcond, fcu, tba, tmax)]
    returns [(ajwpro, vd)]. *)
Definition protect (aio tfes acs aturn tdump fcond fcu tba tmax : R)
  : outcome (R * R) :=
  let vd := dump_voltage aio tfes tdump in
  (ai1 <~ interp p1 tba tmax ;
   ai2 <~ interp p2 tba tmax ;
   ai3 <~ interp p3 tba tmax ;
   let aa := vd * aio / tfes in
   let bb := (1.0 - fcond) * fcond * fcu * ai1 in
   let cc := (fcu * fcond) ^ 2 * ai2 in
   let dd := (1.0 - fcu) * fcu * fcond ^ 2 * ai3 in
   let ajcp := sqrt (aa * (bb + cc + dd)) in
   let ajwpro := ajcp * (acs / aturn) in
   Returns (ajwpro, vd))%outcome.

End Protect.

(** ** The module-level store *)

(** A line written to the output file by [process_output]. *)
Inductive out_line : Type :=
| Oheadr (title : string)
| Ocmmnt (text : string)
| Oblnkl
| Ovarin (descr tag : string) (value : Z)
| Ovarre (descr tag : string) (value : R) (flag : string).

(** A message handed to [logger.warning]. *)
Inductive warning : Type :=
| NegativeIooic (jsc iooic j_crit_sc acs dr_cable dx_cable : R)
| NegativeTmargin.

(** The variables of [tfcoil_variables], [rebco_variables],
    [sctfcoil_module], [global_variables] and [error_handling] that
    [supercon] touches, with the logger and the output file. *)
Record store : Type := mkStore {
  dia_tf_turn_coolant_channel : R;
  i_str_wp : Z;
  str_tf_con_res : R;
  str_wp : R;
  j_crit_str_tf : R;
  b_crit_upper_nbti : R;
  t_crit_nbti : R;
  bmaxtfrp : R;
  temp_margin : R;
  jwdgpro : R;
  tmargmin_tf : R;
  c_tf_turn : R;
  tape_width : R;
  rebco_thickness : R;
  tape_thickness : R;
  dr_tf_turn_cable_space : R;
  dx_tf_turn_cable_space : R;
  tf_fit_t : R;
  tf_fit_z : R;
  tf_fit_y : R;
  run_tests : Z;
  fdiags0 : R;
  reported : list Z;
  warnings : list warning;
  outfile : list out_line
}.

Definition set_j_crit_str_tf (v : R) (s : store) : store :=
  mkStore s.(dia_tf_turn_coolant_channel) s.(i_str_wp) s.(str_tf_con_res)
    s.(str_wp) v s.(b_crit_upper_nbti) s.(t_crit_nbti) s.(bmaxtfrp)
    s.(temp_margin) s.(jwdgpro) s.(tmargmin_tf) s.(c_tf_turn) s.(tape_width)
    s.(rebco_thickness) s.(tape_thickness) s.(dr_tf_turn_cable_space)
    s.(dx_tf_turn_cable_space) s.(tf_fit_t) s.(tf_fit_z) s.(tf_fit_y)
    s.(run_tests) s.(fdiags0) s.(reported) s.(warnings) s.(outfile).

Definition set_temp_margin (v : R) (s : store) : store :=
  mkStore s.(dia_tf_turn_coolant_channel) s.(i_str_wp) s.(str_tf_con_res)
    s.(str_wp) s.(j_crit_str_tf) s.(b_crit_upper_nbti) s.(t_crit_nbti)
    s.(bmaxtfrp) v s.(jwdgpro) s.(tmargmin_tf) s.(c_tf_turn) s.(tape_width)
    s.(rebco_thickness) s.(tape_thickness) s.(dr_tf_turn_cable_space)
    s.(dx_tf_turn_cable_space) s.(tf_fit_t) s.(tf_fit_z) s.(tf_fit_y)
    s.(run_tests) s.(fdiags0) s.(reported) s.(warnings) s.(outfile).

Definition set_jwdgpro (v : R) (s : store) : store :=
  mkStore s.(dia_tf_turn_coolant_channel) s.(i_str_wp) s.(str_tf_con_res)
    s.(str_wp) s.(j_crit_str_tf) s.(b_crit_upper_nbti) s.(t_crit_nbti)
    s.(bmaxtfrp) s.(temp_margin) v s.(tmargmin_tf) s.(c_tf_turn) s.(tape_width)
    s.(rebco_thickness) s.(tape_thickness) s.(dr_tf_turn_cable_space)
    s.(dx_tf_turn_cable_space) s.(tf_fit_t) s.(tf_fit_z) s.(tf_fit_y)
    s.(run_tests) s.(fdiags0) s.(reported) s.(warnings) s.(outfile).

Definition set_fdiags0 (v : R) (s : store) : store :=
  mkStore s.(dia_tf_turn_coolant_channel) s.(i_str_wp) s.(str_tf_con_res)
    s.(str_wp) s.(j_crit_str_tf) s.(b_crit_upper_nbti) s.(t_crit_nbti)
    s.(bmaxtfrp) s.(temp_margin) s.(jwdgpro) s.(tmargmin_tf) s.(c_tf_turn)
    s.(tape_width) s.(rebco_thickness) s.(tape_thickness)
    s.(dr_tf_turn_cable_space) s.(dx_tf_turn_cable_space) s.(tf_fit_t)
    s.(tf_fit_z) s.(tf_fit_y) s.(run_tests) v s.(reported) s.(warnings)
    s.(outfile).

Definition add_reported (code : Z) (s : store) : store :=
  mkStore s.(dia_tf_turn_coolant_channel) s.(i_str_wp) s.(str_tf_con_res)
    s.(str_wp) s.(j_crit_str_tf) s.(b_crit_upper_nbti) s.(t_crit_nbti)
    s.(bmaxtfrp) s.(temp_margin) s.(jwdgpro) s.(tmargmin_tf) s.(c_tf_turn)
    s.(tape_width) s.(rebco_thickness) s.(tape_thickness)
    s.(dr_tf_turn_cable_space) s.(dx_tf_turn_cable_space) s.(tf_fit_t)
    s.(tf_fit_z) s.(tf_fit_y) s.(run_tests) s.(fdiags0)
    (s.(reported) ++ [code]) s.(warnings) s.(outfile).

Definition add_warning (w : warning) (s : store) : store :=
  mkStore s.(dia_tf_turn_coolant_channel) s.(i_str_wp) s.(str_tf_con_res)
    s.(str_wp) s.(j_crit_str_tf) s.(b_crit_upper_nbti) s.(t_crit_nbti)
    s.(bmaxtfrp) s.(temp_margin) s.(jwdgpro) s.(tmargmin_tf) s.(c_tf_turn)
    s.(tape_width) s.(rebco_thickness) s.(tape_thickness)
    s.(dr_tf_turn_cable_space) s.(dx_tf_turn_cable_space) s.(tf_fit_t)
    s.(tf_fit_z) s.(tf_fit_y) s.(run_tests) s.(fdiags0) s.(reported)
    (s.(warnings) ++ [w]) s.(outfile).

Definition add_outfile (ls : list out_line) (s : store) : store :=
  mkStore s.(dia_tf_turn_coolant_channel) s.(i_str_wp) s.(str_tf_con_res)
    s.(str_wp) s.(j_crit_str_tf) s.(b_crit_upper_nbti) s.(t_crit_nbti)
    s.(bmaxtfrp) s.(temp_margin) s.(jwdgpro) s.(tmargmin_tf) s.(c_tf_turn)
    s.(tape_width) s.(rebco_thickness) s.(tape_thickness)
    s.(dr_tf_turn_cable_space) s.(dx_tf_turn_cable_space) s.(tf_fit_t)
    s.(tf_fit_z) s.(tf_fit_y) s.(run_tests) s.(fdiags0) s.(reported)
    s.(warnings) (s.(outfile) ++ ls).

(** ** The state-and-exception monad *)

Definition M (A : Type) : Type := store -> outcome A * store.

Definition ret {A} (a : A) : M A := fun s => (Returns a, s).

Definition raise {A} (e : exn) : M A := fun s => (Raises e, s).

Definition bind {A B} (m : M A) (k : A -> M B) : M B :=
  fun s => match m s with
           | (Returns a, s') => k a s'
           | (Raises e, s') => (Raises e, s')
           end.

Definition get {A} (f : store -> A) : M A := fun s => (Returns (f s), s).

Definition modify (f : store -> store) : M unit := fun s => (Returns tt, f s).

Definition lift {A} (o : outcome A) : M A := fun s => (o, s).

Definition when (b : bool) (m : M unit) : M unit := if b then m else ret tt.

Declare Scope monad_scope.
Delimit Scope monad_scope with monad.
Notation "x <- c ;; k" := (bind c (fun x => k))
  (at level 61, c at next level, right associativity) : monad_scope.
Notation "c ;; k" := (bind c (fun _ => k))
  (at level 61, right associativity) : monad_scope.

(** [error_handling.report_error(code)]. *)
Definition report_error (code : Z) : M unit := modify (add_reported code).

(** Boolean comparisons on floats. *)
Definition Rgtb (x y : R) : bool := if Rlt_dec y x then true else false.
Definition Rleb (x y : R) : bool := if Rle_dec x y then true else false.
Definition Rgeb (x y : R) : bool := if Rle_dec y x then true else false.

(** ** The interface of [scipy.optimize.newton] *)

(** The object returned with [full_output=True]. *)
Record RootResults : Type := mkRootResults {
  rr_root : R;
  rr_iterations : Z;
  rr_function_calls : Z;
  rr_converged : bool
}.

(** One call [optimize.newton(func, x0, fprime=..., tol=..., maxiter=...,
    fprime2=..., x1=..., rtol=..., full_output=..., disp=...)], after
    [args] has been applied to [func]. *)
Record newton_call : Type := mkNewtonCall {
  nc_func : R -> R;
  nc_x0 : R;
  nc_fprime : option (R -> R);
  nc_tol : R;
  nc_maxiter : Z;
  nc_fprime2 : option (R -> R);
  nc_x1 : option R;
  nc_rtol : R;
  nc_full_output : bool;
  nc_disp : bool
}.

Definition root_finder : Type := newton_call -> outcome (R * RootResults).

(** The tuple [arguments] handed to [current_density_margin] through
    [args]; [ma_c0] is present for [isumat == 3] only. *)
Record margin_args : Type := mkMarginArgs {
  ma_isumat : Z;
  ma_jsc : R;
  ma_bmax : R;
  ma_strain : R;
  ma_bc20m : R;
  ma_tc0m : R;
  ma_c0 : option R
}.

(** ** [supercon] *)

(** Total helium fraction, capped at 0.99. *)
Definition fhetot_of (fhe dia acs : R) : R :=
  let fhetot := fhe + (PI / 4.0) * dia * dia / acs in
  if Rgtb fhetot 0.99 then 0.99 else fhetot.

(** Conductor fraction (including central helium channel). *)
Definition fcond_of (fhe dia acs : R) : R := 1.0 - fhetot_of fhe dia acs.

(** The materials for which the zero-margin temperature is searched. *)
Definition uses_root_find (isumat : Z) : bool :=
  ((isumat =? 1) || (isumat =? 3) || (isumat =? 4) || (isumat =? 5)
   || (isumat =? 7) || (isumat =? 8) || (isumat =? 9))%Z.

(** The strain limit block that precedes a correlation:
    above the limit the strain is recorded in [fdiags[0]], error 261 is
    reported and the strain is replaced by [np.sign(strain) * limit]. *)
Definition clamp_strain (limit strain : R) : M R :=
  (if Rgtb (Rabs strain) limit then
     modify (set_fdiags0 strain) ;;
     report_error 261 ;;
     ret (np_sign strain * limit)
   else ret strain)%monad.

(** What the material branch leaves in the local variables. *)
Record conductor : Type := mkConductor {
  cd_j_crit_sc : R;
  cd_j_crit_cable : R;
  cd_icrit : R;
  cd_strain : R;
  cd_bc20m : option R;
  cd_tc0m : option R;
  cd_c0 : option R;
  cd_tmarg : option R
}.

(** Reading a local variable that a branch may have left unbound. *)
Definition local (name : string) (o : option R) : M R :=
  match o with
  | Some x => ret x
  | None => raise (UnboundLocalError name)
  end.

(** *** The report written when [output] is set *)

Definition bc20m_tc0m_lines (bc20m tc0m : R) : list out_line :=
  [Ovarre "Critical field at zero temperature and strain (T)" "(bc20m)"
     bc20m "";
   Ovarre "Critical temperature at zero field and strain (K)" "(tc0m)"
     tc0m ""].

(** The lines of one [if isumat == k:] block of the report. *)
Definition material_block (isumat k : Z) (comments : list string)
    (with_constants : bool) (cd : conductor) : M unit :=
  (if (isumat =? k)%Z then
     modify (add_outfile (map Ocmmnt comments)) ;;
     if with_constants then
       bc20m <- local "bc20m" cd.(cd_bc20m) ;;
       tc0m <- local "tc0m" cd.(cd_tc0m) ;;
       modify (add_outfile (bc20m_tc0m_lines bc20m tc0m))
     else ret tt
   else ret tt)%monad.

Definition supercon_output (isumat : Z) (cd : conductor)
    (thelium fhetot fcu j_tf_wp_critical jwdgop tmarg iooic : R) : M unit :=
  (when (Rleb tmarg 0.0) (modify (add_warning NegativeTmargin)) ;;
   modify (add_outfile
     [Oheadr "Superconducting TF Coils";
      Ovarin "Superconductor switch" "(isumat)" isumat]) ;;
   material_block isumat 1
     ["Superconductor used: Nb3Sn";
      "  (ITER Jcrit model, standard parameters)"]%string true cd ;;
   material_block isumat 2 ["Superconductor used: Bi-2212 HTS"]%string false cd ;;
   material_block isumat 3 ["Superconductor used: NbTi"]%string true cd ;;
   material_block isumat 4
     ["Superconductor used: Nb3Sn";
      "  (ITER Jcrit model, user-defined parameters)"]%string true cd ;;
   material_block isumat 5
     ["Superconductor used: Nb3Sn";
      " (WST Nb3Sn critical surface model)"]%string true cd ;;
   material_block isumat 7
     ["Superconductor used: Nb-Ti";
      " (Durham Ginzburg-Landau critical surface model)"]%string true cd ;;
   material_block isumat 8
     ["Superconductor used: REBCO";
      " (Durham Ginzburg-Landau critical surface model)"]%string true cd ;;
   material_block isumat 9
     ["Superconductor used: REBCO";
      " (Hazelton experimental data + Zhai conceptual model)"]%string true cd ;;
   rt <- get run_tests ;;
   ft <- get tf_fit_t ;;
   fz <- get tf_fit_z ;;
   fy <- get tf_fit_y ;;
   when (rt =? 1)%Z (modify (add_outfile
     [Oblnkl;
      Ocmmnt "PROCESS TF Coil peak field fit. Values for t, z and y:";
      Oblnkl;
      Ovarre "Dimensionless winding pack width" "(tf_fit_t)" ft "OP ";
      Ovarre "Dimensionless winding pack radial thickness" "(tf_fit_z)" fz
        "OP ";
      Ovarre
        "Ratio of peak field with ripple to nominal axisymmetric peak field"
        "(tf_fit_y)" fy "OP "])) ;;
   res <- get str_tf_con_res ;;
   swp <- get str_wp ;;
   tmin <- get tmargmin_tf ;;
   cturn <- get c_tf_turn ;;
   modify (add_outfile
     [Oblnkl;
      Ovarre
        "Helium temperature at peak field (= superconductor temperature) (K)"
        "(thelium)" thelium "";
      Ovarre "Total helium fraction inside cable space" "(fhetot)" fhetot
        "OP ";
      Ovarre "Copper fraction of conductor" "(fcutfsu)" fcu "";
      Ovarre "Residual manufacturing strain on superconductor"
        "(str_tf_con_res)" res "";
      Ovarre "Self-consistent strain on superconductor" "(str_wp)" swp "";
      Ovarre "Critical current density in superconductor (A/m2)"
        "(j_crit_sc)" cd.(cd_j_crit_sc) "OP ";
      Ovarre "Critical current density in cable (A/m2)" "(j_crit_cable)"
        cd.(cd_j_crit_cable) "OP ";
      Ovarre "Critical current density in winding pack (A/m2)"
        "(j_tf_wp_critical)" j_tf_wp_critical "OP ";
      Ovarre "Actual current density in winding pack (A/m2)" "(jwdgop)"
        jwdgop "OP ";
      Ovarre "Minimum allowed temperature margin in superconductor (K)"
        "(tmargmin_tf)" tmin "";
      Ovarre "Actual temperature margin in superconductor (K)" "(tmarg)"
        tmarg "OP ";
      Ovarre "Critical current (A)" "(icrit)" cd.(cd_icrit) "OP ";
      Ovarre "Actual current (A)" "(c_tf_turn)" cturn "OP ";
      Ovarre "Actual current / critical current" "(iooic)" iooic "OP "]))%monad.

Section Supercon.

(** The correlations of [process.superconductors], the margin function
    handed to the root finder, and [scipy.optimize.newton] are not part of
    this file of the program; they are taken as given.  The correlations
    are functions of their arguments alone. *)
Variable itersc : R -> R -> R -> R -> R -> R * R * R.
Variable bi2212 : R -> R -> R -> R -> R * R.
Variable jcrit_nbti : R -> R -> R -> R -> R -> R * R.
Variable western_superconducting_nb3sn : R -> R -> R -> R -> R -> R * R * R.
Variable gl_nbti : R -> R -> R -> R -> R -> R * R * R.
Variable gl_rebco : R -> R -> R -> R -> R -> R * R * R.
Variable hijc_rebco : R -> R -> R -> R -> R -> R -> R -> R * R * R.
Variable current_density_margin : R -> margin_args -> R.
Variable newton : root_finder.

(** The common tail of the branches that scale [j_crit_sc] by the
    non-copper and conductor fractions. *)
Definition cable_branch (j_crit_sc fcu fcond acs strain bc20m tc0m : R)
    (c0 : option R) (j_crit_str : R) : M conductor :=
  (let j_crit_cable := j_crit_sc * (1.0 - fcu) * fcond in
   let icrit := j_crit_cable * acs in
   modify (set_j_crit_str_tf j_crit_str) ;;
   ret (mkConductor j_crit_sc j_crit_cable icrit strain
          (Some bc20m) (Some tc0m) c0 None))%monad.

(** The [if isumat == 1: ... elif ... else: raise] chain. *)
Definition material_branch (isumat : Z)
    (acs aturn bmax fcu jwp fhts thelium bcritsc tcritsc fcond strain : R)
  : M conductor :=
  (if (isumat =? 1)%Z then
     let bc20m := 32.97 in
     let tc0m := 16.06 in
     strain <- clamp_strain 0.5e-2 strain ;;
     let j_crit_sc := fst (fst (itersc thelium bmax strain bc20m tc0m)) in
     cable_branch j_crit_sc fcu fcond acs strain bc20m tc0m None
       (j_crit_sc * (1.0 - fcu))
   else if (isumat =? 2)%Z then
     let jstrand := jwp * aturn / (acs * fcond) in
     let '(j_crit_cable, tmarg) := bi2212 bmax jstrand thelium fhts in
     let j_crit_sc := j_crit_cable / (1.0 - fcu) in
     let icrit := j_crit_cable * acs * fcond in
     modify (set_j_crit_str_tf j_crit_sc) ;;
     ret (mkConductor j_crit_sc j_crit_cable icrit strain
            None None None (Some tmarg))
   else if (isumat =? 3)%Z then
     let bc20m := 15.0 in
     let tc0m := 9.3 in
     let c0 := 1.0e10 in
     let j_crit_sc := fst (jcrit_nbti thelium bmax c0 bc20m tc0m) in
     cable_branch j_crit_sc fcu fcond acs strain bc20m tc0m (Some c0)
       (j_crit_sc * (1.0 - fcu))
   else if (isumat =? 4)%Z then
     let bc20m := bcritsc in
     let tc0m := tcritsc in
     strain <- clamp_strain 0.5e-2 strain ;;
     let j_crit_sc := fst (fst (itersc thelium bmax strain bc20m tc0m)) in
     cable_branch j_crit_sc fcu fcond acs strain bc20m tc0m None
       (j_crit_sc * (1.0 - fcu))
   else if (isumat =? 5)%Z then
     let bc20m := 32.97 in
     let tc0m := 16.06 in
     strain <- clamp_strain 0.5e-2 strain ;;
     let j_crit_sc :=
       fst (fst (western_superconducting_nb3sn thelium bmax strain bc20m tc0m))
     in
     cable_branch j_crit_sc fcu fcond acs strain bc20m tc0m None
       (j_crit_sc * (1.0 - fcu))
   else if (isumat =? 6)%Z then
     raise (ProcessValueError
       "sctfcoil.supercon has been called but tfcoil_variables.i_tf_sc_mat=6"
       None)
   else if (isumat =? 7)%Z then
     bc20m <- get b_crit_upper_nbti ;;
     tc0m <- get t_crit_nbti ;;
     let j_crit_sc := fst (fst (gl_nbti thelium bmax strain bc20m tc0m)) in
     cable_branch j_crit_sc fcu fcond acs strain bc20m tc0m None
       (j_crit_sc * (1.0 - fcu))
   else if (isumat =? 8)%Z then
     let bc20m := 430 in
     let tc0m := 185 in
     strain <- clamp_strain 0.7e-2 strain ;;
     let j_crit_sc := fst (fst (gl_rebco thelium bmax strain bc20m tc0m)) in
     cable_branch j_crit_sc fcu fcond acs strain bc20m tc0m None j_crit_sc
   else if (isumat =? 9)%Z then
     let bc20m := 138 in
     let tc0m := 92 in
     strain <- clamp_strain 0.7e-2 strain ;;
     tw <- get tape_width ;;
     rt <- get rebco_thickness ;;
     tt <- get tape_thickness ;;
     let j_crit_sc :=
       fst (fst (hijc_rebco thelium bmax bc20m tc0m tw rt tt)) in
     cable_branch j_crit_sc fcu fcond acs strain bc20m tc0m None
       (j_crit_sc * (1.0 - fcu))
   else
     raise (ProcessValueError "Illegal value for i_tf_sc_mat" (Some isumat))
  )%monad.

(** The call made to the root finder: seeded at [thelium], second point
    [2 * thelium], secant (no derivatives). *)
Definition margin_call (arguments : margin_args) (thelium : R) : newton_call :=
  let another_estimate := 2 * thelium in
  mkNewtonCall (fun ttest => current_density_margin ttest arguments)
    thelium None 1.0e-06 50 None (Some another_estimate) 1.0e-6 true true.

(** The temperature-margin block: for the materials of [uses_root_find]
    the margin is the root minus [thelium] and is stored in
    [temp_margin]; otherwise [tmarg] stays as the branch left it. *)
Definition temperature_margin (isumat : Z) (cd : conductor)
    (jsc bmax thelium : R) : M (option R) :=
  (if uses_root_find isumat then
     bc20m <- local "bc20m" cd.(cd_bc20m) ;;
     tc0m <- local "tc0m" cd.(cd_tc0m) ;;
     arguments <-
       (if (isumat =? 3)%Z then
          c0 <- local "c0" cd.(cd_c0) ;;
          ret (mkMarginArgs isumat jsc bmax cd.(cd_strain) bc20m tc0m (Some c0))
        else
          ret (mkMarginArgs isumat jsc bmax cd.(cd_strain) bc20m tc0m None)) ;;
     r <- lift (newton (margin_call arguments thelium)) ;;
     let '(t_zero_margin, root_result) := r in
     let tmarg := t_zero_margin - thelium in
     modify (set_temp_margin tmarg) ;;
     ret (Some tmarg)
   else ret cd.(cd_tmarg))%monad.

(** The statements of [supercon] that follow the material branch:
    current densities, the two diagnostics, the temperature margin, the
    protection limit, the report and the [return]. *)
Definition supercon_tail (acs aturn bmax fcu iop : R) (isumat : Z)
    (tdump tfes thelium tmax fhetot fcond : R) (output : bool)
    (cd : conductor) : M (R * R * R) :=
  (let j_tf_wp_critical := cd.(cd_icrit) / aturn in
   let iooic := iop / cd.(cd_icrit) in
   let jwdgop := iop / aturn in
   let jsc := iooic * cd.(cd_j_crit_sc) in
   dr <- get dr_tf_turn_cable_space ;;
   dx <- get dx_tf_turn_cable_space ;;
   when (Rleb iooic 0)
     (modify (add_warning
        (NegativeIooic jsc iooic cd.(cd_j_crit_sc) acs dr dx))) ;;
   bm <- get bmaxtfrp ;;
   when ((isumat =? 8)%Z && Rgeb bm 14) (report_error 266) ;;
   tm <- temperature_margin isumat cd jsc bmax thelium ;;
   pr <- lift (Protect.protect iop tfes acs aturn tdump fcond fcu thelium tmax) ;;
   let '(ajwpro, vd) := pr in
   modify (set_jwdgpro ajwpro) ;;
   (if output then
      tmarg <- local "tmarg" tm ;;
      supercon_output isumat cd thelium fhetot fcu j_tf_wp_critical jwdgop
        tmarg iooic
    else ret tt) ;;
   tmarg <- local "tmarg" tm ;;
   ret (j_tf_wp_critical, vd, tmarg))%monad.

(** [supercon(acs, aturn, bmax, fhe, fcu, iop, jwp, isumat, fhts, tdmptf,
    tfes, thelium, tmax, bcritsc, tcritsc, output)] returns
    [(j_tf_wp_critical, vd, tmarg)]. *)
Definition supercon (acs aturn bmax fhe fcu iop jwp : R) (isumat : Z)
    (fhts tdmptf tfes thelium tmax bcritsc tcritsc : R) (output : bool)
  : M (R * R * R) :=
  (let tdump := tdmptf in
   dia <- get dia_tf_turn_coolant_channel ;;
   let fhetot := fhetot_of fhe dia acs in
   let fcond := 1.0 - fhetot in
   isw <- get i_str_wp ;;
   strain <- (if (isw =? 0)%Z then get str_tf_con_res else get str_wp) ;;
   cd <- material_branch isumat acs aturn bmax fcu jwp fhts thelium
           bcritsc tcritsc fcond strain ;;
   supercon_tail acs aturn bmax fcu iop isumat tdump tfes thelium tmax
     fhetot fcond output cd)%monad.

End Supercon.

(** ** [vv_stress_on_quench] *)

Module Quench.

(** [lambda_term(tau, omega)]. *)
Definition lambda_term (tau omega : R) : R :=
  let p := 1.0 - omega ^ 2 in
  if Rlt_dec p 0 then
    (1.0 / sqrt (Rabs p)) * asin ((1.0 + omega * tau) / (tau + omega))
  else
    (1.0 / sqrt (Rabs p))
    * ln ((2.0 * (1.0 + tau * omega - sqrt (p * (1 - tau ^ 2))))
          / (tau + omega)).

(** [_theta_factor_integral(ro_vv, ri_vv, rm_vv, h_vv, theta1_vv)]. *)
Definition _theta_factor_integral (ro_vv ri_vv rm_vv h_vv theta1_vv : R) : R :=
  let theta2 := PI / 2.0 + theta1_vv in
  let a := (ro_vv - ri_vv) / 2.0 in
  let rbar := (ro_vv + ri_vv) / 2.0 in
  let delta := (rbar - rm_vv) / a in
  let kappa := h_vv / a in
  let iota := (1.0 + delta) / kappa in
  let denom := cos theta1_vv + sin theta1_vv - 1.0 in
  let r1 := h_vv * ((cos theta1_vv + iota * (sin theta1_vv - 1.0)) / denom) in
  let r2 := h_vv * ((cos theta1_vv - 1.0 + iota * sin theta1_vv) / denom) in
  let r3 := h_vv * (1 - delta) / kappa in
  let rc1 := (h_vv / kappa) * ((rbar / a) + 1.0) - r1 in
  let rc2 := rc1 + (r1 - r2) * cos theta1_vv in
  let rc3 := rc2 in
  let zc2 := (r1 - r2) * sin theta1_vv in
  let zc3 := zc2 + r2 - r3 in
  let tau0 := [cos theta1_vv; cos (theta1_vv + theta2); -1.0] in
  let tau1 := [1.0; cos theta1_vv; cos (theta1_vv + theta2)] in
  let omega := [rc1 / r1; rc2 / r2; rc3 / r3] in
  let chi1 := (zc3 + Rabs (- zc3)) / ri_vv in
  let chi2 :=
    fold_left
      (fun chi2 k =>
         chi2 + Rabs (lambda_term (nth k tau1 0) (nth k omega 0)
                      - lambda_term (nth k tau0 0) (nth k omega 0)))
      (seq 0 (List.length omega)) 0.0 in
  (chi1 + 2.0 * chi2) / (2.0 * PI).

(** [_inductance_factor(H, ri, ro, rm, theta1)]. *)
Definition _inductance_factor (H ri ro rm theta1 : R) : R :=
  let major_radius := (ro + ri) / 2 in
  let minor_radius := (ro - ri) / 2 in
  let aspect_ratio := major_radius / minor_radius in
  let triangularity := (major_radius - rm) / minor_radius in
  let elongation := H / minor_radius in
  4.933
  + 0.03728 * elongation
  + 0.06980 * triangularity
  - 3.551 * aspect_ratio
  + 0.7629 * aspect_ratio ^ 2
  - 0.06298 * (theta1 / 90).

(** The keyword arguments of [vv_stress_on_quench]. *)
Record args : Type := mkArgs {
  H_coil : R;
  ri_coil : R;
  ro_coil : R;
  rm_coil : R;
  ccl_length_coil : R;
  theta1_coil : R;
  H_vv : R;
  ri_vv : R;
  ro_vv : R;
  rm_vv : R;
  theta1_vv : R;
  n_tf_coils : R;
  n_tf_coil_turns : R;
  s_rp : R;
  s_cc : R;
  taud : R;
  i_op : R;
  d_vv : R
}.

(** The same call with another shell thickness. *)
Definition with_d_vv (a : args) (d : R) : args :=
  mkArgs a.(H_coil) a.(ri_coil) a.(ro_coil) a.(rm_coil) a.(ccl_length_coil)
    a.(theta1_coil) a.(H_vv) a.(ri_vv) a.(ro_vv) a.(rm_vv) a.(theta1_vv)
    a.(n_tf_coils) a.(n_tf_coil_turns) a.(s_rp) a.(s_cc) a.(taud) a.(i_op) d.

Section Model.

(** [constants.rmu0], the permeability of free space, is defined outside
    this file of the program. *)
Variable rmu0 : R.

Definition theta1_vv_rad (a : args) : R := PI * (a.(theta1_vv) / 180.0).

Definition theta_vv (a : args) : R :=
  _theta_factor_integral a.(ro_vv) a.(ri_vv) a.(rm_vv) a.(H_vv)
    (theta1_vv_rad a).

Definition plr_coil (a : args) : R :=
  ((0.5 * a.(ccl_length_coil))
   / (a.(n_tf_coils) * (a.(s_cc) + a.(s_rp)))) * 1e-6.

Definition plr_vv (a : args) : R := ((0.84 / a.(d_vv)) * theta_vv a) * 1e-6.

Definition coil_structure_self_inductance (a : args) : R :=
  (rmu0 / PI) * a.(H_coil)
  * _inductance_factor a.(H_coil) a.(ri_coil) a.(ro_coil) a.(rm_coil)
      a.(theta1_coil).

Definition vv_self_inductance (a : args) : R :=
  (rmu0 / PI) * a.(H_vv)
  * _inductance_factor a.(H_vv) a.(ri_vv) a.(ro_vv) a.(rm_vv) a.(theta1_vv).

Definition lambda0 (a : args) : R := 1 / a.(taud).
Definition lambda1 (a : args) : R :=
  plr_coil a / coil_structure_self_inductance a.
Definition lambda2 (a : args) : R := plr_vv a / vv_self_inductance a.

(** Approximate time at which the maximum force occurs on the VV. *)
Definition tmaxforce (a : args) : R :=
  ln ((lambda0 a + lambda1 a) / (2 * lambda0 a)) / (lambda1 a - lambda0 a).

Definition i0 (a : args) : R := a.(i_op) * exp (- lambda0 a * tmaxforce a).

Definition i1 (a : args) : R :=
  lambda0 a * a.(n_tf_coils) * a.(n_tf_coil_turns) * a.(i_op)
  * ((exp (- lambda1 a * tmaxforce a) - exp (- lambda0 a * tmaxforce a))
     / (lambda0 a - lambda1 a)).

Definition i2 (a : args) : R := (lambda1 a / lambda2 a) * i1 a.

Definition a_vv (a : args) : R := (a.(ro_vv) + a.(ri_vv)) / (a.(ro_vv) - a.(ri_vv)).

Definition b_vvi (a : args) : R :=
  (rmu0 * (a.(n_tf_coils) * a.(n_tf_coil_turns) * i0 a + i1 a + (i2 a / 2)))
  / (2 * PI * a.(ri_vv)).

Definition j_vvi (a : args) : R := i2 a / (2 * PI * a.(d_vv) * a.(ri_vv)).

Definition zeta (a : args) : R :=
  1 + ((a_vv a - 1) * ln ((a_vv a + 1) / (a_vv a - 1)) / (2 * a_vv a)).

(** The value of the [return] statement. *)
Definition tresca_stress (a : args) : R :=
  zeta a * b_vvi a * j_vvi a * a.(ri_vv).

(** The function has no [raise] and no guard: whatever the arguments,
    control reaches the [return]. *)
Definition vv_stress_on_quench (a : args) : outcome R :=
  Returns (tresca_stress a).

End Model.

End Quench.

(** ** A reference root finder

    An instance of [root_finder] that follows the documented behaviour of
    [scipy.optimize.newton] when no derivative is given: the secant
    iteration from [x0] and [x1], stopping when two successive iterates
    are close, and, with [disp] set, raising [RuntimeError] instead of
    returning an iterate that has not converged.  It serves to exhibit an
    instance of the interface; [supercon] itself is stated for any root
    finder. *)

Module Secant.

Definition isclose (a b rtol atol : R) : bool :=
  Rleb (Rabs (a - b)) (atol + rtol * Rabs b).

Definition Reqb (x y : R) : bool := if Req_dec_T x y then true else false.

Fixpoint loop (f : R -> R) (tol rtol : R) (disp : bool) (fuel : nat)
    (itr funcalls : Z) (p0 p1 q0 q1 p_last : R) : outcome (R * RootResults) :=
  match fuel with
  | O =>
      if disp then Raises (RuntimeError "Failed to converge")
      else Returns (p_last, mkRootResults p_last itr funcalls false)
  | S fuel' =>
      if Reqb q1 q0 then
        if negb (Reqb p1 p0) && disp then
          Raises (RuntimeError "Tolerance reached. Failed to converge")
        else
          let p := (p1 + p0) / 2.0 in
          Returns (p, mkRootResults p (itr + 1) funcalls true)
      else
        let p :=
          if Rgtb (Rabs q1) (Rabs q0)
          then (- q0 / q1 * p1 + p0) / (1 - q0 / q1)
          else (- q1 / q0 * p0 + p1) / (1 - q1 / q0) in
        if isclose p p1 rtol tol then
          Returns (p, mkRootResults p (itr + 1) funcalls true)
        else
          loop f tol rtol disp fuel' (itr + 1) (funcalls + 1)
            p1 p q1 (f p) p
  end.

Definition start (f : R -> R) (tol rtol : R) (disp : bool) (maxiter : Z)
    (p0 p1 : R) : outcome (R * RootResults) :=
  let q0 := f p0 in
  let q1 := f p1 in
  if Rgtb (Rabs q0) (Rabs q1)
  then loop f tol rtol disp (Z.to_nat maxiter) 0 2 p1 p0 q1 q0 p0
  else loop f tol rtol disp (Z.to_nat maxiter) 0 2 p0 p1 q0 q1 p1.

(** The derivative arguments are not consulted: this instance is the
    secant branch only. *)
Definition newton : root_finder := fun c =>
  if Rleb c.(nc_tol) 0 then Raises (ValueError "tol too small")
  else if (c.(nc_maxiter) <? 1)%Z then
    Raises (ValueError "maxiter must be greater than 0")
  else
    let p0 := c.(nc_x0) in
    match c.(nc_x1) with
    | Some x1 =>
        if Reqb x1 p0 then Raises (ValueError "x1 and x0 must be different")
        else start c.(nc_func) c.(nc_tol) c.(nc_rtol) c.(nc_disp)
               c.(nc_maxiter) p0 x1
    | None =>
        let eps := 1e-4 in
        let p1 := p0 * (1 + eps) in
        let p1 := p1 + (if Rgeb p1 0 then eps else - eps) in
        start c.(nc_func) c.(nc_tol) c.(nc_rtol) c.(nc_disp)
          c.(nc_maxiter) p0 p1
    end.

End Secant.


(** ** The strain seen by [supercon] *)

(** The strain that [supercon] selects from the store. *)
Definition strain_in (s : store) : R :=
  if (s.(i_str_wp) =? 0)%Z then s.(str_tf_con_res) else s.(str_wp).

(** The store with both strain variables set to [v], so that [supercon]
    is called with strain [v] whichever one it selects. *)
Definition with_strain (v : R) (s : store) : store :=
  mkStore s.(dia_tf_turn_coolant_channel) s.(i_str_wp) v v
    s.(j_crit_str_tf) s.(b_crit_upper_nbti) s.(t_crit_nbti) s.(bmaxtfrp)
    s.(temp_margin) s.(jwdgpro) s.(tmargmin_tf) s.(c_tf_turn) s.(tape_width)
    s.(rebco_thickness) s.(tape_thickness) s.(dr_tf_turn_cable_space)
    s.(dx_tf_turn_cable_space) s.(tf_fit_t) s.(tf_fit_z) s.(tf_fit_y)
    s.(run_tests) s.(fdiags0) s.(reported) s.(warnings) s.(outfile).

(** The arguments tuple built for the root search. *)
Definition root_find_arguments (isumat : Z) (cd : conductor)
    (iop bmax b t : R) : margin_args :=
  let iooic := iop / cd.(cd_icrit) in
  let jsc := iooic * cd.(cd_j_crit_sc) in
  mkMarginArgs isumat jsc bmax cd.(cd_strain) b t
    (if (isumat =? 3)%Z then cd.(cd_c0) else None).

(** The strain limit that the material branch applies, if any. *)
Definition strain_limit (isumat : Z) : option R :=
  if ((isumat =? 1) || (isumat =? 4) || (isumat =? 5))%Z then Some 0.5e-2
  else if ((isumat =? 8) || (isumat =? 9))%Z then Some 0.7e-2
  else None.

(** A computation whose every run relates the store before to the store
    after, whether it returns or raises. *)
Definition respects {A} (rel : store -> store -> Prop) (m : M A) : Prop :=
  forall s o s', m s = (o, s') -> rel s s'.

(** Diagnostics already issued stay issued. *)
Definition diagnostics_kept (s s' : store) : Prop :=
  (forall c, In c s.(reported) -> In c s'.(reported))
  /\ s'.(fdiags0) = s.(fdiags0).

(** No diagnostic is issued other than code 266. *)
Definition only_266_added (s s' : store) : Prop :=
  forall c, In c s'.(reported) -> In c s.(reported) \/ c = 266%Z.

(** ** A synthetic instance

    Correlations with a known analytic form, used to run [supercon] on
    concrete inputs: a critical current density that falls linearly with
    temperature, [j(T) = 1 - T / tc0m], a strain-sensitive variant for
    the Ginzburg-Landau Nb-Ti entry point, and the margin
    [j(T) - jsc]. *)

Module Synthetic.

Definition linear (T B strain bc20m tc0m : R) : R * R * R :=
  (1 - T / tc0m, 0, 0).

Definition strained (T B strain bc20m tc0m : R) : R * R * R :=
  (1 + strain, 0, 0).

Definition bi2212 (bmax jstrand thelium fhts : R) : R * R :=
  (fhts, 1).

Definition jcrit_nbti (T B c0 bc20m tc0m : R) : R * R :=
  (1 - T / tc0m, 0).

Definition hijc_rebco (T B bc20m tc0m tw rt tt : R) : R * R * R :=
  (1 - T / tc0m, 0, 0).

Definition current_density_margin (ttest : R) (a : margin_args) : R :=
  (1 - ttest / a.(ma_tc0m)) - a.(ma_jsc).

(** A store with no coolant channel, both strain variables at [strain],
    a Nb-Ti critical temperature of 16 K, and nothing reported yet. *)
Definition store0 (strain : R) : store :=
  mkStore 0 0 strain strain 0 14.86 16 12 0 0 1.5 68000 4.0e-3 1.0e-6 6.5e-5
    0.01 0.01 0 0 0 0 0 [] [] [].

(** [supercon] over the synthetic correlations, for a given root
    finder. *)
Definition run (nw : root_finder) :=
  supercon linear bi2212 jcrit_nbti linear strained linear hijc_rebco
    current_density_margin nw.

End Synthetic.

(** ** A sample quench geometry *)

Module QuenchSample.

(** The permeability of free space, to the ten digits usual for
    [rmu0]. *)
Definition rmu0 : R := 1.256637062e-6.

(** Coil and vessel current centre lines with inboard radius 1 m,
    outboard radius 3 m, height 2 m reached at radius 2 m, arcs joined at
    45 degrees; 16 coils of 100 turns, a dump time of 10 s and a shell
    0.1 m thick. *)
Definition geometry : Quench.args :=
  Quench.mkArgs 2 1 3 2 10 45 2 1 3 2 45 16 100 0.5 0.5 10 10000 0.1.

(** The same geometry with the dump time at which the two decay
    constants coincide, [taud = L1 / R1]. *)
Definition singular : Quench.args :=
  Quench.mkArgs 2 1 3 2 10 45 2 1 3 2 45 16 100 0.5 0.5
    (Quench.coil_structure_self_inductance rmu0 geometry
     / Quench.plr_coil geometry)
    10000 0.1.

End QuenchSample.

(** A computation that always returns. *)
Definition succeeds {A} (m : M A) : Prop :=
  forall s, exists a s', m s = (Returns a, s').

(** ** The coil geometry routines

    [tf_wp_geom], [tf_case_geom], [tf_wp_currents],
    [tf_integer_turn_geom], [tf_averaged_turn_geom],
    [sc_tf_internal_geom], [peak_tf_with_ripple], [croco_voltage] and the
    method [vv_stress_on_quench] read and write the variables of the
    Fortran modules by name.  The store is a map from names to values,
    the state of [error_handling] is kept beside it; none of these
    routines raises, so they are written in store-passing style. *)

(** [np.round]: to the nearest integer, ties to the even one. *)
Definition np_round (x : R) : R :=
  let f := Int_part x in
  let frac := x - IZR f in
  if Rlt_dec frac (1 / 2) then IZR f
  else if Rlt_dec (1 / 2) frac then IZR (f + 1)
  else if Z.even f then IZR f else IZR (f + 1).

(** The built-in [max(a, b)]: the first argument unless the second is
    larger. *)
Definition py_max (a b : R) : R := if Rgtb b a then b else a.

(** [np.clip(x, lo, None)]. *)
Definition np_clip_lower (x lo : R) : R := if Rlt_dec x lo then lo else x.

Definition Req_b (x y : R) : bool := if Req_dec_T x y then true else false.
Definition Rltb (x y : R) : bool := if Rlt_dec x y then true else false.

(** The integer module variables reach Python as [int32] values, and the
    product of two of them is an [int32] again: outside
    [-2^31, 2^31) it wraps around (two's complement). *)
Definition int32_mul (a b : Z) : Z :=
  ((a * b + 2 ^ 31) mod 2 ^ 32 - 2 ^ 31)%Z.

Module Geom.

(** The real-valued module variables, under the names the program gives
    them. *)
Inductive var : Type :=
| r_tf_inboard_in | r_tf_inboard_out | r_tf_inboard_mid | r_tf_outboard_mid
| z_tf_inside_half | dr_tf_inboard | dr_tf_outboard
| z_plasma_xpoint_upper | dz_xpoint_divertor | dz_divertor | dz_shld_upper
| dz_vv_upper | r_vv_inboard_out | dr_vv_outboard | dr_tf_shld_gap
| dr_shld_thermal_outboard | dr_shld_vv_gap_outboard | dr_vv_shells
| dr_tf_nose_case | dr_tf_wp | dx_tf_side_case | tinstf | tfinsgap
| wwp1 | wwp2 | a_tf_coil_inboard | n_tf_coils | a_tf_leg_outboard
| acasetf | acasetfo | dr_tf_plasma_case | c_tf_total | j_tf_wp
| t_turn_tf | t_cable_tf | c_tf_turn | layer_ins | t_conductor
| a_tf_turn_cable_space | a_tf_turn_steel | a_tf_turn_insulation
| n_tf_coil_turns | dx_tf_turn_steel | dx_tf_turn_insulation
| dia_tf_turn_coolant_channel | vftf | a_tf_wp_coolant_channels
| acond | avwp | a_tf_coil_wp_turn_insulation | aswp
| tdmptf | len_tf_coil | tfa0 | theta1_coil | theta1_vv
| r_wp_inner | r_wp_outer | r_wp_centre | tan_theta_coil
| rad_tf_coil_toroidal | t_wp_toroidal | t_wp_toroidal_av | awpc | awptf
| a_ground_ins | a_case_front | a_case_nose | t_lat_case_av | rbcndut
| dr_tf_turn | dx_tf_turn | c_tf_coil | t_conductor_radial
| t_conductor_toroidal | dr_tf_turn_cable_space | dx_tf_turn_cable_space
| t_cable | a_tf_steel | f_tf_steel | a_tf_ins | f_tf_ins
| tf_fit_t | tf_fit_z | tf_fit_y | time2 | tau2
| e_tf_magnetic_stored_total | vv_stress_quench.

Scheme Equality for var.

(** The integer-valued module variables. *)
Inductive ivar : Type := n_layer | n_pancake | i_tf_sc_mat.

(** The module variables: the real-valued and the integer-valued ones,
    the two switches of [tfcoil_variables] and the quench model name as
    [f2py_compatible_to_string] gives it. *)
Record gstate : Type := mkG {
  num : var -> R;
  int : ivar -> Z;
  t_turn_tf_is_input : bool;
  t_cable_tf_is_input : bool;
  quench_model : string
}.

(** The state of [error_handling]: the diagnostic values and the error
    codes reported so far, oldest first. *)
Record errors : Type := mkE {
  fdiags : Z -> R;
  reported : list Z
}.

(** Assignment to a module variable. *)
Definition wr (v : var) (x : R) (s : gstate) : gstate :=
  mkG (fun v' => if var_beq v v' then x else num s v')
    s.(int) s.(t_turn_tf_is_input) s.(t_cable_tf_is_input) s.(quench_model).

(** [error_handling.fdiags[i] = x]. *)
Definition set_fdiag (i : Z) (x : R) (e : errors) : errors :=
  mkE (fun j => if (i =? j)%Z then x else fdiags e j) e.(reported).

(** [error_handling.report_error(code)]. *)
Definition report_error (code : Z) (e : errors) : errors :=
  mkE e.(fdiags) (e.(reported) ++ [code]).

Declare Scope geom_scope.
Delimit Scope geom_scope with geom.
Notation "s .[ v ]" := (num s v)
  (at level 1, left associativity, format "s .[ v ]") : geom_scope.
Notation "s .[ v <== x ]" := (wr v x s)
  (at level 1, left associativity, format "s .[ v  <==  x ]") : geom_scope.
Local Open Scope geom_scope.

(** *** [tf_wp_geom] *)

Definition tf_wp_geom (i_tf_wp_geom : Z) (s : gstate) (e : errors)
  : gstate * errors :=
  let s := s.[r_wp_inner <== s.[r_tf_inboard_in] + s.[dr_tf_nose_case]] in
  let s := s.[r_wp_outer <== s.[r_wp_inner] + s.[dr_tf_wp]] in
  let s := s.[r_wp_centre <== 0.5 * (s.[r_wp_inner] + s.[r_wp_outer])] in
  let t_tf_at_wp := 2.0 * s.[r_wp_inner] * s.[tan_theta_coil] in
  let s := s.[t_wp_toroidal <== t_tf_at_wp - 2.0 * s.[dx_tf_side_case]] in
  let s :=
    if (i_tf_wp_geom =? 0)%Z then
      let s := s.[wwp1 <== s.[t_wp_toroidal]] in
      let s := s.[t_wp_toroidal_av <== s.[t_wp_toroidal]] in
      let s := s.[awpc <== s.[dr_tf_wp] * s.[t_wp_toroidal]] in
      let s := s.[awptf <==
        (s.[dr_tf_wp] - 2.0 * (s.[tinstf] + s.[tfinsgap]))
        * (s.[t_wp_toroidal] - 2.0 * (s.[tinstf] + s.[tfinsgap]))] in
      s.[a_ground_ins <==
        (s.[dr_tf_wp] - 2.0 * s.[tfinsgap])
        * (s.[t_wp_toroidal] - 2.0 * s.[tfinsgap]) - s.[awptf]]
    else if (i_tf_wp_geom =? 1)%Z then
      let s := s.[wwp1 <==
        2.0 * (s.[r_wp_centre] * s.[tan_theta_coil] - s.[dx_tf_side_case])] in
      let s := s.[wwp2 <==
        2.0 * (s.[r_wp_inner] * s.[tan_theta_coil] - s.[dx_tf_side_case])] in
      let s := s.[t_wp_toroidal_av <== 0.5 * (s.[wwp1] + s.[wwp2])] in
      let s := s.[awpc <== s.[dr_tf_wp] * s.[t_wp_toroidal_av]] in
      let s := s.[awptf <==
        0.5
        * (s.[dr_tf_wp] - 2.0 * (s.[tinstf] + s.[tfinsgap]))
        * (s.[wwp1] + s.[wwp2] - 4.0 * (s.[tinstf] + s.[tfinsgap]))] in
      s.[a_ground_ins <==
        0.5
        * (s.[dr_tf_wp] - 2.0 * s.[tfinsgap])
        * (s.[wwp1] + s.[wwp2] - 4.0 * s.[tfinsgap])
        - s.[awptf]]
    else
      let s := s.[wwp1 <==
        2.0 * (s.[r_wp_outer] * s.[tan_theta_coil] - s.[dx_tf_side_case])] in
      let s := s.[wwp2 <==
        2.0 * (s.[r_wp_inner] * s.[tan_theta_coil] - s.[dx_tf_side_case])] in
      let s := s.[t_wp_toroidal_av <== 0.5 * (s.[wwp1] + s.[wwp2])] in
      let s := s.[awpc <==
        s.[dr_tf_wp] * (s.[wwp2] + 0.5 * (s.[wwp1] - s.[wwp2]))] in
      let s := s.[awptf <==
        (s.[dr_tf_wp] - 2.0 * (s.[tinstf] + s.[tfinsgap]))
        * (s.[wwp2] - 2.0 * (s.[tinstf] + s.[tfinsgap])
           + 0.5 * (s.[wwp1] - s.[wwp2]))] in
      s.[a_ground_ins <==
        (s.[dr_tf_wp] - 2.0 * s.[tfinsgap])
        * (s.[wwp2] - 2.0 * s.[tfinsgap] + 0.5 * (s.[wwp1] - s.[wwp2]))
        - s.[awptf]] in
  let e :=
    if Rleb s.[awptf] 0.0 || Rleb s.[awpc] 0.0 then
      report_error 99 (set_fdiag 1 s.[awpc] (set_fdiag 0 s.[awptf] e))
    else e in
  (s, e).

(** *** [tf_case_geom] *)

Definition tf_case_geom (i_tf_wp_geom i_tf_case_geom : Z) (s : gstate)
    (e : errors) : gstate * errors :=
  let s := s.[acasetf <== (s.[a_tf_coil_inboard] / s.[n_tf_coils]) - s.[awpc]] in
  let s := s.[acasetfo <== s.[a_tf_leg_outboard] - s.[awpc]] in
  let s :=
    if (i_tf_case_geom =? 0)%Z then
      s.[a_case_front <==
        s.[rad_tf_coil_toroidal] * s.[r_tf_inboard_out] ^ 2
        - s.[tan_theta_coil] * s.[r_wp_outer] ^ 2]
    else
      s.[a_case_front <==
        ((s.[r_wp_outer] + s.[dr_tf_plasma_case]) ^ 2 - s.[r_wp_outer] ^ 2)
        * s.[tan_theta_coil]] in
  let s := s.[a_case_nose <==
    s.[tan_theta_coil] * s.[r_wp_inner] ^ 2
    - s.[rad_tf_coil_toroidal] * s.[r_tf_inboard_in] ^ 2] in
  let e :=
    if Rleb s.[acasetf] 0.0 || Rleb s.[acasetfo] 0.0 then
      report_error 99 (set_fdiag 1 s.[acasetfo] (set_fdiag 0 s.[acasetf] e))
    else e in
  let s :=
    if (i_tf_wp_geom =? 0)%Z then
      s.[t_lat_case_av <==
        s.[dx_tf_side_case] + 0.5 * s.[tan_theta_coil] * s.[dr_tf_wp]]
    else if (i_tf_wp_geom =? 1)%Z then
      s.[t_lat_case_av <==
        s.[dx_tf_side_case] + 0.25 * s.[tan_theta_coil] * s.[dr_tf_wp]]
    else
      s.[t_lat_case_av <== s.[dx_tf_side_case]] in
  (s, e).

(** *** [tf_wp_currents] *)

Definition tf_wp_currents (s : gstate) : gstate :=
  s.[j_tf_wp <== py_max 1.0 (s.[c_tf_total] / (s.[n_tf_coils] * s.[awptf]))].

(** *** [tf_integer_turn_geom] *)

(** Returns [(a_tf_turn_cable_space, a_tf_turn_steel,
    a_tf_turn_insulation, c_tf_turn, n_tf_coil_turns)].  [n_layer] and
    [n_pancake] are the [int32] counters of [tfcoil_variables];
    [np.double(n_layer * n_pancake)] converts their [int32] product. *)
Definition tf_integer_turn_geom (n_layer n_pancake : Z)
    (dx_tf_turn_steel dx_tf_turn_insulation : R) (s : gstate) (e : errors)
  : (R * R * R * R * R) * (gstate * errors) :=
  let s := s.[rbcndut <== dx_tf_turn_steel * 0.75] in
  let s := s.[dr_tf_turn <==
    (s.[dr_tf_wp] - 2.0 * (s.[tinstf] + s.[tfinsgap])) / IZR n_layer] in
  let e :=
    if Rleb s.[dr_tf_turn]
         (2.0 * dx_tf_turn_insulation + 2.0 * dx_tf_turn_steel) then
      report_error 100
        (set_fdiag 2 dx_tf_turn_steel
           (set_fdiag 1 dx_tf_turn_insulation
              (set_fdiag 0 s.[dr_tf_turn] e)))
    else e in
  let s := s.[dx_tf_turn <==
    (s.[t_wp_toroidal] - 2.0 * (s.[tinstf] + s.[tfinsgap]))
    / IZR n_pancake] in
  let e :=
    if Rleb s.[dx_tf_turn]
         (2.0 * dx_tf_turn_insulation + 2.0 * dx_tf_turn_steel) then
      report_error 100
        (set_fdiag 2 dx_tf_turn_steel
           (set_fdiag 1 dx_tf_turn_insulation
              (set_fdiag 0 s.[dx_tf_turn] e)))
    else e in
  let s := s.[t_turn_tf <== sqrt (s.[dr_tf_turn] * s.[dx_tf_turn])] in
  let n_tf_coil_turns := IZR (int32_mul n_layer n_pancake) in
  let c_tf_turn := s.[c_tf_coil] / n_tf_coil_turns in
  let s := s.[t_conductor_radial <==
    s.[dr_tf_turn] - 2.0 * dx_tf_turn_insulation] in
  let s := s.[t_conductor_toroidal <==
    s.[dx_tf_turn] - 2.0 * dx_tf_turn_insulation] in
  let s := s.[t_conductor <==
    sqrt (s.[t_conductor_radial] * s.[t_conductor_toroidal])] in
  let s := s.[dr_tf_turn_cable_space <==
    s.[t_conductor_radial] - 2.0 * dx_tf_turn_steel] in
  let s := s.[dx_tf_turn_cable_space <==
    s.[t_conductor_toroidal] - 2.0 * dx_tf_turn_steel] in
  let s := s.[t_cable <==
    sqrt (s.[dr_tf_turn_cable_space] * s.[dx_tf_turn_cable_space])] in
  let a_tf_turn_cable_space :=
    (s.[dr_tf_turn_cable_space] * s.[dx_tf_turn_cable_space])
    - (4.0 - PI) * s.[rbcndut] ^ 2 in
  let fallback :=
    if Rleb a_tf_turn_cable_space 0.0 then
      if Rltb s.[dr_tf_turn_cable_space] 0.0
         || Rltb s.[dx_tf_turn_cable_space] 0.0 then
        let e :=
          report_error 101
            (set_fdiag 2 s.[dx_tf_turn_cable_space]
               (set_fdiag 1 s.[dr_tf_turn_cable_space]
                  (set_fdiag 0 a_tf_turn_cable_space e))) in
        (a_tf_turn_cable_space, (s, e))
      else
        let e :=
          report_error 102
            (set_fdiag 1 s.[dx_tf_turn_cable_space]
               (set_fdiag 1 s.[dr_tf_turn_cable_space]
                  (set_fdiag 0 a_tf_turn_cable_space e))) in
        let s := s.[rbcndut <== 0.0] in
        (s.[dr_tf_turn_cable_space] * s.[dx_tf_turn_cable_space], (s, e))
    else (a_tf_turn_cable_space, (s, e)) in
  let a_tf_turn_cable_space := fst fallback in
  let s := fst (snd fallback) in
  let e := snd (snd fallback) in
  let a_tf_turn_steel :=
    s.[t_conductor_radial] * s.[t_conductor_toroidal]
    - a_tf_turn_cable_space in
  let a_tf_turn_insulation :=
    s.[dr_tf_turn] * s.[dx_tf_turn] - a_tf_turn_steel
    - a_tf_turn_cable_space in
  ((a_tf_turn_cable_space, a_tf_turn_steel, a_tf_turn_insulation,
    c_tf_turn, n_tf_coil_turns), (s, e)).

(** *** [tf_averaged_turn_geom] *)

(** Returns [(a_tf_turn_cable_space, a_tf_turn_steel,
    a_tf_turn_insulation, n_tf_coil_turns)]. *)
Definition tf_averaged_turn_geom
    (j_tf_wp dx_tf_turn_steel dx_tf_turn_insulation : R)
    (i_tf_sc_mat : Z) (s : gstate) (e : errors)
  : (R * R * R * R) * (gstate * errors) :=
  let mode :=
    if s.(t_turn_tf_is_input) then
      let a_turn := s.[t_turn_tf] ^ 2 in
      (a_turn, s.[c_tf_turn <== a_turn * j_tf_wp])
    else if s.(t_cable_tf_is_input) then
      let s := s.[t_turn_tf <==
        s.[t_cable_tf] + 2.0 * (dx_tf_turn_insulation + dx_tf_turn_steel)] in
      let a_turn := s.[t_turn_tf] ^ 2 in
      (a_turn, s.[c_tf_turn <== a_turn * j_tf_wp])
    else
      let a_turn := s.[c_tf_turn] / j_tf_wp in
      (a_turn, s.[t_turn_tf <== sqrt a_turn]) in
  let a_turn := fst mode in
  let s := snd mode in
  let s := s.[dr_tf_turn <== s.[t_turn_tf]] in
  let s := s.[dx_tf_turn <== s.[t_turn_tf]] in
  let s := s.[t_conductor <==
    (- s.[layer_ins] + sqrt (s.[layer_ins] ^ 2 + 4.0 * a_turn)) / 2
    - 2.0 * dx_tf_turn_insulation] in
  let n_tf_coil_turns := s.[awptf] / a_turn in
  let a_tf_turn_insulation := a_turn - s.[t_conductor] ^ 2 in
  let a_tf_turn_cable_space := s.[a_tf_turn_cable_space] in
  if negb (i_tf_sc_mat =? 6)%Z then
    let rbcndut := dx_tf_turn_steel * 0.75 in
    let s := s.[t_cable <== s.[t_conductor] - 2.0 * dx_tf_turn_steel] in
    let a_tf_turn_cable_space :=
      s.[t_cable] ^ 2 - (4.0 - PI) * rbcndut ^ 2 in
    let fallback :=
      if Rleb a_tf_turn_cable_space 0.0 then
        if Rltb s.[t_conductor] 0.0 then
          (a_tf_turn_cable_space,
           report_error 101
             (set_fdiag 1 s.[t_cable] (set_fdiag 0 a_tf_turn_cable_space e)))
        else
          (s.[t_cable] ^ 2,
           report_error 102
             (set_fdiag 1 s.[t_cable] (set_fdiag 0 a_tf_turn_cable_space e)))
      else (a_tf_turn_cable_space, e) in
    let a_tf_turn_cable_space := fst fallback in
    let e := snd fallback in
    let a_tf_turn_steel := s.[t_conductor] ^ 2 - a_tf_turn_cable_space in
    ((a_tf_turn_cable_space, a_tf_turn_steel, a_tf_turn_insulation,
      n_tf_coil_turns), (s, e))
  else
    let s := s.[t_cable <== s.[t_conductor] - 2.0 * dx_tf_turn_steel] in
    let a_tf_turn_steel := s.[t_conductor] ^ 2 - a_tf_turn_cable_space in
    ((a_tf_turn_cable_space, a_tf_turn_steel, a_tf_turn_insulation,
      n_tf_coil_turns), (s, e)).

(** *** [sc_tf_internal_geom] *)

Definition sc_tf_internal_geom
    (i_tf_wp_geom i_tf_case_geom i_tf_turns_integer : Z) (s : gstate)
    (e : errors) : gstate * errors :=
  let '(s, e) := tf_wp_geom i_tf_wp_geom s e in
  let '(s, e) := tf_case_geom i_tf_wp_geom i_tf_case_geom s e in
  let s := tf_wp_currents s in
  let '(s, e) :=
    if (i_tf_turns_integer =? 0)%Z then
      let '((cable, steel, insulation, turns), (s, e)) :=
        tf_averaged_turn_geom s.[j_tf_wp] s.[dx_tf_turn_steel]
          s.[dx_tf_turn_insulation] (s.(int) i_tf_sc_mat) s e in
      let s := s.[a_tf_turn_cable_space <== cable] in
      let s := s.[a_tf_turn_steel <== steel] in
      let s := s.[a_tf_turn_insulation <== insulation] in
      let s := s.[n_tf_coil_turns <== turns] in
      (s, e)
    else
      let '((cable, steel, insulation, current, turns), (s, e)) :=
        tf_integer_turn_geom (s.(int) n_layer) (s.(int) n_pancake)
          s.[dx_tf_turn_steel] s.[dx_tf_turn_insulation] s e in
      let s := s.[a_tf_turn_cable_space <== cable] in
      let s := s.[a_tf_turn_steel <== steel] in
      let s := s.[a_tf_turn_insulation <== insulation] in
      let s := s.[c_tf_turn <== current] in
      let s := s.[n_tf_coil_turns <== turns] in
      (s, e) in
  let s := s.[a_tf_wp_coolant_channels <==
    0.25 * s.[n_tf_coil_turns] * PI * s.[dia_tf_turn_coolant_channel] ^ 2] in
  let s := s.[acond <==
    s.[a_tf_turn_cable_space] * s.[n_tf_coil_turns] * (1.0 - s.[vftf])
    - s.[a_tf_wp_coolant_channels]] in
  let s := s.[avwp <==
    s.[a_tf_turn_cable_space] * s.[n_tf_coil_turns] * s.[vftf]] in
  let s := s.[a_tf_coil_wp_turn_insulation <==
    s.[n_tf_coil_turns] * s.[a_tf_turn_insulation]] in
  let s := s.[aswp <== s.[n_tf_coil_turns] * s.[a_tf_turn_steel]] in
  let s := s.[a_tf_steel <== s.[acasetf] + s.[aswp]] in
  let s := s.[f_tf_steel <==
    s.[n_tf_coils] * s.[a_tf_steel] / s.[a_tf_coil_inboard]] in
  let s := s.[a_tf_ins <==
    s.[a_tf_coil_wp_turn_insulation] + s.[a_ground_ins]] in
  let s := s.[f_tf_ins <==
    s.[n_tf_coils] * s.[a_tf_ins] / s.[a_tf_coil_inboard]] in
  let e :=
    if Rleb s.[acond] 0.0 || Rleb s.[avwp] 0.0
       || Rleb s.[a_tf_coil_wp_turn_insulation] 0.0 || Rleb s.[aswp] 0.0
       || Rleb s.[a_tf_steel] 0.0 || Rleb s.[f_tf_steel] 0.0
       || Rleb s.[a_tf_ins] 0.0 || Rleb s.[f_tf_ins] 0.0 then
      report_error 276
        (set_fdiag 7 s.[f_tf_ins]
           (set_fdiag 6 s.[a_tf_ins]
              (set_fdiag 5 s.[f_tf_steel]
                 (set_fdiag 4 s.[a_tf_steel]
                    (set_fdiag 3 s.[aswp]
                       (set_fdiag 2 s.[a_tf_coil_wp_turn_insulation]
                          (set_fdiag 1 s.[avwp]
                             (set_fdiag 0 s.[acond] e))))))))
    else e in
  (s, e).

(** *** [peak_tf_with_ripple] *)

(** The fitting coefficients for the rounded number of coils, if there
    is a fit for it. *)
Definition ripple_coefficients (int_n_tf : R) : option (list R) :=
  if Req_b int_n_tf 16 then Some [0.28101; 1.8481; -0.88159; 0.93834]
  else if Req_b int_n_tf 18 then Some [0.29153; 1.81600; -0.84178; 0.90426]
  else if Req_b int_n_tf 20 then Some [0.29853; 1.82130; -0.85031; 0.89808]
  else None.

(** Returns [(bmaxtfrp, flag)]. *)
Definition peak_tf_with_ripple
    (n_tf_coils wwp1 dr_tf_wp tfin b_tf_inboard_peak : R) (s : gstate)
  : (R * Z) * gstate :=
  let flag := 0%Z in
  let int_n_tf := np_round n_tf_coils in
  match ripple_coefficients int_n_tf with
  | None =>
      let bmaxtfrp := 1.09 * b_tf_inboard_peak in
      ((bmaxtfrp, flag), s)
  | Some a =>
      let wmax := (2.0 * tfin + dr_tf_wp) * tan (PI / n_tf_coils) in
      let s := s.[tf_fit_t <== wwp1 / wmax] in
      let flag :=
        if Rltb s.[tf_fit_t] 0.3 || Rgtb s.[tf_fit_t] 1.1 then 1%Z
        else flag in
      let s := s.[tf_fit_z <== dr_tf_wp / wmax] in
      let flag :=
        if Rltb s.[tf_fit_z] 0.26 || Rgtb s.[tf_fit_z] 0.7 then 2%Z
        else flag in
      let s := s.[tf_fit_y <==
        nth 0 a 0
        + nth 1 a 0 * exp (- s.[tf_fit_t])
        + nth 2 a 0 * s.[tf_fit_z]
        + nth 3 a 0 * s.[tf_fit_z] * s.[tf_fit_t]] in
      let bmaxtfrp := s.[tf_fit_y] * b_tf_inboard_peak in
      ((bmaxtfrp, flag), s)
  end.

(** *** [croco_voltage] *)

Definition croco_voltage (s : gstate) : R * gstate :=
  if String.eqb s.(quench_model) "linear" then
    let s := s.[time2 <== s.[tdmptf]] in
    (2.0 / s.[time2]
     * (s.[e_tf_magnetic_stored_total] / s.[n_tf_coils])
     / s.[c_tf_turn], s)
  else if String.eqb s.(quench_model) "exponential" then
    let s := s.[tau2 <== s.[tdmptf]] in
    (2.0 / s.[tau2]
     * (s.[e_tf_magnetic_stored_total] / s.[n_tf_coils])
     / s.[c_tf_turn], s)
  else (0.0, s).

(** *** The method [vv_stress_on_quench] *)

(** The arguments that the method derives from the build for the
    function of the same name. *)
Definition quench_args (s : gstate) : Quench.args :=
  let H_coil := s.[z_tf_inside_half] + (s.[dr_tf_inboard] / 2) in
  let ri_coil := s.[r_tf_inboard_mid] in
  let ro_coil := s.[r_tf_outboard_mid] in
  let rm_coil := s.[r_tf_inboard_out] + s.[tfa0] in
  let H_vv :=
    s.[z_plasma_xpoint_upper] + s.[dz_xpoint_divertor] + s.[dz_divertor]
    + s.[dz_shld_upper] + (s.[dz_vv_upper] / 2) in
  let ri_vv := s.[r_vv_inboard_out] - (s.[dr_vv_outboard] / 2) in
  let ro_vv :=
    s.[r_tf_outboard_mid] - (s.[dr_tf_outboard] / 2) - s.[dr_tf_shld_gap]
    - s.[dr_shld_thermal_outboard] - s.[dr_shld_vv_gap_outboard]
    - (s.[dr_vv_outboard] / 2) in
  let tf_vv_frac := s.[r_tf_inboard_out] / s.[r_vv_inboard_out] in
  let rm_vv := s.[r_vv_inboard_out] + (s.[tfa0] * tf_vv_frac) in
  Quench.mkArgs H_coil ri_coil ro_coil rm_coil s.[len_tf_coil]
    s.[theta1_coil] H_vv ri_vv ro_vv rm_vv s.[theta1_vv]
    s.[n_tf_coils] s.[n_tf_coil_turns]
    (np_clip_lower s.[a_tf_steel] 0)
    (s.[a_case_front] + s.[a_case_nose] + 2.0 * s.[t_lat_case_av])
    s.[tdmptf]
    (s.[c_tf_coil] / s.[n_tf_coil_turns])
    s.[dr_vv_shells].

Section Method.

Variable rmu0 : R.

Definition vv_stress_on_quench (s : gstate) : outcome gstate :=
  (v <~ Quench.vv_stress_on_quench rmu0 (quench_args s) ;
   Returns s.[vv_stress_quench <== v])%outcome.

End Method.

(** *** Notions used to state what the routines do *)

(** Two stores agree on everything but the real-valued variables. *)
Definition same_switches (s s' : gstate) : Prop :=
  int s' = int s
  /\ t_turn_tf_is_input s' = t_turn_tf_is_input s
  /\ t_cable_tf_is_input s' = t_cable_tf_is_input s
  /\ quench_model s' = quench_model s.

(** The error codes of the geometry routines below
    [sc_tf_internal_geom]. *)
Definition geometry_codes : list Z := [99; 100; 101; 102]%Z.

(** The numbers of coils that [np.round] takes to 16, 18 or 20. *)
Definition fit_window (n_tf_coils : R) : Prop :=
  15.5 <= n_tf_coils <= 16.5 \/ 17.5 <= n_tf_coils <= 18.5
  \/ 19.5 <= n_tf_coils <= 20.5.

End Geom.

(** A store and an error state to run the geometry routines on: every
    variable is 1, every counter 2, the turn dimension is the input. *)
Module GeomSample.

Definition store : Geom.gstate :=
  Geom.mkG (fun _ => 1) (fun _ => 2%Z) true false "exponential".

Definition clean : Geom.errors := Geom.mkE (fun _ => 0) [].

(** The same store with a negative steel area. *)
Definition negative_steel : Geom.gstate :=
  Geom.wr Geom.a_tf_steel (-1) store.

End GeomSample.

(** ** The solver adapter ([solver.py]) *)

Module Solver.

(** [l[:k]] and [l[k:]] on a one-dimensional array: a negative bound
    counts from the end. *)
Definition slice_to {A} (k : Z) (l : list A) : list A :=
  if (0 <=? k)%Z then firstn (Z.to_nat k) l
  else firstn (Z.to_nat (Z.of_nat (List.length l) + k)) l.


(** A two-dimensional array as the list of its rows; [m[:, :k]],
    [m[:, k:]] and [m.T]. *)
Definition matrix : Type := list (list R).




(** [np.ones(n, dtype=int)] and [np.identity(n) * b]. *)
Definition ones (n : nat) : list Z := repeat 1%Z n.

Definition scaled_identity (n : nat) (b : R) : matrix :=
  map (fun i => map (fun j => if Nat.eqb i j then 1 * b else 0 * b) (seq 0 n))
    (seq 0 n).

(** The evaluators object: [fcnvmc1(n, m, x, ifail)] gives the objective
    and the constraints, [fcnvmc2(n, m, x, lcnorm)] their gradients. *)
Record Evaluators : Type := mkEvaluators {
  fcnvmc1 : Z -> Z -> list R -> Z -> R * list R;
  fcnvmc2 : Z -> Z -> list R -> Z -> list R * matrix
}.

(** [pyvmcon.Result]. *)
Record Result : Type := mkResult {
  res_f : R;
  res_df : list R;
  res_eq : list R;
  res_deq : matrix;
  res_ie : list R;
  res_die : matrix
}.

(** *** [VmconProblem] *)

Record VmconProblem : Type := mkProblem {
  _evaluator : Evaluators;
  _nequality : Z;
  _ninequality : Z
}.




(** *** [_Solver] and [Vmcon] *)

(** The convergence exceptions of the library, as the [isinstance]
    chain of [solve] tells them apart. *)
Inductive convergence_class : Type :=
| LineSearchConvergenceException
| QSPSolverException
| VMCONConvergenceException.

(** What a method of the adapter can raise: a missing attribute, a
    [ValueError], or any other exception passing through. *)
Inductive error : Type :=
| AttributeError (name : string)
| ValueError (msg : string)
| OtherError (name : string).

Inductive result (A : Type) : Type :=
| Ok (a : A)
| Err (e : error).

Arguments Ok {A} a.
Arguments Err {A} e.

(** What [logger.warning] is given: the text of an exception, or the
    message on the active iteration variables with the list it
    formats. *)
Inductive warning_entry : Type :=
| ExceptionText (msg : string)
| ActiveIterationVariables (numbered : list (Z * Z)).

(** The attributes of a solver object; an attribute that has not been
    assigned yet is [None].  [ilower] and [iupper] hold an optional
    array once assigned. *)
Record solver : Type := mkSolver {
  ifail : Z;
  tolerance : R;
  b : option R;
  evaluators : option Evaluators;
  x_0 : option (list R);
  bndl : option (list R);
  bndu : option (list R);
  ilower : option (option (list Z));
  iupper : option (option (list Z));
  m : option Z;
  meq : option Z;
  info : option Z;
  x : option (list R);
  objf : option R;
  conf : option (list R);
  log : list warning_entry
}.

(** The variables of [numerics] and [global_variables] that the adapter
    reads. *)
Record numerics : Type := mkNumerics {
  epsvmc : R;
  nvar : Z;
  ixc : list Z;
  maxcal : Z
}.

(** [_Solver.__init__]. *)
Definition init (nm : numerics) : solver :=
  mkSolver 0 nm.(epsvmc) None None None None None None None None None None
    None None None [].

Definition set_evaluators (e : Evaluators) (s : solver) : solver :=
  mkSolver s.(ifail) s.(tolerance) s.(b) (Some e) s.(x_0) s.(bndl) s.(bndu)
    s.(ilower) s.(iupper) s.(m) s.(meq) s.(info) s.(x) s.(objf) s.(conf)
    s.(log).

Definition set_opt_params (x0 : list R) (s : solver) : solver :=
  mkSolver s.(ifail) s.(tolerance) s.(b) s.(evaluators) (Some x0) s.(bndl)
    s.(bndu) s.(ilower) s.(iupper) s.(m) s.(meq) s.(info) s.(x) s.(objf)
    s.(conf) s.(log).

(** [set_bounds(bndl, bndu, ilower=None, iupper=None)]. *)
Definition set_bounds (l u : list R) (il iu : option (list Z)) (s : solver)
  : solver :=
  let '(il, iu) :=
    match il, iu with
    | None, None =>
        (Some (ones (List.length l)), Some (ones (List.length u)))
    | _, _ => (il, iu)
    end in
  mkSolver s.(ifail) s.(tolerance) s.(b) s.(evaluators) s.(x_0) (Some l)
    (Some u) (Some il) (Some iu) s.(m) s.(meq) s.(info) s.(x) s.(objf)
    s.(conf) s.(log).

Definition set_constraints (m_ meq_ : Z) (s : solver) : solver :=
  mkSolver s.(ifail) s.(tolerance) s.(b) s.(evaluators) s.(x_0) s.(bndl)
    s.(bndu) s.(ilower) s.(iupper) (Some m_) (Some meq_) s.(info) s.(x)
    s.(objf) s.(conf) s.(log).

Definition set_tolerance (t : R) (s : solver) : solver :=
  mkSolver s.(ifail) t s.(b) s.(evaluators) s.(x_0) s.(bndl) s.(bndu)
    s.(ilower) s.(iupper) s.(m) s.(meq) s.(info) s.(x) s.(objf) s.(conf)
    s.(log).

Definition set_b (b_ : R) (s : solver) : solver :=
  mkSolver s.(ifail) s.(tolerance) (Some b_) s.(evaluators) s.(x_0) s.(bndl)
    s.(bndu) s.(ilower) s.(iupper) s.(m) s.(meq) s.(info) s.(x) s.(objf)
    s.(conf) s.(log).

(** Reading an attribute. *)
Definition attr {A} (name : string) (o : option A) : result A :=
  match o with
  | Some a => Ok a
  | None => Err (AttributeError name)
  end.

Definition rbind {A B} (r : result A) (k : A -> result B) : result B :=
  match r with
  | Ok a => k a
  | Err e => Err e
  end.

(** What a call to [pyvmcon.solve] can do: return a point and a result,
    give up with one of the convergence exceptions (which carry the last
    point and result), reject its input with a [ValueError], or fail
    with something else. *)
Inductive solve_outcome : Type :=
| Solved (x : list R) (res : Result)
| NotConverged (c : convergence_class) (msg : string) (x : list R)
    (res : Result)
| Rejected (msg : string)
| Failed (name : string).

(** One call [solve(problem, x_0, bndl, bndu, max_iter=..., epsilon=...,
    qsp_tolerence=..., initial_B=...)]. *)
Record solve_call : Type := mkSolveCall {
  sc_problem : VmconProblem;
  sc_x_0 : list R;
  sc_bndl : list R;
  sc_bndu : list R;
  sc_max_iter : Z;
  sc_epsilon : R;
  sc_qsp_tolerence : R;
  sc_initial_B : option matrix
}.

(** The exit code for a convergence exception: the [isinstance] chain. *)
Definition convergence_info (c : convergence_class) : Z :=
  match c with
  | LineSearchConvergenceException => 3
  | QSPSolverException => 5
  | VMCONConvergenceException => 2
  end.

(** [list(enumerate(l))]. *)
Definition enumerate (l : list Z) : list (Z * Z) :=
  combine (map Z.of_nat (seq 0 (List.length l))) l.

(** The statements after the [try]: [self.x], [self.objf] and
    [self.conf] are assigned from the point and the result. *)
Definition store_result (x_ : list R) (res : Result) (s : solver) : solver :=
  mkSolver s.(ifail) s.(tolerance) s.(b) s.(evaluators) s.(x_0) s.(bndl)
    s.(bndu) s.(ilower) s.(iupper) s.(m) s.(meq) s.(info) (Some x_)
    (Some res.(res_f)) (Some (res.(res_eq) ++ res.(res_ie))) s.(log).

Definition set_info (info_ : Z) (s : solver) : solver :=
  mkSolver s.(ifail) s.(tolerance) s.(b) s.(evaluators) s.(x_0) s.(bndl)
    s.(bndu) s.(ilower) s.(iupper) s.(m) s.(meq) (Some info_) s.(x)
    s.(objf) s.(conf) s.(log).

(** [logger.warning(...)]. *)
Definition warn (w : warning_entry) (s : solver) : solver :=
  mkSolver s.(ifail) s.(tolerance) s.(b) s.(evaluators) s.(x_0) s.(bndl)
    s.(bndu) s.(ilower) s.(iupper) s.(m) s.(meq) s.(info) s.(x) s.(objf)
    s.(conf) (s.(log) ++ [w]).

Section Vmcon.

(** [pyvmcon.solve] is outside the program. *)
Variable vmcon_solve : solve_call -> solve_outcome.
Variable nm : numerics.

(** The arguments of the call, read in the order of the source;
    [np.identity] refuses a negative dimension. *)
Definition prepare (s : solver) : result solve_call :=
  rbind (attr "evaluators" s.(evaluators)) (fun ev =>
  rbind (attr "meq" s.(meq)) (fun meq_ =>
  rbind (attr "m" s.(m)) (fun m_ =>
  let problem := mkProblem ev meq_ (m_ - meq_) in
  rbind
    match s.(b) with
    | Some b_ =>
        if (nm.(nvar) <? 0)%Z
        then Err (ValueError "negative dimensions are not allowed")
        else Ok (Some (scaled_identity (Z.to_nat nm.(nvar)) b_))
    | None => Ok None
    end (fun B =>
  rbind (attr "x_0" s.(x_0)) (fun x0 =>
  rbind (attr "bndl" s.(bndl)) (fun l =>
  rbind (attr "bndu" s.(bndu)) (fun u =>
  Ok (mkSolveCall problem x0 l u nm.(maxcal) s.(tolerance) 1e-1 B)))))))).

(** [Vmcon.solve]: the exit code, or what it raises, with the solver
    object as it is left. *)
Definition solve (s : solver) : result Z * solver :=
  match prepare s with
  | Err e => (Err e, s)
  | Ok c =>
      match vmcon_solve c with
      | Solved x_ res =>
          let s := set_info 1 s in
          let s := store_result x_ res s in
          (attr "info" s.(info), s)
      | NotConverged cls msg x_ res =>
          let s := set_info (convergence_info cls) s in
          let s := warn (ExceptionText msg) s in
          let s := store_result x_ res s in
          (attr "info" s.(info), s)
      | Rejected msg =>
          let s :=
            warn (ActiveIterationVariables
                    (enumerate (slice_to nm.(nvar) nm.(ixc)))) s in
          (Err (ValueError msg), s)
      | Failed name => (Err (OtherError name), s)
      end
  end.

(** The calls a client can make on a solver object, and a session of
    them; an exception raised by [solve] is taken to be caught by the
    client. *)
Inductive request : Type :=
| SetEvaluators (e : Evaluators)
| SetOptParams (x0 : list R)
| SetBounds (l u : list R) (il iu : option (list Z))
| SetConstraints (m_ meq_ : Z)
| SetTolerance (t : R)
| SetB (b_ : R)
| Solve.

Definition perform (s : solver) (r : request) : solver :=
  match r with
  | SetEvaluators e => set_evaluators e s
  | SetOptParams x0 => set_opt_params x0 s
  | SetBounds l u il iu => set_bounds l u il iu s
  | SetConstraints m_ meq_ => set_constraints m_ meq_ s
  | SetTolerance t => set_tolerance t s
  | SetB b_ => set_b b_ s
  | Solve => snd (solve s)
  end.

Definition session (rs : list request) (s : solver) : solver :=
  fold_left perform rs s.

End Vmcon.

(** [get_solver(solver_name)]. *)
Definition get_solver (nm : numerics) (solver_name : string) : result solver :=
  if String.eqb solver_name "vmcon" then Ok (init nm)
  else Err (ValueError "Unrecognised solver name argument").

End Solver.

(** Settings, a library that rejects every call and a session to run the
    adapter on. *)
Module SolverSample.

Definition nm : Solver.numerics := Solver.mkNumerics 1e-8 2 [1; 2]%Z 100.

Definition library (c : Solver.solve_call) : Solver.solve_outcome :=
  Solver.Rejected "rejected".

Definition requests : list Solver.request :=
  [Solver.SetTolerance 1e-6; Solver.SetConstraints 2 1; Solver.Solve;
   Solver.SetB 1; Solver.Solve].

(** A solver set up for one variable and two constraints, and the call
    it makes. *)
Definition evaluators : Solver.Evaluators :=
  Solver.mkEvaluators (fun _ _ _ _ => (0, [0; 0]))
    (fun _ _ _ _ => ([0], [[0; 0]])).



End SolverSample.

(** * Properties *)

(** ** Python primitives *)

Lemma py_int_nonneg (x : R) (z : Z) :
  IZR z <= x < IZR z + 1 -> 0 <= x -> py_int x = z.
Proof.
  intros [Hlo Hhi] Hx. unfold py_int.
  destruct (Rle_dec 0 x) as [_ | Hn]; [| contradiction].
  symmetry. apply Int_part_spec. lra.
Qed.

Lemma py_int_neg (x : R) (z : Z) :
  IZR z <= - x < IZR z + 1 -> x < 0 -> py_int x = (- z)%Z.
Proof.
  intros [Hlo Hhi] Hx. unfold py_int.
  destruct (Rle_dec 0 x) as [Hp | _]; [lra |].
  f_equal. symmetry. apply Int_part_spec. lra.
Qed.

Lemma Rgtb_true (x y : R) : y < x -> Rgtb x y = true.
Proof. intros H. unfold Rgtb. destruct (Rlt_dec y x); [reflexivity | contradiction]. Qed.

Lemma Rgtb_false (x y : R) : x <= y -> Rgtb x y = false.
Proof. intros H. unfold Rgtb. destruct (Rlt_dec y x); [lra | reflexivity]. Qed.

Lemma Rleb_true (x y : R) : x <= y -> Rleb x y = true.
Proof. intros H. unfold Rleb. destruct (Rle_dec x y); [reflexivity | contradiction]. Qed.

Lemma Rleb_false (x y : R) : y < x -> Rleb x y = false.
Proof. intros H. unfold Rleb. destruct (Rle_dec x y); [lra | reflexivity]. Qed.

(** ** [protect] *)

Module ProtectFacts.
Import Protect.

(** A table of eleven entries answers every position from -11 to 10. *)
Lemma getitem_in_range (p : list R) (i : Z) :
  List.length p = 11%nat -> (-11 <= i <= 10)%Z ->
  exists v, py_getitem p i = Returns v.
Proof.
  intros Hlen Hi. unfold py_getitem. rewrite Hlen.
  destruct ((0 <=? i) && (i <? Z.of_nat 11))%Z eqn:E1; [eauto |].
  destruct ((- Z.of_nat 11 <=? i) && (i <? 0))%Z eqn:E2; [eauto |].
  exfalso.
  apply andb_false_iff in E1. apply andb_false_iff in E2.
  rewrite Z.leb_gt, Z.ltb_ge in E1. rewrite Z.leb_gt, Z.ltb_ge in E2. lia.
Qed.

Lemma getitem_out_of_range (p : list R) (i : Z) :
  List.length p = 11%nat -> (i < -11 \/ 10 < i)%Z ->
  py_getitem p i = Raises IndexError.
Proof.
  intros Hlen Hi. unfold py_getitem. rewrite Hlen.
  destruct ((0 <=? i) && (i <? Z.of_nat 11))%Z eqn:E1.
  { apply andb_true_iff in E1. rewrite Z.leb_le, Z.ltb_lt in E1. lia. }
  destruct ((- Z.of_nat 11 <=? i) && (i <? 0))%Z eqn:E2.
  { apply andb_true_iff in E2. rewrite Z.leb_le, Z.ltb_lt in E2. lia. }
  reflexivity.
Qed.

Lemma interp_returns (p : list R) (tba tmax : R) :
  List.length p = 11%nat -> (-10 <= n_o tba tmax <= 11)%Z ->
  exists v, interp p tba tmax = Returns v.
Proof.
  intros Hlen Hn. unfold interp.
  destruct (getitem_in_range p (n_o tba tmax - 1) Hlen) as [a Ha]; [lia |].
  destruct (getitem_in_range p (n_p tba tmax - 1) Hlen) as [b Hb].
  { unfold n_p. lia. }
  cbv zeta. rewrite Ha. simpl. rewrite Hb. simpl. eauto.
Qed.

Lemma interp_raises (p : list R) (tba tmax : R) :
  List.length p = 11%nat -> (n_o tba tmax < -10 \/ 11 < n_o tba tmax)%Z ->
  interp p tba tmax = Raises IndexError.
Proof.
  intros Hlen Hn. unfold interp. cbv zeta.
  rewrite (getitem_out_of_range p (n_o tba tmax - 1) Hlen) by lia.
  reflexivity.
Qed.

(** When [protect] returns, the second component is the dump voltage. *)
Lemma protect_vd (aio tfes acs aturn tdump fcond fcu tba tmax a vd : R) :
  protect aio tfes acs aturn tdump fcond fcu tba tmax = Returns (a, vd) ->
  vd = dump_voltage aio tfes tdump.
Proof.
  unfold protect.
  destruct (interp p1 tba tmax); simpl; [| discriminate].
  destruct (interp p2 tba tmax); simpl; [| discriminate].
  destruct (interp p3 tba tmax); simpl; [| discriminate].
  intros H. inversion H. reflexivity.
Qed.

Lemma protect_returns (aio tfes acs aturn tdump fcond fcu tba tmax : R) :
  (-10 <= n_o tba tmax <= 11)%Z ->
  exists a, protect aio tfes acs aturn tdump fcond fcu tba tmax
            = Returns (a, dump_voltage aio tfes tdump).
Proof.
  intros Hn. unfold protect.
  destruct (interp_returns p1 tba tmax eq_refl Hn) as [v1 E1].
  destruct (interp_returns p2 tba tmax eq_refl Hn) as [v2 E2].
  destruct (interp_returns p3 tba tmax eq_refl Hn) as [v3 E3].
  rewrite E1, E2, E3. simpl. eauto.
Qed.

Lemma protect_raises (aio tfes acs aturn tdump fcond fcu tba tmax : R) :
  (n_o tba tmax < -10 \/ 11 < n_o tba tmax)%Z ->
  protect aio tfes acs aturn tdump fcond fcu tba tmax = Raises IndexError.
Proof.
  intros Hn. unfold protect.
  rewrite (interp_raises p1 tba tmax eq_refl Hn). reflexivity.
Qed.

(** For a temperature rise between 0 and 220 K the lower table position
    is between 1 and 11. *)
Lemma n_o_in_table (tba tmax : R) :
  0 <= tmax - tba < 220 -> (1 <= n_o tba tmax <= 11)%Z.
Proof.
  intros H. unfold n_o, tav, py_int.
  destruct (Rle_dec 0 (1.0 + (tmax - tba) / 20.0)) as [_ | Hn]; [| lra].
  set (x := 1.0 + (tmax - tba) / 20.0).
  assert (Hx : 1 <= x < 12) by (unfold x; lra).
  destruct (base_Int_part x) as [Hlo Hhi].
  split.
  - assert (H0 : IZR 0 < IZR (Int_part x)) by lra.
    apply lt_IZR in H0. lia.
  - assert (H12 : IZR (Int_part x) < IZR 12) by lra.
    apply lt_IZR in H12. lia.
Qed.

Lemma n_p_in_table (tba tmax : R) :
  0 <= tmax - tba < 220 -> (1 <= n_p tba tmax <= 11)%Z.
Proof.
  intros H. pose proof (n_o_in_table tba tmax H). unfold n_p. lia.
Qed.

(** [tav] at a whole number of 20 K steps. *)
Lemma n_o_at (tba tmax : R) (k : Z) :
  (0 <= k)%Z -> tmax - tba = 20 * IZR k -> n_o tba tmax = (1 + k)%Z.
Proof.
  intros Hk H. unfold n_o, tav.
  assert (Hk' : 0 <= IZR k) by (apply IZR_le in Hk; exact Hk).
  apply py_int_nonneg.
  - rewrite plus_IZR. lra.
  - lra.
Qed.

End ProtectFacts.

(** Below the table: with [tmax] under [tba] the index truncates to 0, the
    position [n_o - 1] is -1 and the tuple answers with its last entry. *)
Lemma interp_below_table_wraps :
  Protect.n_o 20 10 = 0%Z /\
  py_getitem Protect.p1 (Protect.n_o 20 10 - 1) = Returns 3.5 /\
  Protect.interp Protect.p1 20 10 = Returns 1.75e16.
Proof.
  assert (Hn : Protect.n_o 20 10 = 0%Z).
  { unfold Protect.n_o, Protect.tav. apply py_int_nonneg; simpl; lra. }
  split; [exact Hn |]. split.
  - rewrite Hn. reflexivity.
  - unfold Protect.interp, Protect.n_p. cbv zeta. rewrite Hn.
    unfold Protect.tav. simpl. f_equal. lra.
Qed.

(** C2 (the code at a failing input).  With a helium temperature of 4 K
    and a maximum quench temperature of 244 K the index is 13, the lower
    table position is 12, and the lookup in the 11-entry table raises
    [IndexError]: the index is not clamped to [1, 11]. *)
Theorem protect_index_above_table (aio tfes acs aturn tdump fcond fcu : R) :
  Protect.n_o 4 244 = 13%Z /\
  Protect.protect aio tfes acs aturn tdump fcond fcu 4 244 = Raises IndexError.
Proof.
  assert (Hn : Protect.n_o 4 244 = 13%Z).
  { apply (ProtectFacts.n_o_at 4 244 12); [lia | simpl; lra]. }
  split; [exact Hn |].
  apply ProtectFacts.protect_raises. rewrite Hn. lia.
Qed.

(** C6.  For positive stored energy, dump time and operating current,
    whenever [protect] returns, its dump voltage is
    [2 * tfes / (tdump * aio)]; it does return whenever the table
    lookups succeed; and doubling the dump time halves the dump voltage. *)
Theorem protect_dump_voltage
    (aio tfes acs aturn tdump fcond fcu tba tmax : R) :
  0 < tfes -> 0 < tdump -> 0 < aio ->
  (forall a vd,
      Protect.protect aio tfes acs aturn tdump fcond fcu tba tmax
      = Returns (a, vd) ->
      vd = 2 * tfes / (tdump * aio))
  /\ ((-10 <= Protect.n_o tba tmax <= 11)%Z ->
      exists a,
        Protect.protect aio tfes acs aturn tdump fcond fcu tba tmax
        = Returns (a, 2 * tfes / (tdump * aio)))
  /\ (forall a a' vd vd',
      Protect.protect aio tfes acs aturn tdump fcond fcu tba tmax
      = Returns (a, vd) ->
      Protect.protect aio tfes acs aturn (2 * tdump) fcond fcu tba tmax
      = Returns (a', vd') ->
      vd' = vd / 2).
Proof.
  intros Hte Htd Hai.
  assert (Hvd : Protect.dump_voltage aio tfes tdump = 2 * tfes / (tdump * aio)).
  { unfold Protect.dump_voltage. f_equal. lra. }
  repeat split.
  - intros a vd H. apply ProtectFacts.protect_vd in H. congruence.
  - intros Hn.
    destruct (ProtectFacts.protect_returns aio tfes acs aturn tdump fcond fcu
                tba tmax Hn) as [a Ha].
    exists a. rewrite Ha, Hvd. reflexivity.
  - intros a a' vd vd' H H'.
    apply ProtectFacts.protect_vd in H. apply ProtectFacts.protect_vd in H'.
    subst vd vd'. unfold Protect.dump_voltage. field. lra.
Qed.

Lemma protect_dump_voltage_witness :
  exists a,
    Protect.protect 68000 9e9 0.001 0.002 10 0.7 0.69 4.5 150
    = Returns (a, 2 * 9e9 / (10 * 68000)).
Proof.
  destruct (protect_dump_voltage 68000 9e9 0.001 0.002 10 0.7 0.69 4.5 150)
    as (_ & Hret & _); try lra.
  apply Hret.
  assert (Hn : (1 <= Protect.n_o 4.5 150 <= 11)%Z)
    by (apply ProtectFacts.n_o_in_table; lra).
  lia.
Defined.

(** ** [supercon] *)

Section Respects.

(** Any reflexive and transitive relation on stores that the individual
    writes of the tail of [supercon] satisfy is satisfied by the tail as
    a whole. *)
Variable rel : store -> store -> Prop.
Hypothesis rel_refl : forall s, rel s s.
Hypothesis rel_trans : forall s1 s2 s3, rel s1 s2 -> rel s2 s3 -> rel s1 s3.

Lemma respects_ret {A} (a : A) : respects rel (ret a).
Proof. intros s o s' H. inversion H. apply rel_refl. Qed.

Lemma respects_get {A} (f : store -> A) : respects rel (get f).
Proof. intros s o s' H. inversion H. apply rel_refl. Qed.

Lemma respects_lift {A} (x : outcome A) : respects rel (lift x).
Proof. intros s o s' H. inversion H. apply rel_refl. Qed.

Lemma respects_local (name : string) (x : option R) :
  respects rel (local name x).
Proof. intros s o s' H. destruct x; inversion H; apply rel_refl. Qed.

Lemma respects_modify (f : store -> store) :
  (forall s, rel s (f s)) -> respects rel (modify f).
Proof. intros Hf s o s' H. inversion H. apply Hf. Qed.

Lemma respects_bind {A B} (m : M A) (k : A -> M B) :
  respects rel m -> (forall a, respects rel (k a)) -> respects rel (bind m k).
Proof.
  intros Hm Hk s o s' H. unfold bind in H.
  destruct (m s) as [[a | e] s1] eqn:E.
  - apply (rel_trans s s1 s'); [apply (Hm s _ _ E) | apply (Hk a s1 _ _ H)].
  - inversion H. subst. apply (Hm s _ _ E).
Qed.

Lemma respects_when (b : bool) (m : M unit) :
  respects rel m -> respects rel (when b m).
Proof. intros Hm. destruct b; simpl; [exact Hm | apply respects_ret]. Qed.

Hypothesis rel_warning : forall w s, rel s (add_warning w s).
Hypothesis rel_266 : forall s, rel s (add_reported 266 s).
Hypothesis rel_temp_margin : forall v s, rel s (set_temp_margin v s).
Hypothesis rel_jwdgpro : forall v s, rel s (set_jwdgpro v s).
Hypothesis rel_outfile : forall ls s, rel s (add_outfile ls s).

Lemma respects_material_block (isumat k : Z) (comments : list string)
    (wc : bool) (cd : conductor) :
  respects rel (material_block isumat k comments wc cd).
Proof.
  unfold material_block.
  destruct (isumat =? k)%Z; [| apply respects_ret].
  apply respects_bind; [apply respects_modify, rel_outfile | intros _].
  destruct wc; [| apply respects_ret].
  repeat (apply respects_bind; [apply respects_local | intros ?]).
  apply respects_modify, rel_outfile.
Qed.

Lemma respects_supercon_output (isumat : Z) (cd : conductor)
    (thelium fhetot fcu j_tf_wp_critical jwdgop tmarg iooic : R) :
  respects rel (supercon_output isumat cd thelium fhetot fcu
                  j_tf_wp_critical jwdgop tmarg iooic).
Proof.
  unfold supercon_output.
  repeat first
    [ apply respects_modify; first [apply rel_outfile | apply rel_warning]
    | apply respects_get
    | apply respects_material_block
    | apply respects_when
    | apply respects_bind; [| intros ?] ].
Qed.

Variable current_density_margin : R -> margin_args -> R.
Variable newton : root_finder.

Lemma respects_temperature_margin (isumat : Z) (cd : conductor)
    (jsc bmax thelium : R) :
  respects rel
    (temperature_margin current_density_margin newton isumat cd jsc bmax
       thelium).
Proof.
  unfold temperature_margin.
  destruct (uses_root_find isumat); [| apply respects_ret].
  repeat (apply respects_bind; [apply respects_local | intros ?]).
  apply respects_bind.
  { destruct (isumat =? 3)%Z; [| apply respects_ret].
    apply respects_bind; [apply respects_local | intros ?].
    apply respects_ret. }
  intros args. apply respects_bind; [apply respects_lift | intros [t0 rr]].
  apply respects_bind; [apply respects_modify, rel_temp_margin | intros _].
  apply respects_ret.
Qed.

Lemma respects_supercon_tail (acs aturn bmax fcu iop : R) (isumat : Z)
    (tdump tfes thelium tmax fhetot fcond : R) (output : bool)
    (cd : conductor) :
  respects rel
    (supercon_tail current_density_margin newton acs aturn bmax fcu iop
       isumat tdump tfes thelium tmax fhetot fcond output cd).
Proof.
  unfold supercon_tail. cbv zeta.
  repeat (apply respects_bind; [apply respects_get | intros ?]).
  apply respects_bind.
  { apply respects_when, respects_modify, rel_warning. }
  intros _. apply respects_bind; [apply respects_get | intros ?].
  apply respects_bind.
  { apply respects_when, respects_modify, rel_266. }
  intros _. apply respects_bind; [apply respects_temperature_margin | intros tm].
  apply respects_bind; [apply respects_lift | intros [ajwpro vd]].
  apply respects_bind; [apply respects_modify, rel_jwdgpro | intros _].
  apply respects_bind.
  { destruct output; [| apply respects_ret].
    apply respects_bind; [apply respects_local | intros ?].
    apply respects_supercon_output. }
  intros _. apply respects_bind; [apply respects_local | intros ?].
  apply respects_ret.
Qed.

End Respects.

Lemma tail_keeps_diagnostics
    (cdm : R -> margin_args -> R) (nw : root_finder)
    (acs aturn bmax fcu iop : R) (isumat : Z)
    (tdump tfes thelium tmax fhetot fcond : R) (output : bool)
    (cd : conductor) :
  respects diagnostics_kept
    (supercon_tail cdm nw acs aturn bmax fcu iop isumat tdump tfes thelium
       tmax fhetot fcond output cd).
Proof.
  apply respects_supercon_tail; unfold diagnostics_kept; simpl.
  - intros s. split; [auto | reflexivity].
  - intros s1 s2 s3 [H1 E1] [H2 E2]. split; [auto | congruence].
  - intros w s. split; [auto | reflexivity].
  - intros s. split; [| reflexivity].
    intros c Hc. apply in_or_app. left. exact Hc.
  - intros v s. split; [auto | reflexivity].
  - intros v s. split; [auto | reflexivity].
  - intros ls s. split; [auto | reflexivity].
Qed.

Lemma tail_adds_only_266
    (cdm : R -> margin_args -> R) (nw : root_finder)
    (acs aturn bmax fcu iop : R) (isumat : Z)
    (tdump tfes thelium tmax fhetot fcond : R) (output : bool)
    (cd : conductor) :
  respects only_266_added
    (supercon_tail cdm nw acs aturn bmax fcu iop isumat tdump tfes thelium
       tmax fhetot fcond output cd).
Proof.
  apply respects_supercon_tail; unfold only_266_added; simpl.
  - intros s c Hc. left. exact Hc.
  - intros s1 s2 s3 H1 H2 c Hc.
    destruct (H2 c Hc) as [H | H]; [apply H1, H | right; exact H].
  - intros w s c Hc. left. exact Hc.
  - intros s c Hc. apply in_app_or in Hc.
    destruct Hc as [H | [H | []]]; [left; exact H | right; auto].
  - intros v s c Hc. left. exact Hc.
  - intros v s c Hc. left. exact Hc.
  - intros ls s c Hc. left. exact Hc.
Qed.

Section SuperconFacts.

Variable itersc : R -> R -> R -> R -> R -> R * R * R.
Variable bi2212 : R -> R -> R -> R -> R * R.
Variable jcrit_nbti : R -> R -> R -> R -> R -> R * R.
Variable western_superconducting_nb3sn : R -> R -> R -> R -> R -> R * R * R.
Variable gl_nbti : R -> R -> R -> R -> R -> R * R * R.
Variable gl_rebco : R -> R -> R -> R -> R -> R * R * R.
Variable hijc_rebco : R -> R -> R -> R -> R -> R -> R -> R * R * R.
Variable current_density_margin : R -> margin_args -> R.
Variable newton : root_finder.

Let branch :=
  material_branch itersc bi2212 jcrit_nbti western_superconducting_nb3sn
    gl_nbti gl_rebco hijc_rebco.

Let sc :=
  supercon itersc bi2212 jcrit_nbti western_superconducting_nb3sn
    gl_nbti gl_rebco hijc_rebco current_density_margin newton.

Lemma branch_croco
    (acs aturn bmax fcu jwp fhts thelium bcritsc tcritsc fcond strain : R)
    (s : store) :
  branch 6%Z acs aturn bmax fcu jwp fhts thelium bcritsc tcritsc fcond strain s
  = (Raises (ProcessValueError
       "sctfcoil.supercon has been called but tfcoil_variables.i_tf_sc_mat=6"
       None), s).
Proof. reflexivity. Qed.

Lemma branch_unknown (isumat : Z)
    (acs aturn bmax fcu jwp fhts thelium bcritsc tcritsc fcond strain : R)
    (s : store) :
  (isumat < 1 \/ 9 < isumat)%Z ->
  branch isumat acs aturn bmax fcu jwp fhts thelium bcritsc tcritsc fcond
    strain s
  = (Raises (ProcessValueError "Illegal value for i_tf_sc_mat" (Some isumat)),
     s).
Proof.
  intros H. unfold branch, material_branch.
  repeat match goal with
         | |- context [(isumat =? ?k)%Z] =>
             replace (isumat =? k)%Z with false
               by (symmetry; apply Z.eqb_neq; lia)
         end.
  reflexivity.
Qed.

(** A raise in the material branch is the outcome of [supercon], and the
    store is left as the branch left it. *)
Lemma supercon_branch_raises
    (acs aturn bmax fhe fcu iop jwp : R) (isumat : Z)
    (fhts tdmptf tfes thelium tmax bcritsc tcritsc : R) (output : bool)
    (s s' : store) (e : exn) :
  branch isumat acs aturn bmax fcu jwp fhts thelium bcritsc tcritsc
    (fcond_of fhe s.(dia_tf_turn_coolant_channel) acs)
    (if (s.(i_str_wp) =? 0)%Z then s.(str_tf_con_res) else s.(str_wp)) s
  = (Raises e, s') ->
  sc acs aturn bmax fhe fcu iop jwp isumat fhts tdmptf tfes thelium tmax
    bcritsc tcritsc output s
  = (Raises e, s').
Proof.
  intros H. unfold sc, supercon, bind, get. cbv zeta.
  unfold branch, fcond_of in H.
  destruct (s.(i_str_wp) =? 0)%Z; rewrite H; reflexivity.
Qed.

(** C7.  Routed to [supercon], material 6 (REBCO CroCo) and every
    selector outside 1..9 raise [ProcessValueError]; no result is
    produced and the store is untouched. *)
Theorem supercon_rejects_croco_and_unknown
    (acs aturn bmax fhe fcu iop jwp : R) (isumat : Z)
    (fhts tdmptf tfes thelium tmax bcritsc tcritsc : R) (output : bool)
    (s : store) :
  (isumat = 6 \/ isumat < 1 \/ 9 < isumat)%Z ->
  exists msg k,
    sc acs aturn bmax fhe fcu iop jwp isumat fhts tdmptf tfes thelium tmax
      bcritsc tcritsc output s
    = (Raises (ProcessValueError msg k), s).
Proof.
  intros [H6 | Hout].
  - subst isumat. eexists. eexists.
    apply supercon_branch_raises. apply branch_croco.
  - eexists. eexists.
    apply supercon_branch_raises. apply branch_unknown. exact Hout.
Qed.

(** The report never raises for Bi-2212: its block prints no constants. *)
Lemma supercon_output_bi2212 (cd : conductor)
    (thelium fhetot fcu j_tf_wp_critical jwdgop tmarg iooic : R) (s : store) :
  exists s',
    supercon_output 2 cd thelium fhetot fcu j_tf_wp_critical jwdgop tmarg
      iooic s = (Returns tt, s').
Proof.
  unfold supercon_output, material_block, bind, when, get, modify, ret.
  simpl.
  destruct (Rleb tmarg 0.0); simpl;
    destruct (run_tests s =? 1)%Z; simpl; eauto.
Qed.

(** What [supercon] returns for Bi-2212, written without the root
    finder. *)
Lemma supercon_bi2212_value
    (acs aturn bmax fhe fcu iop jwp : R)
    (fhts tdmptf tfes thelium tmax bcritsc tcritsc : R) (output : bool)
    (s : store) :
  let fcond := fcond_of fhe s.(dia_tf_turn_coolant_channel) acs in
  let jstrand := jwp * aturn / (acs * fcond) in
  let j_crit_cable := fst (bi2212 bmax jstrand thelium fhts) in
  let tmarg := snd (bi2212 bmax jstrand thelium fhts) in
  fst (sc acs aturn bmax fhe fcu iop jwp 2%Z fhts tdmptf tfes thelium tmax
         bcritsc tcritsc output s)
  = match Protect.protect iop tfes acs aturn tdmptf fcond fcu thelium tmax with
    | Returns (_, vd) => Returns (j_crit_cable * acs * fcond / aturn, vd, tmarg)
    | Raises e => Raises e
    end.
Proof.
  cbv zeta.
  unfold sc, supercon, supercon_tail, temperature_margin, material_branch.
  unfold bind, get, modify, ret, lift, when, local. cbv zeta.
  change (uses_root_find 2) with false. cbv iota.
  change (2 =? 1)%Z with false. change (2 =? 2)%Z with true. cbv iota.
  change (2 =? 8)%Z with false. simpl andb. cbv iota.
  unfold fcond_of.
  set (fc := 1.0 - fhetot_of fhe (dia_tf_turn_coolant_channel s) acs).
  destruct (i_str_wp s =? 0)%Z;
    destruct (bi2212 bmax (jwp * aturn / (acs * fc)) thelium fhts)
      as [jc tm]; simpl;
    destruct (Rleb (iop / (jc * acs * fc)) 0); simpl;
    destruct (Protect.protect iop tfes acs aturn tdmptf fc fcu thelium tmax)
      as [[a vd] | e]; simpl; try reflexivity;
    destruct output; simpl; try reflexivity;
    match goal with
    | |- context [supercon_output 2 ?cd ?a1 ?a2 ?a3 ?a4 ?a5 ?a6 ?a7 ?st] =>
        destruct (supercon_output_bi2212 cd a1 a2 a3 a4 a5 a6 a7 st)
          as [s' Hs']; rewrite Hs'; reflexivity
    end.
Qed.

(** *** Computations that cannot raise *)

Lemma succeeds_ret {A} (a : A) : succeeds (ret a).
Proof. intros s. unfold ret. eauto. Qed.

Lemma succeeds_get {A} (f : store -> A) : succeeds (get f).
Proof. intros s. unfold get. eauto. Qed.

Lemma succeeds_modify (f : store -> store) : succeeds (modify f).
Proof. intros s. unfold modify. eauto. Qed.

Lemma succeeds_bind {A B} (m : M A) (k : A -> M B) :
  succeeds m -> (forall a, succeeds (k a)) -> succeeds (bind m k).
Proof.
  intros Hm Hk s. unfold bind.
  destruct (Hm s) as (a & s1 & E). rewrite E. apply Hk.
Qed.

Lemma succeeds_when (b : bool) (m : M unit) : succeeds m -> succeeds (when b m).
Proof. intros Hm. destruct b; simpl; [exact Hm | apply succeeds_ret]. Qed.

Lemma succeeds_local (name : string) (x : R) : succeeds (local name (Some x)).
Proof. apply succeeds_ret. Qed.

Lemma succeeds_material_block (isumat k : Z) (comments : list string)
    (wc : bool) (cd : conductor) :
  (isumat = k -> wc = true ->
   cd.(cd_bc20m) <> None /\ cd.(cd_tc0m) <> None) ->
  succeeds (material_block isumat k comments wc cd).
Proof.
  intros H. unfold material_block.
  destruct (isumat =? k)%Z eqn:E; [| apply succeeds_ret].
  apply Z.eqb_eq in E.
  apply succeeds_bind; [apply succeeds_modify | intros _].
  destruct wc; [| apply succeeds_ret].
  destruct (H E eq_refl) as [Hb Ht].
  destruct (cd_bc20m cd) as [b |]; [| congruence].
  destruct (cd_tc0m cd) as [t |]; [| congruence].
  repeat (apply succeeds_bind; [apply succeeds_local | intros ?]).
  apply succeeds_modify.
Qed.

(** The report cannot raise once the material constants are bound, or
    for Bi-2212, whose block prints none. *)
Lemma succeeds_supercon_output (isumat : Z) (cd : conductor)
    (thelium fhetot fcu j_tf_wp_critical jwdgop tmarg iooic : R) :
  (isumat = 2%Z \/ (cd.(cd_bc20m) <> None /\ cd.(cd_tc0m) <> None)) ->
  succeeds (supercon_output isumat cd thelium fhetot fcu j_tf_wp_critical
              jwdgop tmarg iooic).
Proof.
  intros H. unfold supercon_output.
  repeat first
    [ apply succeeds_modify
    | apply succeeds_get
    | apply succeeds_material_block;
      [ intros Hk Hw; destruct H as [H2 | H]; [subst; discriminate | exact H] ]
    | apply succeeds_material_block; [ intros _ Hw; discriminate ]
    | apply succeeds_when
    | apply succeeds_bind; [| intros ?] ].
Qed.

Lemma uses_root_find_cases (isumat : Z) :
  uses_root_find isumat = true ->
  (isumat = 1 \/ isumat = 3 \/ isumat = 4 \/ isumat = 5 \/ isumat = 7
   \/ isumat = 8 \/ isumat = 9)%Z.
Proof.
  unfold uses_root_find. intros H.
  repeat (apply orb_true_iff in H; destruct H as [H | H]);
    apply Z.eqb_eq in H; lia.
Qed.

(** For the seven materials of the root search the material branch
    returns, with [bc20m] and [tc0m] bound, [c0] bound for NbTi, and
    [tmarg] still unset. *)
Lemma branch_root_find (isumat : Z)
    (acs aturn bmax fcu jwp fhts thelium bcritsc tcritsc fcond strain : R)
    (s : store) :
  uses_root_find isumat = true ->
  exists cd s1 b t,
    branch isumat acs aturn bmax fcu jwp fhts thelium bcritsc tcritsc fcond
      strain s = (Returns cd, s1)
    /\ cd.(cd_bc20m) = Some b /\ cd.(cd_tc0m) = Some t
    /\ (isumat = 3%Z -> cd.(cd_c0) = Some 1.0e10)
    /\ cd.(cd_tmarg) = None.
Proof.
  intros H. apply uses_root_find_cases in H.
  unfold branch, material_branch, clamp_strain, cable_branch.
  unfold bind, get, modify, ret, report_error.
  destruct H as [H | [H | [H | [H | [H | [H | H]]]]]]; subst isumat; simpl;
    try (destruct (Rgtb (Rabs strain) _); simpl);
    do 4 eexists; (split; [reflexivity |]);
    repeat split; try reflexivity; intros; discriminate.
Qed.

(** What [supercon] returns for a material of the root search, in terms
    of the outcome of the root finder and of [protect]. *)
Lemma supercon_root_find_value
    (acs aturn bmax fhe fcu iop jwp : R) (isumat : Z)
    (fhts tdmptf tfes thelium tmax bcritsc tcritsc : R) (output : bool)
    (s s1 : store) (cd : conductor) (b t : R) :
  uses_root_find isumat = true ->
  branch isumat acs aturn bmax fcu jwp fhts thelium bcritsc tcritsc
    (fcond_of fhe s.(dia_tf_turn_coolant_channel) acs) (strain_in s) s
  = (Returns cd, s1) ->
  cd.(cd_bc20m) = Some b -> cd.(cd_tc0m) = Some t ->
  (isumat = 3%Z -> exists c, cd.(cd_c0) = Some c) ->
  fst (sc acs aturn bmax fhe fcu iop jwp isumat fhts tdmptf tfes thelium tmax
         bcritsc tcritsc output s)
  = match newton (margin_call current_density_margin
                    (root_find_arguments isumat cd iop bmax b t) thelium) with
    | Raises e => Raises e
    | Returns (t_zero_margin, _) =>
        match Protect.protect iop tfes acs aturn tdmptf
                (fcond_of fhe s.(dia_tf_turn_coolant_channel) acs) fcu
                thelium tmax with
        | Raises e => Raises e
        | Returns (_, vd) =>
            Returns (cd.(cd_icrit) / aturn, vd, t_zero_margin - thelium)
        end
    end.
Proof.
  intros Hrf Hbr Hb Ht Hc.
  assert (Hbound : isumat = 2%Z
                   \/ (cd.(cd_bc20m) <> None /\ cd.(cd_tc0m) <> None)).
  { right. split; congruence. }
  unfold sc, supercon. unfold bind at 1 2 3. unfold get at 1 2.
  cbv zeta. cbv beta iota.
  assert (Hsel : (if (i_str_wp s =? 0)%Z then get str_tf_con_res
                  else get str_wp) s = (Returns (strain_in s), s)).
  { unfold strain_in, get. destruct (i_str_wp s =? 0)%Z; reflexivity. }
  rewrite Hsel. cbv beta iota.
  unfold bind at 1. unfold branch, fcond_of in Hbr. rewrite Hbr.
  cbv beta iota. unfold supercon_tail. cbv zeta.
  unfold bind at 1 2 3 4 5. unfold get at 1 2 3. cbv beta iota.
  set (w := when _ _ s1). destruct w as [[[] | e] s2] eqn:Ew.
  2:{ exfalso. subst w. unfold when, modify, ret in Ew.
      destruct (Rleb _ _); discriminate. }
  cbv beta iota. unfold bind at 1. 
  set (w2 := when _ _ s2). destruct w2 as [[[] | e] s3] eqn:Ew2.
  2:{ exfalso. subst w2. unfold when, report_error, modify, ret in Ew2.
      destruct (_ && _); discriminate. }
  cbv beta iota. unfold bind at 1.
  unfold temperature_margin. rewrite Hrf, Hb, Ht.
  unfold local at 1 2. unfold bind at 1 2 3. unfold ret at 1 2.
  cbv beta iota.
  assert (Hargs :
    (if (isumat =? 3)%Z
     then (bind (local "c0" (cd_c0 cd))
             (fun c0 => ret (mkMarginArgs isumat
                (iop / cd_icrit cd * cd_j_crit_sc cd) bmax (cd_strain cd)
                b t (Some c0))))
     else ret (mkMarginArgs isumat (iop / cd_icrit cd * cd_j_crit_sc cd)
                 bmax (cd_strain cd) b t None)) s3
    = (Returns (root_find_arguments isumat cd iop bmax b t), s3)).
  { unfold root_find_arguments. cbv zeta.
    destruct (isumat =? 3)%Z eqn:E3; [| reflexivity].
    apply Z.eqb_eq in E3. destruct (Hc E3) as [c Ec]. rewrite Ec.
    reflexivity. }
  rewrite Hargs. cbv beta iota.
  unfold bind at 1. unfold lift at 1.
  destruct (newton _) as [[t0 rr] | e]; [| reflexivity].
  cbv beta iota. unfold bind at 1. unfold modify at 1. cbv beta iota.
  unfold ret at 1. unfold bind at 1. unfold lift at 1.
  destruct (Protect.protect _ _ _ _ _ _ _ _ _) as [[a vd] | e];
    [| reflexivity].
  cbv beta iota. unfold bind at 1. unfold modify at 1. cbv beta iota.
  unfold bind at 1.
  destruct output.
  - unfold bind at 1. unfold local at 1. unfold ret at 1. cbv beta iota.
    match goal with
    | |- context [supercon_output ?i ?c ?a1 ?a2 ?a3 ?a4 ?a5 ?a6 ?a7 ?st] =>
        destruct (succeeds_supercon_output i c a1 a2 a3 a4 a5 a6 a7
                    Hbound st)
          as ([] & s4 & Eo); rewrite Eo
    end.
    reflexivity.
  - reflexivity.
Qed.

(** C9.  For the seven materials other than Bi-2212 the temperature
    margin comes from one call to the root finder: a secant search (no
    derivative) for a zero of [current_density_margin] at the operating
    current density [jsc = iooic * j_crit_sc], seeded at [thelium] with
    second point [2 * thelium], tolerances [1e-6] (absolute and
    relative), at most 50 iterations; the margin returned is the root
    minus [thelium]. *)
Theorem supercon_margin_root_find
    (acs aturn bmax fhe fcu iop jwp : R) (isumat : Z)
    (fhts tdmptf tfes thelium tmax bcritsc tcritsc : R) (output : bool)
    (s : store) :
  uses_root_find isumat = true ->
  exists cd s1 b t,
    branch isumat acs aturn bmax fcu jwp fhts thelium bcritsc tcritsc
      (fcond_of fhe s.(dia_tf_turn_coolant_channel) acs) (strain_in s) s
    = (Returns cd, s1)
    /\ cd.(cd_bc20m) = Some b /\ cd.(cd_tc0m) = Some t
    /\ let arguments := root_find_arguments isumat cd iop bmax b t in
       let c := margin_call current_density_margin arguments thelium in
       ma_jsc arguments = iop / cd.(cd_icrit) * cd.(cd_j_crit_sc)
       /\ ma_bmax arguments = bmax
       /\ ma_strain arguments = cd.(cd_strain)
       /\ nc_func c = (fun ttest => current_density_margin ttest arguments)
       /\ nc_fprime c = None /\ nc_fprime2 c = None
       /\ nc_x0 c = thelium /\ nc_x1 c = Some (2 * thelium)
       /\ nc_tol c = 1.0e-6 /\ nc_rtol c = 1.0e-6 /\ nc_maxiter c = 50%Z
       /\ (forall e, newton c = Raises e ->
           fst (sc acs aturn bmax fhe fcu iop jwp isumat fhts tdmptf tfes
                  thelium tmax bcritsc tcritsc output s) = Raises e)
       /\ (forall t_zero_margin root_result,
           newton c = Returns (t_zero_margin, root_result) ->
           fst (sc acs aturn bmax fhe fcu iop jwp isumat fhts tdmptf tfes
                  thelium tmax bcritsc tcritsc output s)
           = match Protect.protect iop tfes acs aturn tdmptf
                     (fcond_of fhe s.(dia_tf_turn_coolant_channel) acs) fcu
                     thelium tmax with
             | Raises e => Raises e
             | Returns (_, vd) =>
                 Returns (cd.(cd_icrit) / aturn, vd, t_zero_margin - thelium)
             end).
Proof.
  intros Hrf.
  destruct (branch_root_find isumat acs aturn bmax fcu jwp fhts thelium
              bcritsc tcritsc
              (fcond_of fhe s.(dia_tf_turn_coolant_channel) acs)
              (strain_in s) s Hrf)
    as (cd & s1 & b & t & Hbr & Hb & Ht & Hc & _).
  exists cd, s1, b, t.
  split; [exact Hbr |]. split; [exact Hb |]. split; [exact Ht |].
  cbv zeta.
  assert (Hc' : isumat = 3%Z -> exists c, cd_c0 cd = Some c) by eauto.
  pose proof (supercon_root_find_value acs aturn bmax fhe fcu iop jwp isumat
                fhts tdmptf tfes thelium tmax bcritsc tcritsc output s s1 cd
                b t Hrf Hbr Hb Ht Hc') as Hval.
  repeat (split; [reflexivity |]).
  split.
  - intros e He. rewrite Hval, He. reflexivity.
  - intros t0 rr Hn. rewrite Hval, Hn. reflexivity.
Qed.


(** *** The strain limit *)

Lemma supercon_unfold
    (acs aturn bmax fhe fcu iop jwp : R) (isumat : Z)
    (fhts tdmptf tfes thelium tmax bcritsc tcritsc : R) (output : bool)
    (s : store) :
  sc acs aturn bmax fhe fcu iop jwp isumat fhts tdmptf tfes thelium tmax
    bcritsc tcritsc output s
  = match branch isumat acs aturn bmax fcu jwp fhts thelium bcritsc tcritsc
            (fcond_of fhe s.(dia_tf_turn_coolant_channel) acs)
            (strain_in s) s with
    | (Returns cd, s1) =>
        supercon_tail current_density_margin newton acs aturn bmax fcu iop
          isumat tdmptf tfes thelium tmax
          (fhetot_of fhe s.(dia_tf_turn_coolant_channel) acs)
          (fcond_of fhe s.(dia_tf_turn_coolant_channel) acs) output cd s1
    | (Raises e, s1) => (Raises e, s1)
    end.
Proof.
  unfold sc, supercon, branch, strain_in, fcond_of, bind, get. cbv zeta.
  destruct (i_str_wp s =? 0)%Z; reflexivity.
Qed.

Lemma strain_limit_cases (isumat : Z) (limit : R) :
  strain_limit isumat = Some limit ->
  ((isumat = 1 \/ isumat = 4 \/ isumat = 5)%Z /\ limit = 0.5e-2)
  \/ ((isumat = 8 \/ isumat = 9)%Z /\ limit = 0.7e-2).
Proof.
  unfold strain_limit. intros H.
  destruct ((isumat =? 1) || (isumat =? 4) || (isumat =? 5))%Z eqn:E1.
  - left. inversion H. split; [| reflexivity].
    repeat (apply orb_true_iff in E1; destruct E1 as [E1 | E1]);
      apply Z.eqb_eq in E1; lia.
  - destruct ((isumat =? 8) || (isumat =? 9))%Z eqn:E2; [| discriminate].
    right. inversion H. split; [| reflexivity].
    apply orb_true_iff in E2. destruct E2 as [E2 | E2];
      apply Z.eqb_eq in E2; lia.
Qed.

Lemma np_sign_clamp_abs (x limit : R) :
  0 < limit -> limit < Rabs x -> Rabs (np_sign x * limit) = limit.
Proof.
  intros Hl Hx. unfold np_sign.
  destruct (Rlt_dec x 0) as [Hneg | Hnn].
  - replace (-1 * limit) with (- limit) by lra.
    rewrite Rabs_Ropp. apply Rabs_pos_eq. lra.
  - destruct (Rlt_dec 0 x) as [Hpos | Hnp].
    + rewrite Rmult_1_l. apply Rabs_pos_eq. lra.
    + assert (x = 0) by lra. subst x. rewrite Rabs_R0 in Hx. lra.
Qed.

Lemma clamp_strain_above (limit strain : R) (s : store) :
  limit < Rabs strain ->
  clamp_strain limit strain s
  = (Returns (np_sign strain * limit),
     add_reported 261 (set_fdiags0 strain s)).
Proof.
  intros H. unfold clamp_strain. rewrite (Rgtb_true _ _ H). reflexivity.
Qed.

Lemma clamp_strain_within (limit strain : R) (s : store) :
  Rabs strain <= limit -> clamp_strain limit strain s = (Returns strain, s).
Proof.
  intros H. unfold clamp_strain. rewrite (Rgtb_false _ _ H). reflexivity.
Qed.

(** Above the limit, the material branch leaves the same local variables
    as a call made with the clamped strain; it differs only in having
    recorded the strain and reported error 261. *)
Lemma branch_clamp (isumat : Z) (limit : R)
    (acs aturn bmax fcu jwp fhts thelium bcritsc tcritsc fcond strain : R)
    (s : store) :
  strain_limit isumat = Some limit -> limit < Rabs strain ->
  let clamped := np_sign strain * limit in
  exists cd v b t,
    branch isumat acs aturn bmax fcu jwp fhts thelium bcritsc tcritsc fcond
      strain s
    = (Returns cd,
       set_j_crit_str_tf v (add_reported 261 (set_fdiags0 strain s)))
    /\ branch isumat acs aturn bmax fcu jwp fhts thelium bcritsc tcritsc
         fcond clamped (with_strain clamped s)
       = (Returns cd, set_j_crit_str_tf v (with_strain clamped s))
    /\ cd.(cd_strain) = clamped
    /\ cd.(cd_bc20m) = Some b /\ cd.(cd_tc0m) = Some t.
Proof.
  intros Hlim Habs. cbv zeta.
  assert (Hpos : 0 < limit).
  { destruct (strain_limit_cases _ _ Hlim) as [[_ E] | [_ E]]; subst; lra. }
  pose proof (np_sign_clamp_abs strain limit Hpos Habs) as Hc.
  assert (Hle : Rabs (np_sign strain * limit) <= limit) by lra.
  unfold branch, material_branch, cable_branch.
  destruct (strain_limit_cases _ _ Hlim)
    as [[[H | [H | H]] E] | [[H | H] E]]; subst isumat limit;
    cbn [Z.eqb Pos.eqb];
    unfold bind;
    rewrite (clamp_strain_above _ _ s Habs);
    rewrite (clamp_strain_within _ _ (with_strain _ s) Hle);
    unfold get, modify, ret; cbn [fst snd];
    do 4 eexists; repeat split; reflexivity.
Qed.

Lemma strain_in_with_strain (v : R) (s : store) :
  strain_in (with_strain v s) = v.
Proof. unfold strain_in, with_strain. simpl. destruct (_ =? _)%Z; reflexivity. Qed.

Lemma strain_limit_root_find (isumat : Z) (limit : R) :
  strain_limit isumat = Some limit -> uses_root_find isumat = true.
Proof.
  intros H.
  destruct (strain_limit_cases _ _ H)
    as [[[E | [E | E]] _] | [[E | E] _]]; subst; reflexivity.
Qed.

(** The branches of Bi-2212 and NbTi, whose correlations take no strain:
    the strain is stored as it came, nothing is reported, and the
    critical current is the same for every strain. *)
Lemma branch_unlimited (isumat : Z)
    (acs aturn bmax fcu jwp fhts thelium bcritsc tcritsc fcond : R)
    (strain strain' : R) (s : store) :
  (isumat = 2 \/ isumat = 3)%Z ->
  exists cd cd' v,
    branch isumat acs aturn bmax fcu jwp fhts thelium bcritsc tcritsc fcond
      strain s = (Returns cd, set_j_crit_str_tf v s)
    /\ branch isumat acs aturn bmax fcu jwp fhts thelium bcritsc tcritsc
         fcond strain' s = (Returns cd', set_j_crit_str_tf v s)
    /\ cd.(cd_strain) = strain /\ cd'.(cd_strain) = strain'
    /\ cd'.(cd_j_crit_sc) = cd.(cd_j_crit_sc)
    /\ cd'.(cd_j_crit_cable) = cd.(cd_j_crit_cable)
    /\ cd'.(cd_icrit) = cd.(cd_icrit).
Proof.
  unfold branch, material_branch, cable_branch, bind, modify, ret.
  intros [H | H]; subst isumat; cbn [Z.eqb Pos.eqb].
  - destruct (bi2212 _ _ _ _) as [jc tm].
    do 3 eexists. repeat split; reflexivity.
  - do 3 eexists. repeat split; reflexivity.
Qed.

(** C3 (as the code has it).  For the materials that carry a strain
    limit (0.5e-2 for 1, 4 and 5; 0.7e-2 for 8 and 9), a strain above the
    limit is recorded in [fdiags[0]], error 261 is reported, and
    [supercon] goes on to return exactly what it returns when called
    with strain [sign(strain) * limit]; that second call issues no
    diagnostic of its own for the strain.  For Bi-2212 (2) and NbTi (3),
    whose correlations take no strain, no limit is applied and no
    diagnostic is issued, whatever the strain: no error other than 266
    is reported, [fdiags[0]] is left alone, the strain stays as it came
    in the local variable that [supercon] goes on with, and the critical
    current densities and the critical current are the same for every
    strain. *)
Theorem supercon_strain_clamp
    (acs aturn bmax fhe fcu iop jwp : R) (isumat : Z)
    (fhts tdmptf tfes thelium tmax bcritsc tcritsc : R) (output : bool)
    (s : store) :
  let run := sc acs aturn bmax fhe fcu iop jwp isumat fhts tdmptf tfes
               thelium tmax bcritsc tcritsc output in
  let fhetot := fhetot_of fhe s.(dia_tf_turn_coolant_channel) acs in
  let fcond := fcond_of fhe s.(dia_tf_turn_coolant_channel) acs in
  (forall limit,
      strain_limit isumat = Some limit ->
      limit < Rabs (strain_in s) ->
      let clamped := np_sign (strain_in s) * limit in
      In 261%Z (reported (snd (run s)))
      /\ fdiags0 (snd (run s)) = strain_in s
      /\ fst (run s) = fst (run (with_strain clamped s))
      /\ only_266_added s (snd (run (with_strain clamped s))))
  /\ ((isumat = 2 \/ isumat = 3)%Z ->
      only_266_added s (snd (run s))
      /\ fdiags0 (snd (run s)) = fdiags0 s
      /\ exists cd v,
           branch isumat acs aturn bmax fcu jwp fhts thelium bcritsc tcritsc
             fcond (strain_in s) s
           = (Returns cd, set_j_crit_str_tf v s)
           /\ cd.(cd_strain) = strain_in s
           /\ run s
              = supercon_tail current_density_margin newton acs aturn bmax
                  fcu iop isumat tdmptf tfes thelium tmax fhetot fcond
                  output cd (set_j_crit_str_tf v s)
           /\ forall strain',
                exists cd',
                  branch isumat acs aturn bmax fcu jwp fhts thelium bcritsc
                    tcritsc fcond strain' s
                  = (Returns cd', set_j_crit_str_tf v s)
                  /\ cd'.(cd_strain) = strain'
                  /\ cd'.(cd_j_crit_sc) = cd.(cd_j_crit_sc)
                  /\ cd'.(cd_j_crit_cable) = cd.(cd_j_crit_cable)
                  /\ cd'.(cd_icrit) = cd.(cd_icrit)).
Proof.
  cbv zeta. split.
  - intros limit Hlim Habs.
    set (clamped := np_sign (strain_in s) * limit).
    pose proof (strain_limit_root_find _ _ Hlim) as Hrf.
    destruct (branch_clamp isumat limit acs aturn bmax fcu jwp fhts thelium
                bcritsc tcritsc
                (fcond_of fhe s.(dia_tf_turn_coolant_channel) acs)
                (strain_in s) s Hlim Habs)
      as (cd & v & b & t & Hb1 & Hb2 & Hcs & Hbc & Htc).
    fold clamped in Hb2, Hcs.
    assert (Hc3 : isumat = 3%Z -> exists c, cd_c0 cd = Some c).
    { intros E. subst isumat. discriminate Hlim. }
    split; [| split; [| split]].
    + rewrite supercon_unfold, Hb1.
      destruct (supercon_tail _ _ _ _ _ _ _ _ _ _ _ _ _ _ _ _ _)
        as [o sf] eqn:E.
      apply tail_keeps_diagnostics in E. destruct E as [Hin _].
      simpl. apply Hin. simpl. apply in_or_app. right. left. reflexivity.
    + rewrite supercon_unfold, Hb1.
      destruct (supercon_tail _ _ _ _ _ _ _ _ _ _ _ _ _ _ _ _ _)
        as [o sf] eqn:E.
      apply tail_keeps_diagnostics in E. destruct E as [_ Hfd].
      simpl. rewrite Hfd. reflexivity.
    + rewrite (supercon_root_find_value acs aturn bmax fhe fcu iop jwp isumat
                 fhts tdmptf tfes thelium tmax bcritsc tcritsc output s _ cd
                 b t Hrf Hb1 Hbc Htc Hc3).
      rewrite (supercon_root_find_value acs aturn bmax fhe fcu iop jwp isumat
                 fhts tdmptf tfes thelium tmax bcritsc tcritsc output
                 (with_strain clamped s)
                 (set_j_crit_str_tf v (with_strain clamped s)) cd b t Hrf).
      * reflexivity.
      * rewrite strain_in_with_strain. exact Hb2.
      * exact Hbc.
      * exact Htc.
      * exact Hc3.
    + rewrite supercon_unfold. rewrite strain_in_with_strain.
      change (dia_tf_turn_coolant_channel (with_strain clamped s))
        with (dia_tf_turn_coolant_channel s).
      rewrite Hb2.
      destruct (supercon_tail _ _ _ _ _ _ _ _ _ _ _ _ _ _ _ _ _)
        as [o sf] eqn:E.
      apply tail_adds_only_266 in E. simpl. exact E.
  - intros Hmat.
    destruct (branch_unlimited isumat acs aturn bmax fcu jwp fhts thelium
                bcritsc tcritsc
                (fcond_of fhe s.(dia_tf_turn_coolant_channel) acs)
                (strain_in s) (strain_in s) s Hmat)
      as (cd & _ & v & Hb & _ & Hcs & _).
    assert (Hrun :
      sc acs aturn bmax fhe fcu iop jwp isumat fhts tdmptf tfes thelium tmax
        bcritsc tcritsc output s
      = supercon_tail current_density_margin newton acs aturn bmax fcu iop
          isumat tdmptf tfes thelium tmax
          (fhetot_of fhe s.(dia_tf_turn_coolant_channel) acs)
          (fcond_of fhe s.(dia_tf_turn_coolant_channel) acs) output cd
          (set_j_crit_str_tf v s)).
    { rewrite supercon_unfold, Hb. reflexivity. }
    split; [| split].
    + rewrite Hrun.
      destruct (supercon_tail _ _ _ _ _ _ _ _ _ _ _ _ _ _ _ _ _)
        as [o sf] eqn:E.
      apply tail_adds_only_266 in E. simpl. exact E.
    + rewrite Hrun.
      destruct (supercon_tail _ _ _ _ _ _ _ _ _ _ _ _ _ _ _ _ _)
        as [o sf] eqn:E.
      apply tail_keeps_diagnostics in E. destruct E as [_ Hfd].
      simpl. rewrite Hfd. reflexivity.
    + exists cd, v. split; [exact Hb |]. split; [exact Hcs |].
      split; [exact Hrun |].
      intros strain'.
      destruct (branch_unlimited isumat acs aturn bmax fcu jwp fhts thelium
                  bcritsc tcritsc
                  (fcond_of fhe s.(dia_tf_turn_coolant_channel) acs)
                  (strain_in s) strain' s Hmat)
        as (cd0 & cd' & v0 & Hb0 & Hb' & _ & Hcs' & Hj & Hc & Hi).
      rewrite Hb in Hb0. injection Hb0 as Hcd Hst.
      exists cd'. subst cd0. rewrite Hst.
      repeat split; assumption.
Qed.

(** *** The conductor fraction *)






End SuperconFacts.

(** ** The reference root finder *)

Module SecantFacts.
Import Secant.


Lemma Reqb_false (x y : R) : x <> y -> Reqb x y = false.
Proof. intros H. unfold Reqb. destruct (Req_dec_T x y); [contradiction | reflexivity]. Qed.




(** When the second seed is itself a root, the search returns it after
    two iterations. *)
Lemma newton_root_at_x1 (c : newton_call) (x1 : R) :
  0 < nc_tol c -> 0 <= nc_rtol c -> (2 <= nc_maxiter c)%Z ->
  nc_x1 c = Some x1 -> x1 <> nc_x0 c ->
  nc_tol c + nc_rtol c * Rabs (nc_x0 c) < Rabs (x1 - nc_x0 c) ->
  nc_func c x1 = 0 -> nc_func c (nc_x0 c) <> 0 ->
  newton c = Returns (x1, mkRootResults x1 2 3 true).
Proof.
  intros Htol Hrtol Hmax Hx1 Hne Hfar Hroot Hq0. unfold newton.
  rewrite (Rleb_false _ _ Htol).
  replace (nc_maxiter c <? 1)%Z with false by (symmetry; apply Z.ltb_ge; lia).
  rewrite Hx1, (Reqb_false _ _ Hne). unfold start.
  set (f := nc_func c) in *. set (x0 := nc_x0 c) in *.
  set (q := f x0) in *.
  rewrite Hroot.
  assert (Hqpos : 0 < Rabs q) by (apply Rabs_pos_lt; exact Hq0).
  rewrite Rgtb_true by (rewrite Rabs_R0; exact Hqpos).
  destruct (Z.to_nat (nc_maxiter c)) as [| [| n]] eqn:En; [lia | lia |].
  cbn [loop].
  rewrite (Reqb_false q 0 Hq0).
  rewrite Rgtb_true by (rewrite Rabs_R0; exact Hqpos).
  assert (Hp1 : (- 0 / q * x0 + x1) / (1 - 0 / q) = x1) by (field; exact Hq0).
  rewrite Hp1.
  unfold isclose at 1. rewrite Rleb_false by exact Hfar.
  fold q. rewrite Hroot.
  rewrite (Reqb_false 0 q) by (intros E; apply Hq0; symmetry; exact E).
  rewrite Rgtb_false by (rewrite Rabs_R0; lra).
  assert (Hp2 : (- 0 / q * x0 + x1) / (1 - 0 / q) = x1) by (field; exact Hq0).
  rewrite Hp2.
  unfold isclose. rewrite Rleb_true.
  - reflexivity.
  - replace (x1 - x1) with 0 by lra. rewrite Rabs_R0.
    pose proof (Rabs_pos x1). nra.
Qed.

End SecantFacts.

(** ** Statements over several instances *)

(** C8.  For Bi-2212 ([isumat = 2]) the critical current density in the
    cable and the temperature margin are the two values returned by the
    [bi2212] correlation, and the root finder plays no part: [supercon]
    yields the same outcome and the same store whatever root finder and
    margin function it is given. *)
Theorem supercon_bi2212_bypasses_root_find
    (itersc : R -> R -> R -> R -> R -> R * R * R)
    (bi2212 : R -> R -> R -> R -> R * R)
    (jcrit_nbti : R -> R -> R -> R -> R -> R * R)
    (western_superconducting_nb3sn gl_nbti gl_rebco
       : R -> R -> R -> R -> R -> R * R * R)
    (hijc_rebco : R -> R -> R -> R -> R -> R -> R -> R * R * R)
    (cdm cdm' : R -> margin_args -> R) (nw nw' : root_finder)
    (acs aturn bmax fhe fcu iop jwp : R)
    (fhts tdmptf tfes thelium tmax bcritsc tcritsc : R) (output : bool)
    (s : store) :
  let run := fun m n =>
    supercon itersc bi2212 jcrit_nbti western_superconducting_nb3sn gl_nbti
      gl_rebco hijc_rebco m n acs aturn bmax fhe fcu iop jwp 2%Z fhts tdmptf
      tfes thelium tmax bcritsc tcritsc output s in
  let fcond := fcond_of fhe s.(dia_tf_turn_coolant_channel) acs in
  let jstrand := jwp * aturn / (acs * fcond) in
  let j_crit_cable := fst (bi2212 bmax jstrand thelium fhts) in
  let tmarg := snd (bi2212 bmax jstrand thelium fhts) in
  run cdm nw = run cdm' nw'
  /\ fst (run cdm nw)
     = match Protect.protect iop tfes acs aturn tdmptf fcond fcu thelium tmax
       with
       | Returns (_, vd) =>
           Returns (j_crit_cable * acs * fcond / aturn, vd, tmarg)
       | Raises e => Raises e
       end.
Proof.
  cbv zeta. split.
  - reflexivity.
  - apply supercon_bi2212_value.
Qed.

(** ** Runs on the synthetic instance *)

Lemma supercon_rejects_croco_and_unknown_witness :
  (exists msg k,
      Synthetic.run Secant.newton 4 8 12 0.5 0.5 0.5 1 6 1 10 1 4 104 30 16
        false (Synthetic.store0 0)
      = (Raises (ProcessValueError msg k), Synthetic.store0 0))
  /\ (exists msg k,
      Synthetic.run Secant.newton 4 8 12 0.5 0.5 0.5 1 10 1 10 1 4 104 30 16
        false (Synthetic.store0 0)
      = (Raises (ProcessValueError msg k), Synthetic.store0 0)).
Proof.
  unfold Synthetic.run. split.
  - apply supercon_rejects_croco_and_unknown. left. reflexivity.
  - apply supercon_rejects_croco_and_unknown. right. right. lia.
Defined.


Lemma fcond_sample : fcond_of 0.5 0 4 = 0.5.
Proof.
  unfold fcond_of, fhetot_of. cbv zeta.
  rewrite Rgtb_false by lra. lra.
Qed.

Lemma protect_sample (fcond : R) :
  exists a vd, Protect.protect 0.5 1 4 8 10 fcond 0.5 4 104 = Returns (a, vd).
Proof.
  destruct (ProtectFacts.protect_returns 0.5 1 4 8 10 fcond 0.5 4 104)
    as [a Ha].
  - assert (H : (1 <= Protect.n_o 4 104 <= 11)%Z)
      by (apply ProtectFacts.n_o_in_table; lra).
    lia.
  - eauto.
Qed.

(** The search on the linear correlation: with a critical temperature of
    16 K, helium at 4 K and an operating current density of one half,
    the zero-margin temperature is 8 K and the margin is 4 K. *)
Lemma supercon_margin_root_find_witness :
  exists j vd,
    fst (Synthetic.run Secant.newton 4 8 12 0.5 0.5 0.5 1 4 1 10 1 4 104 30 16
           false (Synthetic.store0 0))
    = Returns (j, vd, 4).
Proof.
  unfold Synthetic.run.
  destruct (supercon_margin_root_find
              Synthetic.linear Synthetic.bi2212 Synthetic.jcrit_nbti
              Synthetic.linear Synthetic.strained Synthetic.linear
              Synthetic.hijc_rebco Synthetic.current_density_margin
              Secant.newton
              4 8 12 0.5 0.5 0.5 1 4 1 10 1 4 104 30 16 false
              (Synthetic.store0 0) eq_refl)
    as (cd & s1 & b & t & Hbr & Hb & Ht & Hrest).
  cbv zeta in Hrest.
  destruct Hrest as (_ & _ & _ & _ & _ & _ & _ & _ & _ & _ & _ & _ & Hret).
  change (dia_tf_turn_coolant_channel (Synthetic.store0 0)) with 0 in *.
  change (strain_in (Synthetic.store0 0)) with 0 in Hbr.
  rewrite fcond_sample in *.
  unfold material_branch, cable_branch in Hbr. cbn [Z.eqb Pos.eqb] in Hbr.
  unfold bind in Hbr.
  rewrite clamp_strain_within in Hbr by (rewrite Rabs_R0; lra).
  unfold modify, ret in Hbr. inversion Hbr as [[Hcd Hs1]]. clear Hbr.
  rewrite <- Hcd in Hb, Ht. simpl in Hb, Ht.
  inversion Hb. inversion Ht. subst b t.
  destruct (protect_sample 0.5) as (a & vd & Hp).
  exists (cd_icrit cd / 8), vd.
  rewrite (Hret (2 * 4) (mkRootResults (2 * 4) 2 3 true)).
  - rewrite Hp. do 2 f_equal. lra.
  - apply SecantFacts.newton_root_at_x1; rewrite <- Hcd;
      unfold margin_call, root_find_arguments, Synthetic.current_density_margin,
        Synthetic.linear; simpl; try lra; try lia; try reflexivity.
    rewrite !Rabs_pos_eq by lra. lra.
Defined.

Lemma Rdiv_mult_cancel (a j : R) : j <> 0 -> a / j * j = a.
Proof. intros H. field. exact H. Qed.

Lemma jsc_sample (j : R) :
  j <> 0 -> 0.5 / (j * (1.0 - 0.5) * 0.5 * 4) * j = 0.5.
Proof.
  intros H. replace (j * (1.0 - 0.5) * 0.5 * 4) with j by lra.
  apply Rdiv_mult_cancel. exact H.
Qed.

(** The Ginzburg-Landau Nb-Ti branch on the synthetic instance: the
    strain reaches the correlation as it is, whatever its size. *)
Lemma gl_nbti_run (strain : R) :
  1 + strain <> 0 ->
  exists vd,
    fst (Synthetic.run Secant.newton 4 8 12 0.5 0.5 0.5 1 7 1 10 1 4 104 30 16
           false (Synthetic.store0 strain))
    = Returns ((1 + strain) * (1.0 - 0.5) * 0.5 * 4 / 8, vd, 2 * 4 - 4).
Proof.
  intros Hj. unfold Synthetic.run.
  destruct (protect_sample 0.5) as (a & vd & Hp). exists vd.
  set (cd := mkConductor (1 + strain) ((1 + strain) * (1.0 - 0.5) * 0.5)
               ((1 + strain) * (1.0 - 0.5) * 0.5 * 4) strain
               (Some 14.86) (Some 16) None None).
  rewrite (supercon_root_find_value
             Synthetic.linear Synthetic.bi2212 Synthetic.jcrit_nbti
             Synthetic.linear Synthetic.strained Synthetic.linear
             Synthetic.hijc_rebco Synthetic.current_density_margin
             Secant.newton
             4 8 12 0.5 0.5 0.5 1 7 1 10 1 4 104 30 16 false
             (Synthetic.store0 strain)
             (set_j_crit_str_tf ((1 + strain) * (1.0 - 0.5))
                (Synthetic.store0 strain))
             cd 14.86 16).
  - rewrite (SecantFacts.newton_root_at_x1 _ (2 * 4)).
    + change (dia_tf_turn_coolant_channel (Synthetic.store0 strain)) with 0.
      rewrite fcond_sample, Hp. reflexivity.
    + simpl. lra.
    + simpl. lra.
    + simpl. lia.
    + reflexivity.
    + simpl. lra.
    + simpl. rewrite !Rabs_pos_eq by lra. lra.
    + unfold margin_call, root_find_arguments,
        Synthetic.current_density_margin. simpl.
      rewrite (jsc_sample _ Hj). lra.
    + unfold margin_call, root_find_arguments,
        Synthetic.current_density_margin. simpl.
      rewrite (jsc_sample _ Hj). lra.
  - reflexivity.
  - change (dia_tf_turn_coolant_channel (Synthetic.store0 strain)) with 0.
    rewrite fcond_sample. reflexivity.
  - reflexivity.
  - reflexivity.
  - intros E. discriminate E.
Qed.

Lemma np_sign_pos (x : R) : 0 < x -> np_sign x = 1.
Proof.
  intros H. unfold np_sign.
  destruct (Rlt_dec x 0); [lra |]. destruct (Rlt_dec 0 x); [reflexivity | lra].
Qed.

(** Ginzburg-Landau Nb-Ti ([isumat = 7]).  [gl_nbti] takes a strain, but
    no limit block precedes it as one does for the Ginzburg-Landau REBCO
    branch next to it: a strain of 0.8e-2 draws no diagnostic 261 and
    reaches the correlation as it is, so the result differs from the one
    obtained with strain 0.5e-2. *)
Lemma supercon_gl_nbti_strain_unclamped :
  let run := Synthetic.run Secant.newton 4 8 12 0.5 0.5 0.5 1 7 1 10 1 4 104
               30 16 false in
  0.5e-2 < Rabs (strain_in (Synthetic.store0 0.8e-2))
  /\ ~ In 261%Z (reported (snd (run (Synthetic.store0 0.8e-2))))
  /\ fst (run (Synthetic.store0 0.8e-2))
     <> fst (run (Synthetic.store0 (np_sign 0.8e-2 * 0.5e-2))).
Proof.
  cbv zeta. split; [| split].
  - change (strain_in (Synthetic.store0 0.8e-2)) with 0.8e-2.
    rewrite Rabs_pos_eq by lra. lra.
  - unfold Synthetic.run. rewrite supercon_unfold.
    unfold material_branch, cable_branch, bind, get, modify, ret.
    cbn [Z.eqb Pos.eqb].
    destruct (supercon_tail _ _ _ _ _ _ _ _ _ _ _ _ _ _ _ _ _)
      as [o sf] eqn:E.
    apply tail_adds_only_266 in E. simpl. intros Hin.
    destruct (E _ Hin) as [H | H]; [destruct H | discriminate H].
  - rewrite np_sign_pos by lra.
    destruct (gl_nbti_run 0.8e-2) as [vd1 H1]; [lra |].
    destruct (gl_nbti_run (1 * 0.5e-2)) as [vd2 H2]; [lra |].
    rewrite H1, H2. intros E. inversion E as [[Hj Hvd]]. lra.
Qed.

Lemma protect_sample_nbti (fcond : R) :
  exists a vd,
    Protect.protect 0.5 1 4 8 10 fcond 0.5 2.325 104 = Returns (a, vd).
Proof.
  destruct (ProtectFacts.protect_returns 0.5 1 4 8 10 fcond 0.5 2.325 104)
    as [a Ha].
  - assert (H : (1 <= Protect.n_o 2.325 104 <= 11)%Z)
      by (apply ProtectFacts.n_o_in_table; lra).
    lia.
  - eauto.
Qed.

(** The NbTi branch on the synthetic instance, with helium at 2.325 K:
    the zero-margin temperature is 4.65 K whatever the strain. *)
Lemma nbti_run (strain : R) :
  exists vd,
    fst (Synthetic.run Secant.newton 4 8 12 0.5 0.5 0.5 1 3 1 10 1 2.325 104
           30 16 false (Synthetic.store0 strain))
    = Returns ((1 - 2.325 / 9.3) * (1.0 - 0.5) * 0.5 * 4 / 8, vd,
               2 * 2.325 - 2.325).
Proof.
  unfold Synthetic.run.
  assert (Hj : 1 - 2.325 / 9.3 <> 0) by lra.
  destruct (protect_sample_nbti 0.5) as (a & vd & Hp). exists vd.
  set (j := 1 - 2.325 / 9.3) in *.
  set (cd := mkConductor j (j * (1.0 - 0.5) * 0.5)
               (j * (1.0 - 0.5) * 0.5 * 4) strain
               (Some 15.0) (Some 9.3) (Some 1.0e10) None).
  rewrite (supercon_root_find_value
             Synthetic.linear Synthetic.bi2212 Synthetic.jcrit_nbti
             Synthetic.linear Synthetic.strained Synthetic.linear
             Synthetic.hijc_rebco Synthetic.current_density_margin
             Secant.newton
             4 8 12 0.5 0.5 0.5 1 3 1 10 1 2.325 104 30 16 false
             (Synthetic.store0 strain)
             (set_j_crit_str_tf (j * (1.0 - 0.5)) (Synthetic.store0 strain))
             cd 15.0 9.3).
  - rewrite (SecantFacts.newton_root_at_x1 _ (2 * 2.325)).
    + change (dia_tf_turn_coolant_channel (Synthetic.store0 strain)) with 0.
      rewrite fcond_sample, Hp. reflexivity.
    + simpl. lra.
    + simpl. lra.
    + simpl. lia.
    + reflexivity.
    + simpl. lra.
    + simpl. rewrite !Rabs_pos_eq by lra. lra.
    + unfold margin_call, root_find_arguments,
        Synthetic.current_density_margin. simpl.
      rewrite (jsc_sample _ Hj). lra.
    + unfold margin_call, root_find_arguments,
        Synthetic.current_density_margin. simpl.
      rewrite (jsc_sample _ Hj). unfold j. lra.
  - reflexivity.
  - change (dia_tf_turn_coolant_channel (Synthetic.store0 strain)) with 0.
    rewrite fcond_sample. reflexivity.
  - reflexivity.
  - reflexivity.
  - intros _. exists 1.0e10. reflexivity.
Qed.

(** C3 (counterexample).  NbTi ([isumat = 3]) is a metallic
    low-temperature material, yet with a strain of 0.8e-2, above 0.5e-2,
    [supercon] returns without reporting error 261 and without writing
    [fdiags[0]]: the strain is not reported via a diagnostic code. *)
Lemma supercon_nbti_strain_unreported :
  let run := Synthetic.run Secant.newton 4 8 12 0.5 0.5 0.5 1 3 1 10 1 2.325
               104 30 16 false in
  0.5e-2 < Rabs (strain_in (Synthetic.store0 0.8e-2))
  /\ (exists j vd tmarg,
        fst (run (Synthetic.store0 0.8e-2)) = Returns (j, vd, tmarg))
  /\ ~ In 261%Z (reported (snd (run (Synthetic.store0 0.8e-2))))
  /\ fdiags0 (snd (run (Synthetic.store0 0.8e-2))) = 0.
Proof.
  cbv zeta. split; [| split; [| split]].
  - change (strain_in (Synthetic.store0 0.8e-2)) with 0.8e-2.
    rewrite Rabs_pos_eq by lra. lra.
  - destruct (nbti_run 0.8e-2) as [vd H]. eauto.
  - unfold Synthetic.run. rewrite supercon_unfold.
    unfold material_branch, cable_branch, bind, get, modify, ret.
    cbn [Z.eqb Pos.eqb].
    destruct (supercon_tail _ _ _ _ _ _ _ _ _ _ _ _ _ _ _ _ _)
      as [o sf] eqn:E.
    apply tail_adds_only_266 in E. simpl. intros Hin.
    destruct (E _ Hin) as [H | H]; [destruct H | discriminate H].
  - unfold Synthetic.run. rewrite supercon_unfold.
    unfold material_branch, cable_branch, bind, get, modify, ret.
    cbn [Z.eqb Pos.eqb].
    destruct (supercon_tail _ _ _ _ _ _ _ _ _ _ _ _ _ _ _ _ _)
      as [o sf] eqn:E.
    apply tail_keeps_diagnostics in E. destruct E as [_ Hfd].
    simpl. rewrite Hfd. reflexivity.
Qed.

(** The strain limit at work: user-defined Nb3Sn ([isumat = 4]) with a
    strain of 0.8e-2 reports it and returns what it returns at 0.5e-2;
    NbTi ([isumat = 3]) with the same strain reports nothing. *)
Lemma supercon_strain_clamp_witness :
  (let run := Synthetic.run Secant.newton 4 8 12 0.5 0.5 0.5 1 4 1 10 1 4 104
                30 16 false in
   In 261%Z (reported (snd (run (Synthetic.store0 0.8e-2))))
   /\ fdiags0 (snd (run (Synthetic.store0 0.8e-2))) = 0.8e-2
   /\ fst (run (Synthetic.store0 0.8e-2))
      = fst (run (Synthetic.store0 (np_sign 0.8e-2 * 0.5e-2))))
  /\ (let run := Synthetic.run Secant.newton 4 8 12 0.5 0.5 0.5 1 3 1 10 1
                   2.325 104 30 16 false in
      only_266_added (Synthetic.store0 0.8e-2)
        (snd (run (Synthetic.store0 0.8e-2)))
      /\ fdiags0 (snd (run (Synthetic.store0 0.8e-2))) = 0).
Proof.
  cbv zeta. unfold Synthetic.run. split.
  - destruct (supercon_strain_clamp
                Synthetic.linear Synthetic.bi2212 Synthetic.jcrit_nbti
                Synthetic.linear Synthetic.strained Synthetic.linear
                Synthetic.hijc_rebco Synthetic.current_density_margin
                Secant.newton
                4 8 12 0.5 0.5 0.5 1 4 1 10 1 4 104 30 16 false
                (Synthetic.store0 0.8e-2))
      as (Hclamp & _).
    destruct (Hclamp 0.5e-2 eq_refl) as (H261 & Hfd & Hfst & _).
    + change (strain_in (Synthetic.store0 0.8e-2)) with 0.8e-2.
      rewrite Rabs_pos_eq by lra. lra.
    + split; [exact H261 |]. split; [exact Hfd |]. exact Hfst.
  - destruct (supercon_strain_clamp
                Synthetic.linear Synthetic.bi2212 Synthetic.jcrit_nbti
                Synthetic.linear Synthetic.strained Synthetic.linear
                Synthetic.hijc_rebco Synthetic.current_density_margin
                Secant.newton
                4 8 12 0.5 0.5 0.5 1 3 1 10 1 2.325 104 30 16 false
                (Synthetic.store0 0.8e-2))
      as (_ & Hfree).
    destruct (Hfree (or_intror eq_refl)) as (Honly & Hfd & _).
    split; [exact Honly | exact Hfd].
Defined.


(** ** [vv_stress_on_quench] *)

Module QuenchFacts.
Import Quench.

Section Facts.

Variable rmu0 : R.

(** Nothing before the vessel resistance depends on the shell
    thickness. *)
Lemma lambda2_thickness (a : args) (d : R) :
  lambda2 rmu0 (with_d_vv a d)
  = ((0.84 / d) * theta_vv a * 1e-6) / vv_self_inductance rmu0 a.
Proof. reflexivity. Qed.

(** The current induced in the vessel is proportional to the shell
    thickness. *)
Lemma i2_thickness (a : args) (d : R) :
  d <> 0 -> theta_vv a <> 0 -> vv_self_inductance rmu0 a <> 0 ->
  i2 rmu0 (with_d_vv a d)
  = (lambda1 rmu0 a * i1 rmu0 a * vv_self_inductance rmu0 a
     / (0.84 * theta_vv a * 1e-6)) * d.
Proof.
  intros Hd Ht HL. unfold i2. rewrite lambda2_thickness.
  change (lambda1 rmu0 (with_d_vv a d)) with (lambda1 rmu0 a).
  change (i1 rmu0 (with_d_vv a d)) with (i1 rmu0 a).
  field. repeat split; try assumption; try lra.
Qed.

(** The vessel current density does not depend on the shell thickness. *)
Lemma j_vvi_thickness (a : args) (d : R) :
  d <> 0 -> theta_vv a <> 0 -> vv_self_inductance rmu0 a <> 0 ->
  ri_vv a <> 0 ->
  j_vvi rmu0 (with_d_vv a d)
  = (lambda1 rmu0 a * i1 rmu0 a * vv_self_inductance rmu0 a
     / (0.84 * theta_vv a * 1e-6)) / (2 * PI * ri_vv a).
Proof.
  intros Hd Ht HL Hri. unfold j_vvi. rewrite (i2_thickness a d Hd Ht HL).
  change (d_vv (with_d_vv a d)) with d.
  change (ri_vv (with_d_vv a d)) with (ri_vv a).
  pose proof PI_RGT_0 as Hpi.
  field. repeat split; try assumption; lra.
Qed.

(** The stress is an affine function of the shell thickness whose slope
    is [zeta * rmu0 * ri_vv * j_vvi ^ 2 / 2]. *)
Lemma tresca_thickness (a : args) (d1 d2 : R) :
  d1 <> 0 -> d2 <> 0 -> theta_vv a <> 0 -> vv_self_inductance rmu0 a <> 0 ->
  ri_vv a <> 0 ->
  tresca_stress rmu0 (with_d_vv a d2) - tresca_stress rmu0 (with_d_vv a d1)
  = zeta a * rmu0 * ri_vv a * (j_vvi rmu0 (with_d_vv a d1)) ^ 2 / 2
    * (d2 - d1).
Proof.
  intros Hd1 Hd2 Ht HL Hri. unfold tresca_stress, b_vvi.
  rewrite (j_vvi_thickness a d1 Hd1 Ht HL Hri).
  rewrite (j_vvi_thickness a d2 Hd2 Ht HL Hri).
  rewrite (i2_thickness a d1 Hd1 Ht HL), (i2_thickness a d2 Hd2 Ht HL).
  change (zeta (with_d_vv a d1)) with (zeta a).
  change (zeta (with_d_vv a d2)) with (zeta a).
  change (ri_vv (with_d_vv a d1)) with (ri_vv a).
  change (ri_vv (with_d_vv a d2)) with (ri_vv a).
  change (n_tf_coils (with_d_vv a d1)) with (n_tf_coils a).
  change (n_tf_coils (with_d_vv a d2)) with (n_tf_coils a).
  change (n_tf_coil_turns (with_d_vv a d1)) with (n_tf_coil_turns a).
  change (n_tf_coil_turns (with_d_vv a d2)) with (n_tf_coil_turns a).
  change (i0 rmu0 (with_d_vv a d1)) with (i0 rmu0 a).
  change (i0 rmu0 (with_d_vv a d2)) with (i0 rmu0 a).
  change (i1 rmu0 (with_d_vv a d1)) with (i1 rmu0 a).
  change (i1 rmu0 (with_d_vv a d2)) with (i1 rmu0 a).
  pose proof PI_RGT_0 as Hpi.
  field. repeat split; try assumption; lra.
Qed.

(** [zeta] exceeds 1 for a vessel with [0 < ri_vv < ro_vv]. *)
Lemma zeta_gt_1 (a : args) : 0 < ri_vv a < ro_vv a -> 1 < zeta a.
Proof.
  intros [Hri Hro]. unfold zeta.
  assert (Ha : 1 < a_vv a).
  { unfold a_vv. apply Rmult_lt_reg_r with (ro_vv a - ri_vv a); [lra |].
    unfold Rdiv. rewrite Rmult_assoc, Rinv_l by lra. lra. }
  assert (Hq : 1 < (a_vv a + 1) / (a_vv a - 1)).
  { apply Rmult_lt_reg_r with (a_vv a - 1); [lra |].
    unfold Rdiv. rewrite Rmult_assoc, Rinv_l by lra. lra. }
  assert (Hln : 0 < ln ((a_vv a + 1) / (a_vv a - 1))).
  { rewrite <- ln_1. apply ln_increasing; lra. }
  assert (Hpos : 0 < (a_vv a - 1) * ln ((a_vv a + 1) / (a_vv a - 1))
                     / (2 * a_vv a)).
  { apply Rdiv_lt_0_compat; [| lra].
    apply Rmult_lt_0_compat; lra. }
  lra.
Qed.

(** With positive and distinct decay constants the time of peak force is
    positive. *)
Lemma tmaxforce_pos (a : args) :
  0 < lambda0 a -> 0 < lambda1 rmu0 a -> lambda1 rmu0 a <> lambda0 a ->
  0 < tmaxforce rmu0 a.
Proof.
  intros H0 H1 Hne. unfold tmaxforce.
  set (l0 := lambda0 a) in *. set (l1 := lambda1 rmu0 a) in *.
  assert (Hq : 0 < (l0 + l1) / (2 * l0)) by (apply Rdiv_lt_0_compat; lra).
  destruct (Rlt_dec l0 l1) as [Hlt | Hge].
  - apply Rdiv_lt_0_compat; [| lra].
    rewrite <- ln_1. apply ln_increasing; [lra |].
    apply Rmult_lt_reg_r with (2 * l0); [lra |].
    unfold Rdiv. rewrite Rmult_assoc, Rinv_l by lra. lra.
  - assert (Hlt : l1 < l0) by lra.
    assert (Hln : ln ((l0 + l1) / (2 * l0)) < 0).
    { rewrite <- ln_1. apply ln_increasing; [exact Hq |].
      apply Rmult_lt_reg_r with (2 * l0); [lra |].
      unfold Rdiv. rewrite Rmult_assoc, Rinv_l by lra. lra. }
    replace (ln ((l0 + l1) / (2 * l0)) / (l1 - l0))
      with ((- ln ((l0 + l1) / (2 * l0))) / (l0 - l1)) by (field; lra).
    apply Rdiv_lt_0_compat; lra.
Qed.

(** ... and the current induced in the coil structure is positive. *)
Lemma i1_pos (a : args) :
  0 < lambda0 a -> 0 < lambda1 rmu0 a -> lambda1 rmu0 a <> lambda0 a ->
  0 < n_tf_coils a -> 0 < n_tf_coil_turns a -> 0 < i_op a ->
  0 < i1 rmu0 a.
Proof.
  intros H0 H1 Hne HN Hn Hi. unfold i1.
  pose proof (tmaxforce_pos a H0 H1 Hne) as Ht.
  set (l0 := lambda0 a) in *. set (l1 := lambda1 rmu0 a) in *.
  set (t := tmaxforce rmu0 a) in *.
  apply Rmult_lt_0_compat.
  { apply Rmult_lt_0_compat;
      [apply Rmult_lt_0_compat; [apply Rmult_lt_0_compat |] |]; assumption. }
  destruct (Rlt_dec l0 l1) as [Hlt | Hge].
  - assert (He : exp (- l1 * t) < exp (- l0 * t))
      by (apply exp_increasing; nra).
    replace ((exp (- l1 * t) - exp (- l0 * t)) / (l0 - l1))
      with ((exp (- l0 * t) - exp (- l1 * t)) / (l1 - l0)) by (field; lra).
    apply Rdiv_lt_0_compat; lra.
  - assert (Hlt : l1 < l0) by lra.
    assert (He : exp (- l0 * t) < exp (- l1 * t))
      by (apply exp_increasing; nra).
    apply Rdiv_lt_0_compat; lra.
Qed.

(** *** The vessel resistance factor *)

Lemma fold_abs_nonneg (g : nat -> R) (l : list nat) (acc : R) :
  acc <= fold_left (fun chi2 k => chi2 + Rabs (g k)) l acc.
Proof.
  revert acc. induction l as [| k l IH]; intros acc; simpl.
  - lra.
  - pose proof (Rabs_pos (g k)). pose proof (IH (acc + Rabs (g k))). lra.
Qed.

(** Between 0 and 90 degrees the sum of cosine and sine exceeds 1. *)
Lemma cos_plus_sin_gt_1 (x : R) : 0 < x < PI / 2 -> 1 < cos x + sin x.
Proof.
  intros [H0 H1]. pose proof PI_RGT_0 as Hpi.
  assert (Hs : 0 < sin x) by (apply sin_gt_0; lra).
  assert (Hc : 0 < cos x) by (apply cos_gt_0; lra).
  pose proof (sin2_cos2 x) as Hsq. unfold Rsqr in Hsq. nra.
Qed.

(** The height of the third arc centre, in closed form. *)
Lemma zc3_closed_form (ro ri rm h c sn : R) :
  ro - ri <> 0 -> h <> 0 -> c + sn - 1.0 <> 0 ->
  let a := (ro - ri) / 2.0 in
  let rbar := (ro + ri) / 2.0 in
  let delta := (rbar - rm) / a in
  let kappa := h / a in
  let iota := (1.0 + delta) / kappa in
  let denom := c + sn - 1.0 in
  let r1 := h * ((c + iota * (sn - 1.0)) / denom) in
  let r2 := h * ((c - 1.0 + iota * sn) / denom) in
  let r3 := h * (1 - delta) / kappa in
  (r1 - r2) * sn + r2 - r3 = h + ri - rm.
Proof.
  intros Ha Hh Hd. cbv zeta.
  replace 1.0 with 1 in * by lra. replace 2.0 with 2 by lra.
  field. repeat split; try assumption; lra.
Qed.

(** The theta factor is positive for a vessel whose arcs join between 0
    and 90 degrees and whose highest point lies inboard of
    [ri_vv + H_vv]. *)
Lemma theta_vv_pos (a : args) :
  0 < ri_vv a < ro_vv a -> 0 < H_vv a -> 0 < theta1_vv a < 90 ->
  rm_vv a < H_vv a + ri_vv a ->
  0 < theta_vv a.
Proof.
  intros [Hri Hro] Hh [Ht0 Ht1] Hrm.
  pose proof PI_RGT_0 as Hpi.
  unfold theta_vv, theta1_vv_rad.
  set (th := PI * (theta1_vv a / 180.0)).
  assert (Hth : 0 < th < PI / 2).
  { unfold th. split.
    - apply Rmult_lt_0_compat; lra.
    - replace (PI / 2) with (PI * (90 / 180.0)) by lra.
      apply Rmult_lt_compat_l; lra. }
  pose proof (cos_plus_sin_gt_1 th Hth) as Hcs.
  unfold _theta_factor_integral. cbv zeta.
  rewrite (zc3_closed_form (ro_vv a) (ri_vv a) (rm_vv a) (H_vv a)
             (cos th) (sin th)) by lra.
  match goal with
  | |- 0 < (?chi1 + 2.0 * fold_left (fun c k => c + Rabs (@?g k)) ?l ?z) / _ =>
      assert (H1 : 0 < chi1);
      [| pose proof (fold_abs_nonneg g l z) as H2; cbv beta in H2 ]
  end.
  - rewrite Rabs_Ropp, Rabs_pos_eq by lra.
    apply Rdiv_lt_0_compat; lra.
  - apply Rdiv_lt_0_compat; lra.
Qed.

(** A thicker shell gives a strictly larger stress. *)
Lemma tresca_thickness_lt (a : args) (d1 d2 : R) :
  0 < rmu0 ->
  0 < ri_vv a < ro_vv a ->
  0 < theta_vv a ->
  0 < vv_self_inductance rmu0 a ->
  0 < taud a ->
  0 < lambda1 rmu0 a ->
  lambda1 rmu0 a <> lambda0 a ->
  0 < n_tf_coils a -> 0 < n_tf_coil_turns a -> 0 < i_op a ->
  0 < d1 < d2 ->
  j_vvi rmu0 (with_d_vv a d2) = j_vvi rmu0 (with_d_vv a d1)
  /\ exists s1 s2,
       vv_stress_on_quench rmu0 (with_d_vv a d1) = Returns s1
       /\ vv_stress_on_quench rmu0 (with_d_vv a d2) = Returns s2
       /\ s1 < s2.
Proof.
  intros Hmu Hr Hth HL Htaud Hl1 Hne HN Hn Hi [Hd1 Hd12].
  pose proof PI_RGT_0 as Hpi.
  assert (Hl0 : 0 < lambda0 a).
  { unfold lambda0. apply Rdiv_lt_0_compat; lra. }
  pose proof (i1_pos a Hl0 Hl1 Hne HN Hn Hi) as Hi1.
  pose proof (zeta_gt_1 a Hr) as Hz.
  assert (Hj : 0 < j_vvi rmu0 (with_d_vv a d1)).
  { rewrite j_vvi_thickness by lra.
    apply Rdiv_lt_0_compat; [| nra].
    apply Rdiv_lt_0_compat; [| nra].
    apply Rmult_lt_0_compat; [apply Rmult_lt_0_compat |]; assumption. }
  split.
  - rewrite !j_vvi_thickness by lra. reflexivity.
  - exists (tresca_stress rmu0 (with_d_vv a d1)),
           (tresca_stress rmu0 (with_d_vv a d2)).
    split; [reflexivity |]. split; [reflexivity |].
    pose proof (tresca_thickness a d1 d2) as Hdiff.
    assert (Hslope :
      0 < zeta a * rmu0 * ri_vv a * j_vvi rmu0 (with_d_vv a d1) ^ 2 / 2
          * (d2 - d1)).
    { apply Rmult_lt_0_compat; [| lra].
      apply Rdiv_lt_0_compat; [| lra].
      apply Rmult_lt_0_compat;
        [apply Rmult_lt_0_compat; [apply Rmult_lt_0_compat |] |]; try lra.
      apply pow_lt. exact Hj. }
    rewrite <- Hdiff in Hslope by lra. lra.
Qed.

(** C5 (as the code has it).  With positive radii, resistances,
    inductances and currents and distinct decay constants, the vessel
    current density does not depend on the shell thickness and the
    returned stress grows with it: a thicker shell gives a strictly
    larger Tresca stress. *)
Theorem tresca_increases_with_thickness (a : args) (d1 d2 : R) :
  0 < rmu0 ->
  0 < ri_vv a < ro_vv a ->
  0 < theta_vv a ->
  0 < vv_self_inductance rmu0 a ->
  0 < taud a ->
  0 < lambda1 rmu0 a ->
  lambda1 rmu0 a <> lambda0 a ->
  0 < n_tf_coils a -> 0 < n_tf_coil_turns a -> 0 < i_op a ->
  0 < d1 < d2 ->
  j_vvi rmu0 (with_d_vv a d2) = j_vvi rmu0 (with_d_vv a d1)
  /\ exists s1 s2,
       vv_stress_on_quench rmu0 (with_d_vv a d1) = Returns s1
       /\ vv_stress_on_quench rmu0 (with_d_vv a d2) = Returns s2
       /\ s1 < s2.
Proof. apply tresca_thickness_lt. Qed.

(** C1 (as the code has it).  The time of peak force is the quotient
    [ln((lambda0 + lambda1) / (2 lambda0)) / (lambda1 - lambda0)], formed
    without a test on its divisor.  When the two decay constants
    coincide, dividend and divisor are both zero, and the function still
    reaches its [return]: nothing is raised. *)
Theorem tmaxforce_unguarded (a : args) :
  0 < taud a ->
  lambda1 rmu0 a = lambda0 a ->
  tmaxforce rmu0 a
  = ln ((lambda0 a + lambda1 rmu0 a) / (2 * lambda0 a))
    / (lambda1 rmu0 a - lambda0 a)
  /\ ln ((lambda0 a + lambda1 rmu0 a) / (2 * lambda0 a)) = 0
  /\ lambda1 rmu0 a - lambda0 a = 0
  /\ vv_stress_on_quench rmu0 a = Returns (tresca_stress rmu0 a)
  /\ forall e, vv_stress_on_quench rmu0 a <> Raises e.
Proof.
  intros Htaud Heq.
  assert (Hl0 : 0 < lambda0 a).
  { unfold lambda0. apply Rdiv_lt_0_compat; lra. }
  split; [reflexivity |]. split; [| split; [| split]].
  - rewrite Heq.
    replace ((lambda0 a + lambda0 a) / (2 * lambda0 a)) with 1
      by (field; lra).
    apply ln_1.
  - lra.
  - reflexivity.
  - intros e H. discriminate H.
Qed.

End Facts.

End QuenchFacts.

(** ** The sample quench geometry *)

Module QuenchSampleFacts.
Import Quench QuenchSample.

Lemma inductance_factor_sample : _inductance_factor 2 1 3 2 45 = 0.92567.
Proof.
  unfold _inductance_factor. cbv zeta.
  replace ((3 + 1) / 2) with 2 by lra.
  replace ((3 - 1) / 2) with 1 by lra.
  lra.
Qed.

Lemma rmu0_pos : 0 < rmu0.
Proof. unfold rmu0. lra. Qed.

Lemma inductance_sample :
  coil_structure_self_inductance rmu0 geometry = rmu0 / PI * 2 * 0.92567
  /\ vv_self_inductance rmu0 geometry = rmu0 / PI * 2 * 0.92567
  /\ 0 < rmu0 / PI * 2 * 0.92567.
Proof.
  unfold coil_structure_self_inductance, vv_self_inductance. simpl.
  rewrite inductance_factor_sample.
  split; [reflexivity |]. split; [reflexivity |].
  pose proof PI_RGT_0. pose proof rmu0_pos.
  apply Rmult_lt_0_compat; [| lra].
  apply Rmult_lt_0_compat; [| lra].
  apply Rdiv_lt_0_compat; lra.
Qed.

Lemma plr_coil_sample : plr_coil geometry = 3.125e-7.
Proof. unfold plr_coil. simpl. lra. Qed.

Lemma theta_vv_sample : 0 < theta_vv geometry.
Proof. apply QuenchFacts.theta_vv_pos; simpl; lra. Qed.

Lemma Rlt_div_pos (a b c : R) : 0 < c -> a * c < b -> a < b / c.
Proof.
  intros Hc H. apply Rmult_lt_reg_r with c; [exact Hc |].
  unfold Rdiv. rewrite Rmult_assoc, Rinv_l by lra. lra.
Qed.

(** The structure decays faster than the coil current is dumped. *)
Lemma lambda_sample :
  lambda0 geometry < lambda1 rmu0 geometry.
Proof.
  unfold lambda0, lambda1.
  destruct inductance_sample as (EL & _ & HL).
  rewrite EL, plr_coil_sample.
  change (taud geometry) with 10.
  pose proof PI2_3_2 as Hpi.
  apply Rlt_div_pos; [exact HL |].
  assert (Hb : rmu0 / PI * 2 * 0.92567 < rmu0).
  { apply Rmult_lt_reg_r with PI; [lra |].
    replace (rmu0 / PI * 2 * 0.92567 * PI) with (rmu0 * 2 * 0.92567)
      by (field; lra).
    unfold rmu0. nra. }
  unfold rmu0 in *. lra.
Qed.

Lemma lambda1_sample_pos : 0 < lambda1 rmu0 geometry.
Proof.
  pose proof lambda_sample as H.
  assert (H0 : 0 < lambda0 geometry).
  { unfold lambda0. change (taud geometry) with 10. lra. }
  lra.
Qed.

(** On the sample geometry, doubling the shell from 0.1 m to 0.2 m. *)
Lemma tresca_increases_with_thickness_witness :
  exists s1 s2,
    vv_stress_on_quench rmu0 (with_d_vv geometry 0.1) = Returns s1
    /\ vv_stress_on_quench rmu0 (with_d_vv geometry 0.2) = Returns s2
    /\ s1 < s2.
Proof.
  destruct inductance_sample as (_ & EL & HL).
  pose proof lambda_sample as Hl. pose proof lambda1_sample_pos as Hl1.
  apply (QuenchFacts.tresca_increases_with_thickness rmu0 geometry 0.1 0.2).
  - exact rmu0_pos.
  - simpl. lra.
  - exact theta_vv_sample.
  - rewrite EL. exact HL.
  - simpl. lra.
  - exact Hl1.
  - lra.
  - simpl. lra.
  - simpl. lra.
  - simpl. lra.
  - lra.
Defined.

(** C5 (counterexample).  On the sample geometry the stress returned for
    a shell of 0.2 m is not below the stress returned for 0.1 m; it is
    above it. *)
Lemma thicker_shell_larger_stress :
  exists s1 s2,
    vv_stress_on_quench rmu0 (with_d_vv geometry 0.1) = Returns s1
    /\ vv_stress_on_quench rmu0 (with_d_vv geometry 0.2) = Returns s2
    /\ 0.1 < 0.2 /\ ~ s2 < s1 /\ s1 < s2.
Proof.
  destruct inductance_sample as (_ & EL & HL).
  pose proof lambda_sample as Hl. pose proof lambda1_sample_pos as Hl1.
  assert (HLv : 0 < vv_self_inductance rmu0 geometry)
    by (rewrite EL; exact HL).
  assert (Hr : 0 < ri_vv geometry < ro_vv geometry) by (simpl; lra).
  assert (Ht : 0 < taud geometry) by (simpl; lra).
  assert (Hne : lambda1 rmu0 geometry <> lambda0 geometry) by lra.
  assert (HN : 0 < n_tf_coils geometry) by (simpl; lra).
  assert (Hn : 0 < n_tf_coil_turns geometry) by (simpl; lra).
  assert (Hi : 0 < i_op geometry) by (simpl; lra).
  assert (Hd : 0 < 0.1 < 0.2) by lra.
  destruct (QuenchFacts.tresca_thickness_lt rmu0 geometry 0.1 0.2
              rmu0_pos Hr theta_vv_sample HLv Ht Hl1 Hne HN Hn Hi Hd)
    as (_ & s1 & s2 & H1 & H2 & Hlt).
  exists s1, s2.
  split; [exact H1 |]. split; [exact H2 |]. split; [lra |].
  split; [| exact Hlt].
  intros Hgt. lra.
Qed.

Lemma singular_coincide : lambda1 rmu0 singular = lambda0 singular.
Proof.
  destruct inductance_sample as (EL & _ & HL).
  unfold lambda0, lambda1.
  change (plr_coil singular) with (plr_coil geometry).
  change (coil_structure_self_inductance rmu0 singular)
    with (coil_structure_self_inductance rmu0 geometry).
  change (taud singular)
    with (coil_structure_self_inductance rmu0 geometry / plr_coil geometry).
  rewrite EL, plr_coil_sample.
  pose proof PI_RGT_0 as Hpi. pose proof rmu0_pos as Hmu.
  field. repeat split; lra.
Qed.

Lemma singular_taud_pos : 0 < taud singular.
Proof.
  destruct inductance_sample as (EL & _ & HL).
  change (taud singular)
    with (coil_structure_self_inductance rmu0 geometry / plr_coil geometry).
  rewrite EL, plr_coil_sample. apply Rdiv_lt_0_compat; lra.
Qed.

Lemma tmaxforce_unguarded_witness :
  ln ((lambda0 singular + lambda1 rmu0 singular) / (2 * lambda0 singular)) = 0
  /\ lambda1 rmu0 singular - lambda0 singular = 0
  /\ vv_stress_on_quench rmu0 singular
     = Returns (tresca_stress rmu0 singular).
Proof.
  destruct (QuenchFacts.tmaxforce_unguarded rmu0 singular
              singular_taud_pos singular_coincide)
    as (_ & Hnum & Hden & Hret & _).
  split; [exact Hnum |]. split; [exact Hden |]. exact Hret.
Defined.

(** C1 (counterexample).  At the dump time [taud = L1 / R1] the two
    decay constants of the sample geometry coincide, and
    [vv_stress_on_quench] returns a value: no error is raised. *)
Lemma singular_quench_returns :
  lambda1 rmu0 singular = lambda0 singular
  /\ (exists v, vv_stress_on_quench rmu0 singular = Returns v)
  /\ ~ raised (vv_stress_on_quench rmu0 singular).
Proof.
  split; [exact singular_coincide |]. split.
  - eexists. reflexivity.
  - simpl. intros H. exact H.
Qed.

End QuenchSampleFacts.

(** ** The coil geometry routines *)

Module GeomFacts.
Import Geom.
Local Open Scope geom_scope.

Lemma Rleb_spec (x y : R) : Rleb x y = true <-> x <= y.
Proof.
  unfold Rleb. destruct (Rle_dec x y); split; intros H;
    try reflexivity; try assumption; try discriminate; contradiction.
Qed.

Lemma Rleb_spec_false (x y : R) : Rleb x y = false <-> y < x.
Proof.
  unfold Rleb. destruct (Rle_dec x y); split; intros H;
    try reflexivity; try discriminate; lra.
Qed.

Lemma Rltb_spec (x y : R) : Rltb x y = true <-> x < y.
Proof.
  unfold Rltb. destruct (Rlt_dec x y); split; intros H;
    try reflexivity; try assumption; try discriminate; contradiction.
Qed.

Lemma Rltb_spec_false (x y : R) : Rltb x y = false <-> y <= x.
Proof.
  unfold Rltb. destruct (Rlt_dec x y); split; intros H;
    try reflexivity; try discriminate; lra.
Qed.

Lemma Rgtb_spec (x y : R) : Rgtb x y = true <-> y < x.
Proof.
  unfold Rgtb. destruct (Rlt_dec y x); split; intros H;
    try reflexivity; try assumption; try discriminate; contradiction.
Qed.

Lemma Rgtb_spec_false (x y : R) : Rgtb x y = false <-> x <= y.
Proof.
  unfold Rgtb. destruct (Rlt_dec y x); split; intros H;
    try reflexivity; try discriminate; lra.
Qed.

(** Boolean tests in the context, read as the comparisons they decide. *)
Ltac bools :=
  repeat match goal with
         | H : (_ || _)%bool = true |- _ =>
             apply orb_true_iff in H; destruct H
         | H : (_ || _)%bool = false |- _ =>
             apply orb_false_iff in H; destruct H
         | H : Rleb _ _ = true |- _ => apply Rleb_spec in H
         | H : Rleb _ _ = false |- _ => apply Rleb_spec_false in H
         | H : Rltb _ _ = true |- _ => apply Rltb_spec in H
         | H : Rltb _ _ = false |- _ => apply Rltb_spec_false in H
         | H : Rgtb _ _ = true |- _ => apply Rgtb_spec in H
         | H : Rgtb _ _ = false |- _ => apply Rgtb_spec_false in H
         end.

(** Running a routine on a store: assignments and reads are computed,
    the arithmetic is left as it stands. *)
Ltac indices :=
  repeat match goal with
         | |- context [Z.eqb ?a ?b] =>
             let r := eval cbv in (Z.eqb a b) in
             lazymatch r with true => idtac | false => idtac end;
             change (Z.eqb a b) with r
         end.

Ltac run :=
  lazy beta iota zeta delta
    [wr set_fdiag report_error num int fdiags reported
     t_turn_tf_is_input t_cable_tf_is_input quench_model
     var_beq fst snd];
  indices; lazy beta iota delta [negb].

Ltac run_in H :=
  lazy beta iota zeta delta
    [wr set_fdiag report_error num int fdiags reported
     t_turn_tf_is_input t_cable_tf_is_input quench_model
     var_beq fst snd] in H.

Ltac exec h :=
  lazy beta iota zeta delta
    [h wr set_fdiag report_error num int fdiags reported
     t_turn_tf_is_input t_cable_tf_is_input quench_model
     var_beq fst snd];
  indices; lazy beta iota delta [negb].

(** The tests that the run could not decide, innermost first. *)
Ltac split_ifs :=
  repeat (match goal with
          | |- context [if ?c then _ else _] =>
              lazymatch type of c with bool => idtac end;
              lazymatch c with
              | context [if _ then _ else _] => fail
              | _ => let H := fresh "C" in destruct c eqn:H
              end
          end; run).

(** X1.  In each of the three shapes the winding pack is accounted for as a
    rectangle of radial thickness [dr_tf_wp] and toroidal thickness
    [t_wp_toroidal_av]: that is its gross area, and the ground insulation
    is the frame of thickness [tinstf] between the insertion gap and the
    turns. *)
Theorem tf_wp_geom_rectangle (i_tf_wp_geom : Z) (s : gstate) (e : errors) :
  let s' := fst (tf_wp_geom i_tf_wp_geom s e) in
  let inner_r := s'.[dr_tf_wp] - 2 * s'.[tfinsgap] in
  let inner_t := s'.[t_wp_toroidal_av] - 2 * s'.[tfinsgap] in
  s'.[awpc] = s'.[dr_tf_wp] * s'.[t_wp_toroidal_av]
  /\ s'.[awptf]
     = (inner_r - 2 * s'.[tinstf]) * (inner_t - 2 * s'.[tinstf])
  /\ s'.[awptf] + s'.[a_ground_ins] = inner_r * inner_t
  /\ s'.[r_wp_outer] - s'.[r_wp_centre] = s'.[dr_tf_wp] / 2
  /\ s'.[r_wp_centre] - s'.[r_wp_inner] = s'.[dr_tf_wp] / 2.
Proof.
  destruct s as [n i b1 b2 q]. destruct e as [f rp].
  exec tf_wp_geom.
  split_ifs.
  all: repeat split; lra.
Qed.

(** X2.  A non-positive winding pack area is reported as error 99 with the
    two areas in [fdiags[0]] and [fdiags[1]], and otherwise nothing is
    reported; either way the routine completes and the geometry it wrote
    stands. *)
Theorem tf_wp_geom_reports (i_tf_wp_geom : Z) (s : gstate) (e : errors) :
  let '(s', e') := tf_wp_geom i_tf_wp_geom s e in
  ((s'.[awptf] <= 0 \/ s'.[awpc] <= 0)
   /\ reported e' = reported e ++ [99%Z]
   /\ fdiags e' 0%Z = s'.[awptf] /\ fdiags e' 1%Z = s'.[awpc])
  \/ (0 < s'.[awptf] /\ 0 < s'.[awpc] /\ e' = e).
Proof.
  destruct s as [n i b1 b2 q]. destruct e as [f rp].
  exec tf_wp_geom.
  all: split_ifs.
  all: bools.
  all: first
      [ left; repeat split; try reflexivity; try lra;
        first [left; lra | right; lra]
      | right; repeat split; try reflexivity; lra ].
Qed.

(** X3.  The case areas are what is left of the coil cross-sections once the
    winding pack is taken out; a non-positive inboard or outboard case
    area is reported as error 99 and the routine goes on to set the
    lateral thickness: [dx_tf_side_case] plus one half, one quarter or
    none of [tan_theta_coil * dr_tf_wp] for the three pack shapes. *)
Theorem tf_case_geom_areas (i_tf_wp_geom i_tf_case_geom : Z) (s : gstate)
    (e : errors) :
  let '(s', e') := tf_case_geom i_tf_wp_geom i_tf_case_geom s e in
  s'.[acasetf] + s'.[awpc] = s'.[a_tf_coil_inboard] / s'.[n_tf_coils]
  /\ s'.[acasetfo] + s'.[awpc] = s'.[a_tf_leg_outboard]
  /\ (((s'.[acasetf] <= 0 \/ s'.[acasetfo] <= 0)
       /\ reported e' = reported e ++ [99%Z]
       /\ fdiags e' 0%Z = s'.[acasetf] /\ fdiags e' 1%Z = s'.[acasetfo])
      \/ (0 < s'.[acasetf] /\ 0 < s'.[acasetfo] /\ e' = e))
  /\ s'.[t_lat_case_av]
     = s.[dx_tf_side_case]
       + (if (i_tf_wp_geom =? 0)%Z then 0.5
          else if (i_tf_wp_geom =? 1)%Z then 0.25 else 0)
         * s.[tan_theta_coil] * s.[dr_tf_wp].
Proof.
  destruct s as [n i b1 b2 q]. destruct e as [f rp].
  exec tf_case_geom; split_ifs; bools; (repeat split; try lra);
    first
      [ left; repeat split; try reflexivity; try lra;
        first [left; lra | right; lra]
      | right; repeat split; try reflexivity; lra ].
Qed.

(** X4.  The turn with an integer number of layers and pancakes: whatever
    branch is taken, the cable space, the steel jacket and the turn
    insulation returned add up to the turn [dr_tf_turn * dx_tf_turn],
    cable space and jacket add up to the conductor, the cable space is
    the rectangle less the four rounded corners of the stored radius
    [rbcndut]; the number of turns is the [int32] product of [n_layer]
    and [n_pancake], and the current per turn is [c_tf_coil] divided by
    it. *)
Theorem tf_integer_turn_geom_areas (n_layer n_pancake : Z)
    (dx_tf_turn_steel dx_tf_turn_insulation : R) (s : gstate) (e : errors) :
  let r := tf_integer_turn_geom n_layer n_pancake dx_tf_turn_steel
             dx_tf_turn_insulation s e in
  let '(cable, steel, insulation, current, turns) := fst r in
  let s' := fst (snd r) in
  cable + steel + insulation = s'.[dr_tf_turn] * s'.[dx_tf_turn]
  /\ cable + steel = s'.[t_conductor_radial] * s'.[t_conductor_toroidal]
  /\ cable
     = s'.[dr_tf_turn_cable_space] * s'.[dx_tf_turn_cable_space]
       - (4 - PI) * s'.[rbcndut] ^ 2
  /\ s'.[dr_tf_turn_cable_space]
     = s'.[dr_tf_turn] - 2 * dx_tf_turn_insulation - 2 * dx_tf_turn_steel
  /\ s'.[dx_tf_turn_cable_space]
     = s'.[dx_tf_turn] - 2 * dx_tf_turn_insulation - 2 * dx_tf_turn_steel
  /\ turns = IZR (int32_mul n_layer n_pancake)
  /\ current = s.[c_tf_coil] / turns.
Proof.
  destruct s as [n i b1 b2 q]. destruct e as [f rp].
  exec tf_integer_turn_geom; split_ifs; repeat split; lra.
Qed.

(** X5.  The reports of the integer turn.  Error 100 is reported once for
    each of the two turn dimensions that does not exceed twice the
    insulation and the steel.  Then, when the cable space less its
    rounded corners is positive it is returned and nothing more is
    reported.  When it is not, and one side of the cable space is
    negative, error 101 is reported and the non-positive area is returned
    as it is; when both sides are non-negative, error 102 is reported,
    the corner radius is set to zero and the plain rectangle, which is
    non-negative, is returned.  Under error 102 [fdiags[1]] is written
    twice and ends as the toroidal side; [fdiags[2]] is not written, so
    it holds [dx_tf_turn_steel] if an error 100 was reported and its
    former value otherwise. *)
Theorem tf_integer_turn_geom_reports (n_layer n_pancake : Z)
    (dx_tf_turn_steel dx_tf_turn_insulation : R) (s : gstate) (e : errors) :
  let r := tf_integer_turn_geom n_layer n_pancake dx_tf_turn_steel
             dx_tf_turn_insulation s e in
  let cable := fst (fst (fst (fst (fst r)))) in
  let s' := fst (snd r) in
  let e' := snd (snd r) in
  let limit := 2 * dx_tf_turn_insulation + 2 * dx_tf_turn_steel in
  let dr_c := s'.[dr_tf_turn_cable_space] in
  let dx_c := s'.[dx_tf_turn_cable_space] in
  let nominal := dr_c * dx_c - (4 - PI) * (dx_tf_turn_steel * 0.75) ^ 2 in
  exists radial toroidal space : list Z,
    ((s'.[dr_tf_turn] <= limit /\ radial = [100%Z])
     \/ (limit < s'.[dr_tf_turn] /\ radial = []))
    /\ ((s'.[dx_tf_turn] <= limit /\ toroidal = [100%Z])
        \/ (limit < s'.[dx_tf_turn] /\ toroidal = []))
    /\ ((0 < nominal /\ space = [] /\ cable = nominal
         /\ s'.[rbcndut] = dx_tf_turn_steel * 0.75)
        \/ (nominal <= 0 /\ (dr_c < 0 \/ dx_c < 0) /\ space = [101%Z]
            /\ cable = nominal
            /\ s'.[rbcndut] = dx_tf_turn_steel * 0.75
            /\ fdiags e' 0%Z = nominal /\ fdiags e' 1%Z = dr_c
            /\ fdiags e' 2%Z = dx_c)
        \/ (nominal <= 0 /\ 0 <= dr_c /\ 0 <= dx_c /\ space = [102%Z]
            /\ cable = dr_c * dx_c /\ 0 <= cable
            /\ s'.[rbcndut] = 0
            /\ fdiags e' 0%Z = nominal /\ fdiags e' 1%Z = dx_c
            /\ fdiags e' 2%Z
               = match radial ++ toroidal with
                 | [] => fdiags e 2%Z
                 | _ :: _ => dx_tf_turn_steel
                 end))
    /\ reported e' = reported e ++ radial ++ toroidal ++ space.
Proof.
  destruct s as [n i b1 b2 q]. destruct e as [f rp].
  exec tf_integer_turn_geom; split_ifs; bools;
    try (exfalso; lra);
    do 3 eexists;
    (split; [first [left; split; [lra | reflexivity]
                   | right; split; [lra | reflexivity]] |]);
    (split; [first [left; split; [lra | reflexivity]
                   | right; split; [lra | reflexivity]] |]);
    (split;
     [ first
         [ left; repeat split; try reflexivity; lra
         | right; left; split; [lra |];
           split; [first [left; lra | right; lra] |];
           repeat split; try reflexivity; lra
         | right; right; repeat split; try reflexivity; try lra; nra ]
     | cbn [app]; rewrite <- ?app_assoc, ?app_nil_r; reflexivity ]).
Qed.

Lemma div_mul_cancel (a b : R) : b <> 0 -> a / b * b = a.
Proof. intros Hb. unfold Rdiv. rewrite Rmult_assoc, Rinv_l by exact Hb. lra. Qed.

(** The conductor side solves [(t + 2 ins) * (t + 2 ins + layer) = a]. *)
Lemma conductor_root (layer a ins : R) :
  0 <= a ->
  ((- layer + sqrt (layer ^ 2 + 4.0 * a)) / 2 - 2.0 * ins + 2 * ins)
  * ((- layer + sqrt (layer ^ 2 + 4.0 * a)) / 2 - 2.0 * ins + 2 * ins
     + layer)
  = a.
Proof.
  intros Ha.
  assert (Hd : 0 <= layer ^ 2 + 4.0 * a) by nra.
  pose proof (sqrt_sqrt _ Hd) as Hs.
  set (S := sqrt (layer ^ 2 + 4.0 * a)) in *. nra.
Qed.

Lemma sqrt_pos_arg (x : R) : 0 < sqrt x -> 0 < x.
Proof.
  intros H. destruct (Rle_or_lt x 0) as [Hx | Hx]; [| exact Hx].
  rewrite (sqrt_neg_0 x Hx) in H. lra.
Qed.

(** The averaged turn is a square of side [t_turn_tf] with current
    [c_tf_turn], whichever of the three is the input. *)
Lemma averaged_square (j_tf_wp dx_tf_turn_steel dx_tf_turn_insulation : R)
    (i_tf_sc_mat : Z) (s : gstate) (e : errors) :
  j_tf_wp <> 0 ->
  0 < (fst (snd (tf_averaged_turn_geom j_tf_wp dx_tf_turn_steel
                   dx_tf_turn_insulation i_tf_sc_mat s e))).[t_turn_tf] ->
  let r := tf_averaged_turn_geom j_tf_wp dx_tf_turn_steel
             dx_tf_turn_insulation i_tf_sc_mat s e in
  let '(cable, steel, insulation, turns) := fst r in
  let s' := fst (snd r) in
  s'.[dr_tf_turn] = s'.[t_turn_tf] /\ s'.[dx_tf_turn] = s'.[t_turn_tf]
  /\ s'.[c_tf_turn] = s'.[t_turn_tf] ^ 2 * j_tf_wp
  /\ turns * s'.[t_turn_tf] ^ 2 = s.[awptf]
  /\ s'.[awptf] = s.[awptf]
  /\ cable + steel + insulation = s'.[t_turn_tf] ^ 2
  /\ (s'.[t_conductor] + 2 * dx_tf_turn_insulation)
     * (s'.[t_conductor] + 2 * dx_tf_turn_insulation + s.[layer_ins])
     = s'.[t_turn_tf] ^ 2
  /\ s'.[Geom.j_tf_wp] = s.[Geom.j_tf_wp].
Proof.
  destruct s as [n i b1 b2 q]. destruct e as [f rp].
  intros Hj. destruct b1; [| destruct b2].
  all: exec tf_averaged_turn_geom; split_ifs; intros Ht.
  all: try (pose proof (sqrt_pos_arg _ Ht) as Ha;
            rewrite !(pow2_sqrt (n c_tf_turn / j_tf_wp)) by lra).
  all: repeat split; try reflexivity; try lra.
  all: try (apply conductor_root; nra).
  all: try (apply div_mul_cancel; nra).
  all: try (symmetry; apply div_mul_cancel; exact Hj).
Qed.

(** X6.  The turn set from a turn dimension, a cable dimension or a current
    per turn: for a non-zero current density and a positive turn side
    [t_turn_tf], the turn is the square of that side, it carries
    [t_turn_tf ^ 2 * j_tf_wp], the number of turns times the turn area is
    the winding pack area, cable space, jacket and turn insulation add up
    to the turn, and the conductor side [t] solves
    [(t + 2 ins) * (t + 2 ins + layer_ins) = t_turn_tf ^ 2]. *)
Theorem tf_averaged_turn_geom_square
    (j_tf_wp dx_tf_turn_steel dx_tf_turn_insulation : R)
    (i_tf_sc_mat : Z) (s : gstate) (e : errors) :
  j_tf_wp <> 0 ->
  0 < (fst (snd (tf_averaged_turn_geom j_tf_wp dx_tf_turn_steel
                   dx_tf_turn_insulation i_tf_sc_mat s e))).[t_turn_tf] ->
  let r := tf_averaged_turn_geom j_tf_wp dx_tf_turn_steel
             dx_tf_turn_insulation i_tf_sc_mat s e in
  let '(cable, steel, insulation, turns) := fst r in
  let s' := fst (snd r) in
  s'.[dr_tf_turn] = s'.[t_turn_tf] /\ s'.[dx_tf_turn] = s'.[t_turn_tf]
  /\ s'.[c_tf_turn] = s'.[t_turn_tf] ^ 2 * j_tf_wp
  /\ turns * s'.[t_turn_tf] ^ 2 = s.[awptf]
  /\ s'.[awptf] = s.[awptf]
  /\ cable + steel + insulation = s'.[t_turn_tf] ^ 2
  /\ (s'.[t_conductor] + 2 * dx_tf_turn_insulation)
     * (s'.[t_conductor] + 2 * dx_tf_turn_insulation + s.[layer_ins])
     = s'.[t_turn_tf] ^ 2.
Proof.
  intros Hj Ht.
  pose proof (averaged_square _ _ _ _ s e Hj Ht) as H. cbv zeta in *.
  destruct (fst (tf_averaged_turn_geom _ _ _ _ s e)) as [[[cable steel] ins] turns].
  tauto.
Qed.

(** X7.  The cable space of the averaged turn.  For the CroCo conductor
    ([i_tf_sc_mat = 6]) the stored [a_tf_turn_cable_space] is returned
    and nothing is reported.  Otherwise the cable space is the square of
    side [t_cable] less its rounded corners when that is positive; when
    it is not, error 101 is reported and the non-positive area returned
    if the conductor side is negative, and error 102 is reported and the
    plain square [t_cable ^ 2] returned if the conductor side is not
    negative, whatever the sign of [t_cable]. *)
Theorem tf_averaged_turn_geom_reports
    (j_tf_wp dx_tf_turn_steel dx_tf_turn_insulation : R)
    (i_tf_sc_mat : Z) (s : gstate) (e : errors) :
  let r := tf_averaged_turn_geom j_tf_wp dx_tf_turn_steel
             dx_tf_turn_insulation i_tf_sc_mat s e in
  let cable := fst (fst (fst (fst r))) in
  let steel := snd (fst (fst (fst r))) in
  let s' := fst (snd r) in
  let e' := snd (snd r) in
  let nominal :=
    s'.[t_cable] ^ 2 - (4 - PI) * (dx_tf_turn_steel * 0.75) ^ 2 in
  s'.[t_cable] = s'.[t_conductor] - 2 * dx_tf_turn_steel
  /\ cable + steel = s'.[t_conductor] ^ 2
  /\ ((i_tf_sc_mat = 6%Z /\ cable = s.[a_tf_turn_cable_space] /\ e' = e)
      \/ (i_tf_sc_mat <> 6%Z /\ 0 < nominal /\ cable = nominal /\ e' = e)
      \/ (i_tf_sc_mat <> 6%Z /\ nominal <= 0 /\ s'.[t_conductor] < 0
          /\ cable = nominal /\ reported e' = reported e ++ [101%Z]
          /\ fdiags e' 0%Z = nominal /\ fdiags e' 1%Z = s'.[t_cable])
      \/ (i_tf_sc_mat <> 6%Z /\ nominal <= 0 /\ 0 <= s'.[t_conductor]
          /\ cable = s'.[t_cable] ^ 2 /\ 0 <= cable
          /\ reported e' = reported e ++ [102%Z]
          /\ fdiags e' 0%Z = nominal /\ fdiags e' 1%Z = s'.[t_cable])).
Proof.
  destruct s as [n i b1 b2 q]. destruct e as [f rp].
  destruct (Z.eqb_spec i_tf_sc_mat 6) as [Hm | Hm].
  - subst i_tf_sc_mat.
    destruct b1; [| destruct b2]; exec tf_averaged_turn_geom;
      (split; [lra | split; [lra | left; repeat split]]).
  - apply Z.eqb_neq in Hm.
    destruct b1; [| destruct b2]; exec tf_averaged_turn_geom;
      rewrite Hm; run; apply Z.eqb_neq in Hm; split_ifs; bools;
      (split; [lra | split; [lra | right]]);
      first
        [ left; repeat split; try reflexivity; try assumption; lra
        | right; left; repeat split; try reflexivity; try assumption; lra
        | right; right; repeat split; try reflexivity; try assumption;
          try lra; apply pow2_ge_0 ].
Qed.

Lemma py_max_ge (a b : R) : a <= py_max a b.
Proof.
  unfold py_max. destruct (Rgtb b a) eqn:E; [| lra].
  apply Rgtb_spec in E. lra.
Qed.

(** Run and expose the calls of the composite routine one after the
    other. *)
Ltac exec_sc :=
  lazy beta iota zeta delta
    [sc_tf_internal_geom tf_wp_currents wr set_fdiag report_error num int
     fdiags reported t_turn_tf_is_input t_cable_tf_is_input quench_model
     var_beq fst snd].

(** X8.  With an averaged turn ([i_tf_turns_integer = 0]) of positive side,
    [sc_tf_internal_geom] leaves a winding pack that is accounted for in
    full: the number of turns times the turn area is the area [awptf]
    inside the ground insulation, and conductor, helium void, coolant
    channels, steel and turn insulation add up to it, for any of the
    winding pack and case shapes.  The current density it worked with is
    at least 1. *)
Theorem sc_tf_internal_geom_averaged (i_tf_wp_geom i_tf_case_geom : Z)
    (s : gstate) (e : errors) :
  0 < (fst (sc_tf_internal_geom i_tf_wp_geom i_tf_case_geom 0 s e)).[t_turn_tf] ->
  let s' := fst (sc_tf_internal_geom i_tf_wp_geom i_tf_case_geom 0 s e) in
  1 <= s'.[j_tf_wp]
  /\ s'.[c_tf_turn] = s'.[t_turn_tf] ^ 2 * s'.[j_tf_wp]
  /\ s'.[n_tf_coil_turns] * s'.[t_turn_tf] ^ 2 = s'.[awptf]
  /\ s'.[acond] + s'.[avwp] + s'.[a_tf_wp_coolant_channels] + s'.[aswp]
     + s'.[a_tf_coil_wp_turn_insulation]
     = s'.[awptf].
Proof.
  exec_sc.
  destruct (tf_wp_geom i_tf_wp_geom s e) as [[n1 i1 a1 b1 q1] e1].
  destruct (tf_case_geom i_tf_wp_geom i_tf_case_geom _ e1)
    as [[n2 i2 a2 b2 q2] e2].
  run.
  match goal with
  | |- context [tf_averaged_turn_geom ?j ?a ?b ?m ?s ?e] =>
      pose proof (averaged_square j a b m s e) as Hsq;
      destruct (tf_averaged_turn_geom j a b m s e)
        as [[[[cable steel] insulation] turns] [[n4 i4 a4 b4 q4] e4]]
  end.
  run. run_in Hsq. intros Ht.
  pose proof (py_max_ge 1.0 (n2 c_tf_total / (n2 n_tf_coils * n2 awptf)))
    as Hj.
  destruct (Hsq ltac:(lra) Ht)
    as (_ & _ & Hc & Hturns & Hframe & Hsum & _ & Hjf).
  repeat split.
  - rewrite Hjf. lra.
  - rewrite Hjf. exact Hc.
  - lra.
  - rewrite Hframe, <- Hturns, <- Hsum. replace 1.0 with 1 by lra. ring.
Qed.

(** *** What the routines leave alone *)

Ltac frame_cases v H :=
  destruct v; run;
  first [ exfalso; apply H; simpl; tauto
        | split_ifs; reflexivity ].

Lemma wp_frame (i_tf_wp_geom : Z) (s : gstate) (e : errors) (v : var) :
  ~ In v [r_wp_inner; r_wp_outer; r_wp_centre; t_wp_toroidal; wwp1; wwp2;
          t_wp_toroidal_av; awpc; awptf; a_ground_ins] ->
  (fst (tf_wp_geom i_tf_wp_geom s e)).[v] = s.[v].
Proof.
  destruct s as [n i b1 b2 q]. destruct e as [f rp]. intros H.
  exec tf_wp_geom.
  destruct (i_tf_wp_geom =? 0)%Z; [| destruct (i_tf_wp_geom =? 1)%Z];
    frame_cases v H.
Qed.

Lemma wp_switches (i_tf_wp_geom : Z) (s : gstate) (e : errors) :
  same_switches s (fst (tf_wp_geom i_tf_wp_geom s e)).
Proof.
  destruct s as [n i b1 b2 q]. destruct e as [f rp].
  unfold same_switches. exec tf_wp_geom.
  destruct (i_tf_wp_geom =? 0)%Z; [| destruct (i_tf_wp_geom =? 1)%Z];
    run; repeat split.
Qed.

Lemma case_frame (i_tf_wp_geom i_tf_case_geom : Z) (s : gstate)
    (e : errors) (v : var) :
  ~ In v [acasetf; acasetfo; a_case_front; a_case_nose; t_lat_case_av] ->
  (fst (tf_case_geom i_tf_wp_geom i_tf_case_geom s e)).[v] = s.[v].
Proof.
  destruct s as [n i b1 b2 q]. destruct e as [f rp]. intros H.
  exec tf_case_geom.
  destruct (i_tf_case_geom =? 0)%Z;
    (destruct (i_tf_wp_geom =? 0)%Z; [| destruct (i_tf_wp_geom =? 1)%Z]);
    frame_cases v H.
Qed.

Lemma case_switches (i_tf_wp_geom i_tf_case_geom : Z) (s : gstate)
    (e : errors) :
  same_switches s (fst (tf_case_geom i_tf_wp_geom i_tf_case_geom s e)).
Proof.
  destruct s as [n i b1 b2 q]. destruct e as [f rp].
  unfold same_switches. exec tf_case_geom.
  destruct (i_tf_case_geom =? 0)%Z;
    (destruct (i_tf_wp_geom =? 0)%Z; [| destruct (i_tf_wp_geom =? 1)%Z]);
    run; repeat split.
Qed.

Lemma integer_frame (n_layer n_pancake : Z)
    (dx_tf_turn_steel dx_tf_turn_insulation : R) (s : gstate) (e : errors)
    (v : var) :
  ~ In v [rbcndut; dr_tf_turn; dx_tf_turn; t_turn_tf; t_conductor_radial;
          t_conductor_toroidal; t_conductor; dr_tf_turn_cable_space;
          dx_tf_turn_cable_space; t_cable] ->
  (fst (snd (tf_integer_turn_geom n_layer n_pancake dx_tf_turn_steel
               dx_tf_turn_insulation s e))).[v] = s.[v].
Proof.
  destruct s as [n i b1 b2 q]. destruct e as [f rp]. intros H.
  exec tf_integer_turn_geom. frame_cases v H.
Qed.

Lemma integer_switches (n_layer n_pancake : Z)
    (dx_tf_turn_steel dx_tf_turn_insulation : R) (s : gstate) (e : errors) :
  same_switches s
    (fst (snd (tf_integer_turn_geom n_layer n_pancake dx_tf_turn_steel
                 dx_tf_turn_insulation s e))).
Proof.
  destruct s as [n i b1 b2 q]. destruct e as [f rp].
  unfold same_switches. exec tf_integer_turn_geom.
  split_ifs; repeat split.
Qed.

Lemma averaged_frame (j_tf_wp dx_tf_turn_steel dx_tf_turn_insulation : R)
    (i_tf_sc_mat : Z) (s : gstate) (e : errors) (v : var) :
  ~ In v [c_tf_turn; t_turn_tf; dr_tf_turn; dx_tf_turn; t_conductor;
          t_cable] ->
  (fst (snd (tf_averaged_turn_geom j_tf_wp dx_tf_turn_steel
               dx_tf_turn_insulation i_tf_sc_mat s e))).[v] = s.[v].
Proof.
  destruct s as [n i b1 b2 q]. destruct e as [f rp]. intros H.
  destruct b1; [| destruct b2]; exec tf_averaged_turn_geom;
    (destruct (i_tf_sc_mat =? 6)%Z; run); frame_cases v H.
Qed.

Lemma averaged_switches
    (j_tf_wp dx_tf_turn_steel dx_tf_turn_insulation : R)
    (i_tf_sc_mat : Z) (s : gstate) (e : errors) :
  same_switches s
    (fst (snd (tf_averaged_turn_geom j_tf_wp dx_tf_turn_steel
                 dx_tf_turn_insulation i_tf_sc_mat s e))).
Proof.
  destruct s as [n i b1 b2 q]. destruct e as [f rp].
  unfold same_switches.
  destruct b1; [| destruct b2]; exec tf_averaged_turn_geom;
    (destruct (i_tf_sc_mat =? 6)%Z; run); split_ifs; repeat split.
Qed.

(** The pack inside the ground insulation is a rectangle when the shape
    is rectangular. *)
Lemma wp_inner_rectangle (i_tf_wp_geom : Z) (s : gstate) (e : errors) :
  i_tf_wp_geom = 0%Z ->
  let s' := fst (tf_wp_geom i_tf_wp_geom s e) in
  s'.[awptf]
  = (s'.[dr_tf_wp] - 2 * (s'.[tinstf] + s'.[tfinsgap]))
    * (s'.[t_wp_toroidal] - 2 * (s'.[tinstf] + s'.[tfinsgap])).
Proof.
  intros ->. destruct s as [n i b1 b2 q]. destruct e as [f rp].
  exec tf_wp_geom. lra.
Qed.

Lemma integer_turn (n_layer n_pancake : Z)
    (dx_tf_turn_steel dx_tf_turn_insulation : R) (s : gstate) (e : errors) :
  let r := tf_integer_turn_geom n_layer n_pancake dx_tf_turn_steel
             dx_tf_turn_insulation s e in
  let '(cable, steel, insulation, current, turns) := fst r in
  let s' := fst (snd r) in
  cable + steel + insulation = s'.[dr_tf_turn] * s'.[dx_tf_turn]
  /\ turns = IZR (int32_mul n_layer n_pancake)
  /\ current = s.[c_tf_coil] / turns
  /\ s'.[dr_tf_turn]
     = (s.[dr_tf_wp] - 2 * (s.[tinstf] + s.[tfinsgap])) / IZR n_layer
  /\ s'.[dx_tf_turn]
     = (s.[t_wp_toroidal] - 2 * (s.[tinstf] + s.[tfinsgap]))
       / IZR n_pancake.
Proof.
  destruct s as [n i b1 b2 q]. destruct e as [f rp].
  exec tf_integer_turn_geom; split_ifs; repeat split; try lra;
    apply Rmult_eq_compat_r; lra.
Qed.

Ltac unlisted := simpl; intuition discriminate.

(** Past the range the count wraps: 65536 layers of 65536 pancakes are
    counted as no turn at all. *)
Lemma int32_mul_wraps : int32_mul 65536 65536 = 0%Z.
Proof. reflexivity. Qed.

(** A product that fits in an [int32] is not changed by the wrap. *)
Lemma int32_mul_exact (a b : Z) :
  (- 2 ^ 31 <= a * b < 2 ^ 31)%Z -> int32_mul a b = (a * b)%Z.
Proof.
  intros H. unfold int32_mul.
  change (2 ^ 31)%Z with 2147483648%Z in *.
  change (2 ^ 32)%Z with 4294967296%Z.
  rewrite Z.mod_small by lia. lia.
Qed.

(** X9.  With an integer number of turns whose product
    [n_layer * n_pancake] fits in an [int32], [sc_tf_internal_geom] lays
    [n_layer * n_pancake] turns in the rectangle of radial thickness
    [dr_tf_wp] and toroidal thickness [t_wp_toroidal] less insertion gap
    and ground insulation, whatever the shape of the winding pack: the
    turns fill that rectangle, and conductor, helium void, coolant
    channels, steel and turn insulation add up to it.  For the
    rectangular pack that rectangle is [awptf]. *)
Theorem sc_tf_internal_geom_integer
    (i_tf_wp_geom i_tf_case_geom i_tf_turns_integer : Z)
    (s : gstate) (e : errors) :
  i_tf_turns_integer <> 0%Z ->
  int s n_layer <> 0%Z -> int s n_pancake <> 0%Z ->
  (- 2 ^ 31 <= int s n_layer * int s n_pancake < 2 ^ 31)%Z ->
  let s' :=
    fst (sc_tf_internal_geom i_tf_wp_geom i_tf_case_geom
           i_tf_turns_integer s e) in
  let rectangle :=
    (s'.[dr_tf_wp] - 2 * (s'.[tinstf] + s'.[tfinsgap]))
    * (s'.[t_wp_toroidal] - 2 * (s'.[tinstf] + s'.[tfinsgap])) in
  s'.[n_tf_coil_turns] = IZR (int s n_layer * int s n_pancake)
  /\ s'.[c_tf_turn] * s'.[n_tf_coil_turns] = s'.[c_tf_coil]
  /\ s'.[n_tf_coil_turns] * (s'.[dr_tf_turn] * s'.[dx_tf_turn]) = rectangle
  /\ s'.[acond] + s'.[avwp] + s'.[a_tf_wp_coolant_channels] + s'.[aswp]
     + s'.[a_tf_coil_wp_turn_insulation]
     = rectangle
  /\ (i_tf_wp_geom <> 0%Z \/ s'.[awptf] = rectangle).
Proof.
  intros Hturns Hl Hp Hfit. apply Z.eqb_neq in Hturns.
  pose proof (wp_switches i_tf_wp_geom s e) as (Hi1 & _).
  pose proof (wp_inner_rectangle i_tf_wp_geom s e) as Hrect.
  pose proof (case_switches i_tf_wp_geom i_tf_case_geom
                (fst (tf_wp_geom i_tf_wp_geom s e))
                (snd (tf_wp_geom i_tf_wp_geom s e))) as (Hi2 & _).
  pose proof (case_frame i_tf_wp_geom i_tf_case_geom
                (fst (tf_wp_geom i_tf_wp_geom s e))
                (snd (tf_wp_geom i_tf_wp_geom s e))) as Hf2.
  exec_sc. rewrite Hturns. run.
  destruct (tf_wp_geom i_tf_wp_geom s e) as [[n1 i1 a1 b1 q1] e1].
  cbn [fst snd num int] in *.
  destruct (tf_case_geom i_tf_wp_geom i_tf_case_geom _ e1)
    as [[n2 i2 a2 b2 q2] e2].
  cbn [fst snd num int] in *. run.
  match goal with
  | |- context [tf_integer_turn_geom ?nl ?np ?a ?b ?s0 ?e0] =>
      pose proof (integer_turn nl np a b s0 e0) as Ht;
      pose proof (integer_frame nl np a b s0 e0) as Hf4;
      destruct (tf_integer_turn_geom nl np a b s0 e0)
        as [[[[[cable steel] insulation] current] turns]
              [[n4 i4 a4 b4 q4] e4]]
  end.
  run. run_in Ht. cbn [fst snd num] in Hf4.
  destruct Ht as (Hsum & Hn & Hc & Hdr & Hdx).
  subst i1 i2. rewrite (int32_mul_exact _ _ Hfit) in Hn.
  assert (Hl' : IZR (int s n_layer) <> 0) by (apply not_0_IZR; exact Hl).
  assert (Hp' : IZR (int s n_pancake) <> 0) by (apply not_0_IZR; exact Hp).
  pose proof (Hf4 dr_tf_wp ltac:(unlisted)) as F1; run_in F1.
  pose proof (Hf4 tinstf ltac:(unlisted)) as F2; run_in F2.
  pose proof (Hf4 tfinsgap ltac:(unlisted)) as F3; run_in F3.
  pose proof (Hf4 t_wp_toroidal ltac:(unlisted)) as F4; run_in F4.
  pose proof (Hf4 awptf ltac:(unlisted)) as F5; run_in F5.
  pose proof (Hf4 c_tf_coil ltac:(unlisted)) as F6; run_in F6.
  rewrite F1, F2, F3, F4, F5, F6.
  assert (Hfill : turns * (n4 dr_tf_turn * n4 dx_tf_turn)
                  = (n2 dr_tf_wp - 2 * (n2 tinstf + n2 tfinsgap))
                    * (n2 t_wp_toroidal - 2 * (n2 tinstf + n2 tfinsgap))).
  { rewrite Hn, Hdr, Hdx, mult_IZR. field. split; assumption. }
  repeat split.
  - exact Hn.
  - rewrite Hc. apply div_mul_cancel.
    rewrite Hn, mult_IZR.
    apply Rmult_integral_contrapositive_currified; assumption.
  - exact Hfill.
  - rewrite <- Hfill, <- Hsum. replace 1.0 with 1 by lra. ring.
  - destruct (Z.eq_dec i_tf_wp_geom 0) as [H0 | H0]; [right | left; exact H0].
    specialize (Hrect H0).
    rewrite (Hf2 awptf ltac:(unlisted)), (Hf2 dr_tf_wp ltac:(unlisted)),
      (Hf2 tinstf ltac:(unlisted)), (Hf2 tfinsgap ltac:(unlisted)),
      (Hf2 t_wp_toroidal ltac:(unlisted)).
    exact Hrect.
Qed.

(** *** What the routines report *)

Ltac reports :=
  first
    [ exists (@nil Z); split; [symmetry; apply app_nil_r | constructor]
    | eexists; split;
      [ rewrite <- ?app_assoc; reflexivity
      | simpl; repeat constructor; simpl; tauto ] ].

Lemma wp_reports (i_tf_wp_geom : Z) (s : gstate) (e : errors) :
  exists l,
    reported (snd (tf_wp_geom i_tf_wp_geom s e)) = reported e ++ l
    /\ Forall (fun c => In c geometry_codes) l.
Proof.
  destruct s as [n i b1 b2 q]. destruct e as [f rp].
  exec tf_wp_geom; split_ifs; reports.
Qed.

Lemma case_reports (i_tf_wp_geom i_tf_case_geom : Z) (s : gstate)
    (e : errors) :
  exists l,
    reported (snd (tf_case_geom i_tf_wp_geom i_tf_case_geom s e))
    = reported e ++ l
    /\ Forall (fun c => In c geometry_codes) l.
Proof.
  destruct s as [n i b1 b2 q]. destruct e as [f rp].
  exec tf_case_geom; split_ifs; reports.
Qed.

Lemma integer_reports (n_layer n_pancake : Z)
    (dx_tf_turn_steel dx_tf_turn_insulation : R) (s : gstate) (e : errors) :
  exists l,
    reported (snd (snd (tf_integer_turn_geom n_layer n_pancake
                          dx_tf_turn_steel dx_tf_turn_insulation s e)))
    = reported e ++ l
    /\ Forall (fun c => In c geometry_codes) l.
Proof.
  destruct s as [n i b1 b2 q]. destruct e as [f rp].
  exec tf_integer_turn_geom; split_ifs; reports.
Qed.

Lemma averaged_reports (j_tf_wp dx_tf_turn_steel dx_tf_turn_insulation : R)
    (i_tf_sc_mat : Z) (s : gstate) (e : errors) :
  exists l,
    reported (snd (snd (tf_averaged_turn_geom j_tf_wp dx_tf_turn_steel
                          dx_tf_turn_insulation i_tf_sc_mat s e)))
    = reported e ++ l
    /\ Forall (fun c => In c geometry_codes) l.
Proof.
  destruct s as [n i b1 b2 q]. destruct e as [f rp].
  destruct b1; [| destruct b2]; exec tf_averaged_turn_geom;
    (destruct (i_tf_sc_mat =? 6)%Z; run); split_ifs; reports.
Qed.

(** X10.  [sc_tf_internal_geom] only adds to the errors reported: first codes
    among 99, 100, 101 and 102 from the routines it calls, then error
    276, with the eight areas and fractions in [fdiags[0]] to
    [fdiags[7]], exactly when one of them is not positive. *)
Theorem sc_tf_internal_geom_reports
    (i_tf_wp_geom i_tf_case_geom i_tf_turns_integer : Z)
    (s : gstate) (e : errors) :
  let '(s', e') :=
    sc_tf_internal_geom i_tf_wp_geom i_tf_case_geom i_tf_turns_integer
      s e in
  let checked :=
    [s'.[acond]; s'.[avwp]; s'.[a_tf_coil_wp_turn_insulation]; s'.[aswp];
     s'.[a_tf_steel]; s'.[f_tf_steel]; s'.[a_tf_ins]; s'.[f_tf_ins]] in
  exists earlier last,
    reported e' = reported e ++ earlier ++ last
    /\ Forall (fun c => In c [99; 100; 101; 102]%Z) earlier
    /\ ((last = [276%Z] /\ Exists (fun x => x <= 0) checked
         /\ map (fdiags e') [0; 1; 2; 3; 4; 5; 6; 7]%Z = checked)
        \/ (last = [] /\ Forall (fun x => 0 < x) checked)).
Proof.
  destruct e as [f0 rp0].
  pose proof (wp_reports i_tf_wp_geom s (mkE f0 rp0)) as (l1 & R1 & A1).
  pose proof (case_reports i_tf_wp_geom i_tf_case_geom
                (fst (tf_wp_geom i_tf_wp_geom s (mkE f0 rp0)))
                (snd (tf_wp_geom i_tf_wp_geom s (mkE f0 rp0))))
    as (l2 & R2 & A2).
  exec_sc.
  destruct (tf_wp_geom i_tf_wp_geom s (mkE f0 rp0))
    as [[n1 i1 a1 b1 q1] [f1 rp1]].
  cbn [fst snd reported] in *.
  destruct (tf_case_geom i_tf_wp_geom i_tf_case_geom _ _)
    as [[n2 i2 a2 b2 q2] [f2 rp2]].
  cbn [fst snd reported] in *. run.
  assert (Hturn :
    forall (checked diags : list R) (rp4 l4 rp' : list Z),
      rp4 = rp2 ++ l4 ->
      Forall (fun c => In c geometry_codes) l4 ->
      (Exists (fun x => x <= 0) checked
       /\ rp' = rp4 ++ [276%Z] /\ diags = checked)
      \/ (Forall (fun x => 0 < x) checked /\ rp' = rp4) ->
      exists earlier last,
        rp' = rp0 ++ earlier ++ last
        /\ Forall (fun c => In c [99; 100; 101; 102]%Z) earlier
        /\ ((last = [276%Z] /\ Exists (fun x => x <= 0) checked
             /\ diags = checked)
            \/ (last = [] /\ Forall (fun x => 0 < x) checked))).
  { intros checked diags rp4 l4 rp' R4 A4 [(Hex & R' & D') | (Hall & ->)].
    - exists (l1 ++ l2 ++ l4), [276%Z]. split; [| split].
      + rewrite R', R4, R2, R1, <- !app_assoc. reflexivity.
      + repeat (apply Forall_app; split); assumption.
      + left. repeat split; assumption.
    - exists (l1 ++ l2 ++ l4), []. split; [| split].
      + rewrite R4, R2, R1, <- !app_assoc, app_nil_r. reflexivity.
      + repeat (apply Forall_app; split); assumption.
      + right. split; [reflexivity | assumption]. }
  clear R1 R2 A1 A2.
  destruct (i_tf_turns_integer =? 0)%Z.
  - match goal with
    | |- context [tf_averaged_turn_geom ?j ?a ?b ?m ?s0 ?e0] =>
        pose proof (averaged_reports j a b m s0 e0) as (l4 & R4 & A4);
        destruct (tf_averaged_turn_geom j a b m s0 e0)
          as [[[[cable steel] insulation] turns]
                [[n4 i4 a4 b4 q4] [f4 rp4]]]
    end.
    cbn [fst snd reported] in R4. run.
    split_ifs; bools; eapply (Hturn _ _ rp4 l4 _ R4 A4);
      first
        [ right; split; [repeat constructor; lra | reflexivity]
        | left; split;
          [ repeat first [ apply Exists_cons_hd; lra
                         | apply Exists_cons_tl ]
          | split; [reflexivity | cbn [map]; run; reflexivity] ] ].
  - match goal with
    | |- context [tf_integer_turn_geom ?nl ?np ?a ?b ?s0 ?e0] =>
        pose proof (integer_reports nl np a b s0 e0) as (l4 & R4 & A4);
        destruct (tf_integer_turn_geom nl np a b s0 e0)
          as [[[[[cable steel] insulation] current] turns]
                [[n4 i4 a4 b4 q4] [f4 rp4]]]
    end.
    cbn [fst snd reported] in R4. run.
    split_ifs; bools; eapply (Hturn _ _ rp4 l4 _ R4 A4);
      first
        [ right; split; [repeat constructor; lra | reflexivity]
        | left; split;
          [ repeat first [ apply Exists_cons_hd; lra
                         | apply Exists_cons_tl ]
          | split; [reflexivity | cbn [map]; run; reflexivity] ] ].
Qed.

Ltac listed :=
  simpl; repeat first [left; reflexivity | right]; fail.

(** X20.  [sc_tf_internal_geom] and the routines it calls write the variables
    of the winding pack, the case and the turn, and nothing else: the
    build, the currents, the thicknesses and the counts they start from
    are as they were, and so are the integer variables, the two input
    switches and the quench model. *)
Theorem sc_tf_internal_geom_writes_only
    (i_tf_wp_geom i_tf_case_geom i_tf_turns_integer : Z)
    (s : gstate) (e : errors) (v : var) :
  let s' :=
    fst (sc_tf_internal_geom i_tf_wp_geom i_tf_case_geom
           i_tf_turns_integer s e) in
  same_switches s s'
  /\ (In v [r_wp_inner; r_wp_outer; r_wp_centre; t_wp_toroidal; wwp1; wwp2;
            t_wp_toroidal_av; awpc; awptf; a_ground_ins;
            acasetf; acasetfo; a_case_front; a_case_nose; t_lat_case_av;
            j_tf_wp;
            rbcndut; dr_tf_turn; dx_tf_turn; t_turn_tf; t_conductor_radial;
            t_conductor_toroidal; t_conductor; dr_tf_turn_cable_space;
            dx_tf_turn_cable_space; t_cable; c_tf_turn;
            a_tf_turn_cable_space; a_tf_turn_steel; a_tf_turn_insulation;
            n_tf_coil_turns;
            a_tf_wp_coolant_channels; acond; avwp;
            a_tf_coil_wp_turn_insulation; aswp; a_tf_steel; f_tf_steel;
            a_tf_ins; f_tf_ins]
      \/ s'.[v] = s.[v]).
Proof.
  pose proof (wp_switches i_tf_wp_geom s e) as S1.
  pose proof (wp_frame i_tf_wp_geom s e v) as F1.
  pose proof (case_switches i_tf_wp_geom i_tf_case_geom
                (fst (tf_wp_geom i_tf_wp_geom s e))
                (snd (tf_wp_geom i_tf_wp_geom s e))) as S2.
  pose proof (case_frame i_tf_wp_geom i_tf_case_geom
                (fst (tf_wp_geom i_tf_wp_geom s e))
                (snd (tf_wp_geom i_tf_wp_geom s e)) v) as F2.
  exec_sc.
  destruct (tf_wp_geom i_tf_wp_geom s e) as [[n1 i1 a1 b1 q1] e1].
  cbn [fst snd] in *.
  destruct (tf_case_geom i_tf_wp_geom i_tf_case_geom _ e1)
    as [[n2 i2 a2 b2 q2] e2].
  cbn [fst snd] in *. run.
  destruct s as [n i a b q]. unfold same_switches in *.
  cbn [num int t_turn_tf_is_input t_cable_tf_is_input quench_model] in *.
  destruct S1 as (-> & -> & -> & ->). destruct S2 as (-> & -> & -> & ->).
  destruct (i_tf_turns_integer =? 0)%Z.
  - match goal with
    | |- context [tf_averaged_turn_geom ?j ?x ?y ?m ?s0 ?e0] =>
        pose proof (averaged_switches j x y m s0 e0) as S4;
        pose proof (averaged_frame j x y m s0 e0 v) as F4;
        destruct (tf_averaged_turn_geom j x y m s0 e0)
          as [[[[cable steel] insulation] turns] [[n4 i4 a4 b4 q4] e4]]
    end.
    unfold same_switches in S4.
    cbn [fst snd num int t_turn_tf_is_input t_cable_tf_is_input
         quench_model] in *.
    destruct S4 as (-> & -> & -> & ->). run.
    split; [repeat split |].
    destruct v; run; run_in F1; run_in F2; run_in F4;
      first
        [ left; listed
        | right; rewrite F4, F2, F1 by unlisted; reflexivity ].
  - match goal with
    | |- context [tf_integer_turn_geom ?nl ?np ?x ?y ?s0 ?e0] =>
        pose proof (integer_switches nl np x y s0 e0) as S4;
        pose proof (integer_frame nl np x y s0 e0 v) as F4;
        destruct (tf_integer_turn_geom nl np x y s0 e0)
          as [[[[[cable steel] insulation] current] turns]
                [[n4 i4 a4 b4 q4] e4]]
    end.
    unfold same_switches in S4.
    cbn [fst snd num int t_turn_tf_is_input t_cable_tf_is_input
         quench_model] in *.
    destruct S4 as (-> & -> & -> & ->). run.
    split; [repeat split |].
    destruct v; run; run_in F1; run_in F2; run_in F4;
      first
        [ left; listed
        | right; rewrite F4, F2, F1 by unlisted; reflexivity ].
Qed.

(** *** [peak_tf_with_ripple] *)

Lemma np_round_near (x : R) :
  exists z : Z,
    np_round x = IZR z /\ Rabs (IZR z - x) <= 1 / 2
    /\ (Rabs (IZR z - x) = 1 / 2 -> Z.even z = true).
Proof.
  unfold np_round. destruct (base_Int_part x) as [Hlo Hhi].
  set (f := Int_part x) in *.
  destruct (Rlt_dec (x - IZR f) (1 / 2)) as [H1 | H1].
  - exists f. split; [reflexivity |].
    rewrite Rabs_left1 by lra. split; [lra | intros; lra].
  - destruct (Rlt_dec (1 / 2) (x - IZR f)) as [H2 | H2].
    + exists (f + 1)%Z. split; [reflexivity |].
      rewrite plus_IZR. rewrite Rabs_right by lra. split; [lra | intros; lra].
    + destruct (Z.even f) eqn:Ev.
      * exists f. split; [reflexivity |].
        rewrite Rabs_left1 by lra. split; [lra | intros; exact Ev].
      * exists (f + 1)%Z. split; [reflexivity |].
        rewrite plus_IZR. rewrite Rabs_right by lra. split; [lra |].
        intros _. rewrite Z.add_1_r, Z.even_succ, <- Z.negb_even, Ev.
        reflexivity.
Qed.

Lemma Rabs_le_inv (a b : R) : Rabs a <= b -> - b <= a <= b.
Proof. unfold Rabs. destruct (Rcase_abs a); lra. Qed.

(** Rounding half to even: an even [k] is the rounded value of exactly
    the numbers within one half of it, both ends included. *)
Lemma np_round_even_window (k : Z) (x : R) :
  Z.even k = true ->
  np_round x = IZR k <-> IZR k - 1 / 2 <= x <= IZR k + 1 / 2.
Proof.
  intros Hk. destruct (np_round_near x) as (z & Hz & Hnear & Htie).
  rewrite Hz. split.
  - intros H. apply eq_IZR in H. subst z.
    apply Rabs_le_inv in Hnear. lra.
  - intros Hx. f_equal.
    pose proof (Rabs_le_inv _ _ Hnear) as Hn.
    assert (Hd : (k - 1 <= z <= k + 1)%Z).
    { split; apply le_IZR; [rewrite minus_IZR | rewrite plus_IZR]; lra. }
    destruct (Z.eq_dec z k) as [-> | Hne]; [reflexivity | exfalso].
    assert (Hc : z = (k - 1)%Z \/ z = (k + 1)%Z) by lia.
    assert (Hodd : Z.even z = false).
    { destruct Hc as [-> | ->].
      - rewrite Z.sub_1_r, Z.even_pred, <- Z.negb_even, Hk. reflexivity.
      - rewrite Z.add_1_r, Z.even_succ, <- Z.negb_even, Hk. reflexivity. }
    rewrite Htie in Hodd; [discriminate |].
    destruct Hc as [-> | ->].
    + rewrite minus_IZR in *. rewrite Rabs_left1 by lra. lra.
    + rewrite plus_IZR in *. rewrite Rabs_right by lra. lra.
Qed.

Lemma Req_b_true (x y : R) : Req_b x y = true <-> x = y.
Proof.
  unfold Req_b. destruct (Req_dec_T x y); split; intros H;
    try reflexivity; try assumption; try discriminate; contradiction.
Qed.

Lemma Req_b_false (x y : R) : Req_b x y = false <-> x <> y.
Proof.
  unfold Req_b. destruct (Req_dec_T x y); split; intros H;
    try reflexivity; try assumption; try discriminate; contradiction.
Qed.

Lemma coefficients_window (n_tf_coils : R) :
  (fit_window n_tf_coils ->
   exists a0 a1 a2 a3,
     ripple_coefficients (np_round n_tf_coils) = Some [a0; a1; a2; a3])
  /\ (~ fit_window n_tf_coils ->
      ripple_coefficients (np_round n_tf_coils) = None).
Proof.
  unfold fit_window, ripple_coefficients.
  pose proof (np_round_even_window 16 n_tf_coils eq_refl) as H16.
  pose proof (np_round_even_window 18 n_tf_coils eq_refl) as H18.
  pose proof (np_round_even_window 20 n_tf_coils eq_refl) as H20.
  destruct (Req_b (np_round n_tf_coils) 16) eqn:E16;
    [| destruct (Req_b (np_round n_tf_coils) 18) eqn:E18;
       [| destruct (Req_b (np_round n_tf_coils) 20) eqn:E20]].
  - apply Req_b_true in E16. apply H16 in E16.
    split; [intros _; repeat eexists | intros H; exfalso; apply H; lra].
  - apply Req_b_true in E18. apply H18 in E18.
    split; [intros _; repeat eexists | intros H; exfalso; apply H; lra].
  - apply Req_b_true in E20. apply H20 in E20.
    split; [intros _; repeat eexists | intros H; exfalso; apply H; lra].
  - apply Req_b_false in E16, E18, E20.
    split; [| reflexivity].
    intros [H | [H | H]]; exfalso;
      [apply E16, H16 | apply E18, H18 | apply E20, H20]; lra.
Qed.

(** X11.  Outside the windows [15.5, 16.5], [17.5, 18.5] and [19.5, 20.5] for
    the number of coils, which round half-to-even to 16, 18 and 20, the
    peak field is the nominal one plus nine per cent, the flag is 0 and
    no fit variable is written. *)
Theorem peak_tf_with_ripple_estimate
    (n_tf_coils wwp1 dr_tf_wp tfin b_tf_inboard_peak : R) (s : gstate) :
  ~ fit_window n_tf_coils ->
  peak_tf_with_ripple n_tf_coils wwp1 dr_tf_wp tfin b_tf_inboard_peak s
  = ((1.09 * b_tf_inboard_peak, 0%Z), s).
Proof.
  intros H. unfold peak_tf_with_ripple.
  rewrite (proj2 (coefficients_window n_tf_coils) H). reflexivity.
Qed.

(** X12.  Inside those windows the fit is used: the peak field is [tf_fit_y]
    times the nominal one, the two dimensionless sizes are in the ratio
    of the width to the thickness of the winding pack, and the flag is 2
    when [tf_fit_z] is outside [0.26, 0.7], 1 when only [tf_fit_t] is
    outside [0.3, 1.1], and 0 otherwise. *)
Theorem peak_tf_with_ripple_fit
    (n_tf_coils wwp1 dr_tf_wp tfin b_tf_inboard_peak : R) (s : gstate) :
  fit_window n_tf_coils ->
  let '((bmaxtfrp, flag), s') :=
    peak_tf_with_ripple n_tf_coils wwp1 dr_tf_wp tfin b_tf_inboard_peak s in
  let t_out := s'.[tf_fit_t] < 0.3 \/ 1.1 < s'.[tf_fit_t] in
  let z_out := s'.[tf_fit_z] < 0.26 \/ 0.7 < s'.[tf_fit_z] in
  bmaxtfrp = s'.[tf_fit_y] * b_tf_inboard_peak
  /\ s'.[tf_fit_t] * dr_tf_wp = s'.[tf_fit_z] * wwp1
  /\ (flag = 2%Z <-> z_out)
  /\ (flag = 1%Z <-> ~ z_out /\ t_out)
  /\ (flag = 0%Z <-> ~ z_out /\ ~ t_out).
Proof.
  intros H.
  destruct (proj1 (coefficients_window n_tf_coils) H)
    as (a0 & a1 & a2 & a3 & Hc).
  destruct s as [n i b1 b2 q].
  unfold peak_tf_with_ripple. rewrite Hc.
  lazy beta iota zeta delta [wr num var_beq].
  set (t := wwp1 / _). set (z := dr_tf_wp / _).
  split; [reflexivity |].
  split; [subst t z; unfold Rdiv; ring |].
  destruct (Rltb z 0.26 || Rgtb z 0.7) eqn:Cz;
    [| destruct (Rltb t 0.3 || Rgtb t 1.1) eqn:Ct];
    bools; repeat split; intros; try discriminate; try reflexivity;
    try lra; intuition lra.
Qed.

(** *** [croco_voltage] *)

(** X13.  For the linear and the exponential quench model alike the CroCo
    quench voltage is the dump voltage of [protect] for the turn current,
    the stored energy of one coil and the dump time, and the dump time is
    copied into [time2] or [tau2]; for any other model name it is zero
    and nothing is written. *)
Theorem croco_voltage_dump (s : gstate) :
  let '(v, s') := croco_voltage s in
  let dump :=
    Protect.dump_voltage s.[c_tf_turn]
      (s.[e_tf_magnetic_stored_total] / s.[n_tf_coils]) s.[tdmptf] in
  (quench_model s = "linear"%string /\ v = dump
   /\ s' = s.[time2 <== s.[tdmptf]])
  \/ (quench_model s = "exponential"%string /\ v = dump
      /\ s' = s.[tau2 <== s.[tdmptf]])
  \/ (quench_model s <> "linear"%string
      /\ quench_model s <> "exponential"%string /\ v = 0 /\ s' = s).
Proof.
  destruct s as [n i b1 b2 q]. unfold croco_voltage. cbn [quench_model].
  destruct (String.eqb_spec q "linear") as [Hl | Hl];
    [| destruct (String.eqb_spec q "exponential") as [He | He]].
  - left. split; [exact Hl |]. split; [| reflexivity].
    run. unfold Protect.dump_voltage, Rdiv. rewrite Rinv_mult. ring.
  - right; left. split; [exact He |]. split; [| reflexivity].
    run. unfold Protect.dump_voltage, Rdiv. rewrite Rinv_mult. ring.
  - right; right. repeat split; try assumption. lra.
Qed.

(** *** The method [vv_stress_on_quench] *)

Lemma np_clip_lower_nonpos (x : R) : x <= 0 -> np_clip_lower x 0 = 0.
Proof. intros H. unfold np_clip_lower. destruct (Rlt_dec x 0); lra. Qed.

(** X14.  The steel area is clipped at zero before it is used as the area of
    the radial plates: with a non-positive [a_tf_steel] the stress
    stored is the one for no radial plate, however negative the area. *)
Theorem vv_stress_on_quench_clips_steel (rmu0 : R) (s : gstate) (x : R) :
  s.[a_tf_steel] <= 0 -> x <= 0 ->
  Quench.s_rp (quench_args s) = 0
  /\ exists s1 s2,
       vv_stress_on_quench rmu0 s = Returns s1
       /\ vv_stress_on_quench rmu0 s.[a_tf_steel <== x] = Returns s2
       /\ s1.[vv_stress_quench] = s2.[vv_stress_quench].
Proof.
  intros Hs Hx. destruct s as [n i b1 b2 q]. cbn [num] in Hs.
  assert (Hargs : quench_args (mkG n i b1 b2 q).[a_tf_steel <== x]
                  = quench_args (mkG n i b1 b2 q)).
  { lazy beta iota zeta delta [quench_args wr num var_beq].
    rewrite !np_clip_lower_nonpos by assumption. reflexivity. }
  split.
  - lazy beta iota zeta delta [quench_args Quench.s_rp num].
    apply np_clip_lower_nonpos. exact Hs.
  - unfold vv_stress_on_quench, Quench.vv_stress_on_quench. cbn [obind].
    do 2 eexists. split; [reflexivity |]. split; [reflexivity |].
    rewrite Hargs. run. reflexivity.
Qed.

(** *** The theorems at work on the sample store *)

Ltac sample :=
  lazy beta iota zeta delta
    [sc_tf_internal_geom tf_wp_geom tf_case_geom tf_wp_currents
     tf_integer_turn_geom tf_averaged_turn_geom
     GeomSample.store GeomSample.clean GeomSample.negative_steel
     wr set_fdiag report_error num int
     fdiags reported t_turn_tf_is_input t_cable_tf_is_input quench_model
     var_beq fst snd Z.eqb Pos.eqb negb].

Lemma tf_averaged_turn_geom_square_witness :
  1 <> 0
  /\ 0 < (fst (snd (tf_averaged_turn_geom 1 0.1 0.01 1 GeomSample.store
                      GeomSample.clean))).[t_turn_tf]
  /\ (let r := tf_averaged_turn_geom 1 0.1 0.01 1 GeomSample.store
                 GeomSample.clean in
      let '(cable, steel, insulation, turns) := fst r in
      let s' := fst (snd r) in
      s'.[dr_tf_turn] = s'.[t_turn_tf] /\ s'.[dx_tf_turn] = s'.[t_turn_tf]
      /\ s'.[c_tf_turn] = s'.[t_turn_tf] ^ 2 * 1
      /\ turns * s'.[t_turn_tf] ^ 2 = GeomSample.store.[awptf]
      /\ s'.[awptf] = GeomSample.store.[awptf]
      /\ cable + steel + insulation = s'.[t_turn_tf] ^ 2
      /\ (s'.[t_conductor] + 2 * 0.01)
         * (s'.[t_conductor] + 2 * 0.01 + GeomSample.store.[layer_ins])
         = s'.[t_turn_tf] ^ 2).
Proof.
  assert (H1 : 1 <> 0) by lra.
  assert (H2 : 0 < (fst (snd (tf_averaged_turn_geom 1 0.1 0.01 1
                                GeomSample.store
                                GeomSample.clean))).[t_turn_tf])
    by (sample; lra).
  split; [exact H1 | split; [exact H2 |]].
  exact (tf_averaged_turn_geom_square 1 0.1 0.01 1 GeomSample.store
           GeomSample.clean H1 H2).
Defined.

Lemma sc_tf_internal_geom_averaged_witness :
  0 < (fst (sc_tf_internal_geom 0 0 0 GeomSample.store
              GeomSample.clean)).[t_turn_tf]
  /\ (let s' := fst (sc_tf_internal_geom 0 0 0 GeomSample.store
                       GeomSample.clean) in
      1 <= s'.[j_tf_wp]
      /\ s'.[c_tf_turn] = s'.[t_turn_tf] ^ 2 * s'.[j_tf_wp]
      /\ s'.[n_tf_coil_turns] * s'.[t_turn_tf] ^ 2 = s'.[awptf]
      /\ s'.[acond] + s'.[avwp] + s'.[a_tf_wp_coolant_channels]
         + s'.[aswp] + s'.[a_tf_coil_wp_turn_insulation]
         = s'.[awptf]).
Proof.
  assert (H : 0 < (fst (sc_tf_internal_geom 0 0 0 GeomSample.store
                          GeomSample.clean)).[t_turn_tf])
    by (sample; lra).
  split; [exact H |].
  exact (sc_tf_internal_geom_averaged 0 0 GeomSample.store
           GeomSample.clean H).
Defined.

Lemma sc_tf_internal_geom_integer_witness :
  1%Z <> 0%Z /\ int GeomSample.store n_layer <> 0%Z
  /\ int GeomSample.store n_pancake <> 0%Z
  /\ (- 2 ^ 31
      <= int GeomSample.store n_layer * int GeomSample.store n_pancake
      < 2 ^ 31)%Z
  /\ (let s' := fst (sc_tf_internal_geom 0 0 1 GeomSample.store
                       GeomSample.clean) in
      let rectangle :=
        (s'.[dr_tf_wp] - 2 * (s'.[tinstf] + s'.[tfinsgap]))
        * (s'.[t_wp_toroidal] - 2 * (s'.[tinstf] + s'.[tfinsgap])) in
      s'.[n_tf_coil_turns]
      = IZR (int GeomSample.store n_layer * int GeomSample.store n_pancake)
      /\ s'.[c_tf_turn] * s'.[n_tf_coil_turns] = s'.[c_tf_coil]
      /\ s'.[n_tf_coil_turns] * (s'.[dr_tf_turn] * s'.[dx_tf_turn])
         = rectangle
      /\ s'.[acond] + s'.[avwp] + s'.[a_tf_wp_coolant_channels]
         + s'.[aswp] + s'.[a_tf_coil_wp_turn_insulation]
         = rectangle
      /\ (0%Z <> 0%Z \/ s'.[awptf] = rectangle)).
Proof.
  assert (H1 : 1%Z <> 0%Z) by discriminate.
  assert (H2 : int GeomSample.store n_layer <> 0%Z) by (cbn; discriminate).
  assert (H3 : int GeomSample.store n_pancake <> 0%Z)
    by (cbn; discriminate).
  assert (H4 : (- 2 ^ 31 <= int GeomSample.store n_layer
                            * int GeomSample.store n_pancake < 2 ^ 31)%Z)
    by (cbn; lia).
  split; [exact H1 | split; [exact H2 | split; [exact H3 | split;
    [exact H4 |]]]].
  exact (sc_tf_internal_geom_integer 0 0 1 GeomSample.store
           GeomSample.clean H1 H2 H3 H4).
Defined.

Lemma peak_tf_with_ripple_estimate_witness :
  ~ fit_window 17
  /\ peak_tf_with_ripple 17 1 1 3 12 GeomSample.store
     = ((1.09 * 12, 0%Z), GeomSample.store).
Proof.
  assert (H : ~ fit_window 17) by (unfold fit_window; lra).
  split; [exact H |].
  exact (peak_tf_with_ripple_estimate 17 1 1 3 12 GeomSample.store H).
Defined.

Lemma peak_tf_with_ripple_fit_witness :
  fit_window 16
  /\ (let '((bmaxtfrp, flag), s') :=
        peak_tf_with_ripple 16 1 1 3 12 GeomSample.store in
      let t_out := s'.[tf_fit_t] < 0.3 \/ 1.1 < s'.[tf_fit_t] in
      let z_out := s'.[tf_fit_z] < 0.26 \/ 0.7 < s'.[tf_fit_z] in
      bmaxtfrp = s'.[tf_fit_y] * 12
      /\ s'.[tf_fit_t] * 1 = s'.[tf_fit_z] * 1
      /\ (flag = 2%Z <-> z_out)
      /\ (flag = 1%Z <-> ~ z_out /\ t_out)
      /\ (flag = 0%Z <-> ~ z_out /\ ~ t_out)).
Proof.
  assert (H : fit_window 16) by (unfold fit_window; lra).
  split; [exact H |].
  exact (peak_tf_with_ripple_fit 16 1 1 3 12 GeomSample.store H).
Defined.

Lemma vv_stress_on_quench_clips_steel_witness :
  GeomSample.negative_steel.[a_tf_steel] <= 0 /\ -2 <= 0
  /\ Quench.s_rp (quench_args GeomSample.negative_steel) = 0
  /\ exists s1 s2,
       vv_stress_on_quench QuenchSample.rmu0 GeomSample.negative_steel
       = Returns s1
       /\ vv_stress_on_quench QuenchSample.rmu0
            GeomSample.negative_steel.[a_tf_steel <== -2]
          = Returns s2
       /\ s1.[vv_stress_quench] = s2.[vv_stress_quench].
Proof.
  assert (H1 : GeomSample.negative_steel.[a_tf_steel] <= 0)
    by (sample; lra).
  assert (H2 : -2 <= 0) by lra.
  split; [exact H1 | split; [exact H2 |]].
  exact (vv_stress_on_quench_clips_steel QuenchSample.rmu0
           GeomSample.negative_steel (-2) H1 H2).
Defined.

End GeomFacts.

(** ** The inductance surrogate *)

(** X15.  [_inductance_factor] is dimensionless: it depends on the shape only
    through ratios of lengths, so scaling the four lengths by the same
    non-zero factor leaves it unchanged. *)
Theorem inductance_factor_scale (k H ri ro rm theta1 : R) :
  k <> 0 -> ro <> ri ->
  Quench._inductance_factor (k * H) (k * ri) (k * ro) (k * rm) theta1
  = Quench._inductance_factor H ri ro rm theta1.
Proof.
  intros Hk Hr. unfold Quench._inductance_factor. cbv zeta.
  assert (Hd : ro - ri <> 0) by (intros E; apply Hr; lra).
  assert (Hkd : k * ro - k * ri <> 0).
  { replace (k * ro - k * ri) with (k * (ro - ri)) by ring.
    apply Rmult_integral_contrapositive_currified; assumption. }
  replace ((k * ro + k * ri) / 2 / ((k * ro - k * ri) / 2))
    with ((ro + ri) / 2 / ((ro - ri) / 2)) by (field; split; assumption).
  replace (((k * ro + k * ri) / 2 - k * rm) / ((k * ro - k * ri) / 2))
    with (((ro + ri) / 2 - rm) / ((ro - ri) / 2))
    by (field; split; assumption).
  replace (k * H / ((k * ro - k * ri) / 2)) with (H / ((ro - ri) / 2))
    by (field; split; assumption).
  reflexivity.
Qed.

Lemma inductance_factor_scale_witness :
  2 <> 0 /\ 3 <> 1
  /\ Quench._inductance_factor (2 * 5) (2 * 1) (2 * 3) (2 * 2) 40
     = Quench._inductance_factor 5 1 3 2 40.
Proof.
  split; [lra | split; [lra |]].
  apply inductance_factor_scale; lra.
Defined.

(** ** The solver adapter *)

Module SolverFacts.
Import Solver.



Section Vmcon.

Variable vmcon_solve : solve_call -> solve_outcome.
Variable nm : numerics.

(** What [solve] leaves alone, and what it does with its results. *)
Lemma solve_effect (s : solver) :
  let '(r, s') := Solver.solve vmcon_solve nm s in
  match r with
  | Ok code =>
      In code [1; 2; 3; 5]%Z /\ info s' = Some code
      /\ x s' <> None /\ objf s' <> None /\ conf s' <> None
  | Err _ =>
      info s' = info s /\ x s' = x s /\ objf s' = objf s
      /\ conf s' = conf s
  end
  /\ ifail s' = ifail s /\ tolerance s' = tolerance s /\ b s' = b s
  /\ evaluators s' = evaluators s /\ x_0 s' = x_0 s
  /\ bndl s' = bndl s /\ bndu s' = bndu s
  /\ ilower s' = ilower s /\ iupper s' = iupper s
  /\ m s' = m s /\ meq s' = meq s
  /\ exists added, log s' = log s ++ added.
Proof.
  unfold Solver.solve. destruct (prepare nm s) as [c | e].
  - destruct (vmcon_solve c) as [x_ res | cls msg x_ res | msg | name];
      cbn.
    + repeat split; try discriminate; try tauto.
      exists []. symmetry. apply app_nil_r.
    + repeat split; try discriminate;
        try (destruct cls; cbn; tauto).
      eexists. reflexivity.
    + repeat split. eexists. reflexivity.
    + repeat split. exists []. symmetry. apply app_nil_r.
  - repeat split. exists []. symmetry. apply app_nil_r.
Qed.

(** X17.  [solve] writes its results together or not at all.  When it
    returns, the code returned is 1, 2, 3 or 5, it is the one stored in
    [info], and [x], [objf] and [conf] are all set; when it raises,
    [info], [x], [objf] and [conf] are as they were.  The other
    attributes are never touched, and the log only grows. *)
Theorem solve_all_or_nothing (s : solver) :
  let '(r, s') := Solver.solve vmcon_solve nm s in
  match r with
  | Ok code =>
      In code [1; 2; 3; 5]%Z /\ info s' = Some code
      /\ x s' <> None /\ objf s' <> None /\ conf s' <> None
  | Err _ =>
      info s' = info s /\ x s' = x s /\ objf s' = objf s
      /\ conf s' = conf s
  end
  /\ ifail s' = ifail s /\ tolerance s' = tolerance s /\ b s' = b s
  /\ evaluators s' = evaluators s /\ x_0 s' = x_0 s
  /\ bndl s' = bndl s /\ bndu s' = bndu s
  /\ ilower s' = ilower s /\ iupper s' = iupper s
  /\ m s' = m s /\ meq s' = meq s
  /\ exists added, log s' = log s ++ added.
Proof. exact (solve_effect s). Qed.

(** X18.  A solver that lacks one of the attributes set by [set_evaluators],
    [set_constraints], [set_opt_params] and [set_bounds] cannot solve:
    [solve] raises, the first missing attribute in the order
    [evaluators], [meq], [m], [x_0], [bndl], [bndu] being named unless
    the Hessian multiplier meets a negative [nvar] first; the library is
    not called and the solver is left as it was. *)
Theorem solve_unprepared (s : solver) :
  evaluators s = None \/ meq s = None \/ m s = None \/ x_0 s = None
  \/ bndl s = None \/ bndu s = None ->
  exists e,
    (forall library, Solver.solve library nm s = (Err e, s))
    /\ match e with
       | AttributeError name =>
           In name ["evaluators"; "meq"; "m"; "x_0"; "bndl"; "bndu"]%string
       | ValueError _ =>
           (nvar nm < 0)%Z /\ b s <> None /\ evaluators s <> None
           /\ meq s <> None /\ m s <> None
       | OtherError _ => False
       end.
Proof.
  intros H. unfold Solver.solve, prepare.
  destruct (evaluators s) as [ev |]; cbn;
    [| eexists; split; [intros; reflexivity | cbn; tauto]].
  destruct (meq s) as [meq_ |]; cbn;
    [| eexists; split; [intros; reflexivity | cbn; tauto]].
  destruct (m s) as [m_ |]; cbn;
    [| eexists; split; [intros; reflexivity | cbn; tauto]].
  destruct (b s) as [b_ |]; [destruct (Z.ltb_spec (nvar nm) 0) |]; cbn.
  - eexists; split; [intros; reflexivity |].
    repeat split; try discriminate; assumption.
  - destruct (x_0 s); cbn;
      [| eexists; split; [intros; reflexivity | cbn; tauto]].
    destruct (bndl s); cbn;
      [| eexists; split; [intros; reflexivity | cbn; tauto]].
    destruct (bndu s); cbn;
      [| eexists; split; [intros; reflexivity | cbn; tauto]].
    exfalso. intuition discriminate.
  - destruct (x_0 s); cbn;
      [| eexists; split; [intros; reflexivity | cbn; tauto]].
    destruct (bndl s); cbn;
      [| eexists; split; [intros; reflexivity | cbn; tauto]].
    destruct (bndu s); cbn;
      [| eexists; split; [intros; reflexivity | cbn; tauto]].
    exfalso. intuition discriminate.
Qed.



Lemma perform_keeps (s : solver) (r : request) :
  ifail (perform vmcon_solve nm s r) = ifail s
  /\ exists added, log (perform vmcon_solve nm s r) = log s ++ added.
Proof.
  assert (Hnil : exists added, log s = log s ++ added)
    by (exists []; symmetry; apply app_nil_r).
  destruct r; try (split; [reflexivity | exact Hnil]).
  - unfold perform, set_bounds.
    destruct il, iu; (split; [reflexivity | exact Hnil]).
  - cbn [perform]. pose proof (solve_effect s) as H.
    destruct (Solver.solve vmcon_solve nm s) as [r s']. cbn.
    tauto.
Qed.

(** X19.  Whatever a client asks of a solver made by [get_solver], in any
    order and however often, [ifail] stays at the 0 that [__init__]
    gave it: the exit code of [solve] is kept in [info], not in
    [ifail]. *)
Theorem ifail_stays_zero (name : string) (s : solver) (rs : list request) :
  get_solver nm name = Ok s ->
  ifail (session vmcon_solve nm rs s) = 0%Z.
Proof.
  unfold get_solver. destruct (String.eqb name "vmcon"); [| discriminate].
  intros H. injection H as <-.
  assert (Hgen : forall rs s0, ifail (session vmcon_solve nm rs s0) = ifail s0).
  { clear. intros rs. induction rs as [| r rs IH]; intros s0; [reflexivity |].
    cbn [session fold_left]. unfold session in IH. rewrite IH.
    apply perform_keeps. }
  rewrite Hgen. reflexivity.
Qed.

End Vmcon.

Lemma solve_unprepared_witness :
  (evaluators (init SolverSample.nm) = None
   \/ meq (init SolverSample.nm) = None \/ m (init SolverSample.nm) = None
   \/ x_0 (init SolverSample.nm) = None
   \/ bndl (init SolverSample.nm) = None
   \/ bndu (init SolverSample.nm) = None)
  /\ exists e,
       (forall library,
          Solver.solve library SolverSample.nm (init SolverSample.nm)
          = (Err e, init SolverSample.nm))
       /\ match e with
          | AttributeError name =>
              In name
                ["evaluators"; "meq"; "m"; "x_0"; "bndl"; "bndu"]%string
          | ValueError _ =>
              (nvar SolverSample.nm < 0)%Z
              /\ b (init SolverSample.nm) <> None
              /\ evaluators (init SolverSample.nm) <> None
              /\ meq (init SolverSample.nm) <> None
              /\ m (init SolverSample.nm) <> None
          | OtherError _ => False
          end.
Proof.
  split; [left; reflexivity |].
  apply (solve_unprepared SolverSample.nm (init SolverSample.nm)).
  left. reflexivity.
Defined.


Lemma ifail_stays_zero_witness :
  get_solver SolverSample.nm "vmcon" = Ok (init SolverSample.nm)
  /\ ifail (session SolverSample.library SolverSample.nm
              SolverSample.requests (init SolverSample.nm)) = 0%Z.
Proof.
  split; [reflexivity |].
  apply (ifail_stays_zero SolverSample.library SolverSample.nm "vmcon").
  reflexivity.
Defined.

End SolverFacts.

(** ** The domain of [protect] *)

Module ProtectDomain.
Import Protect.

Lemma n_o_range (tba tmax : R) :
  (-10 <= n_o tba tmax <= 11)%Z <-> -240 < tmax - tba < 220.
Proof.
  unfold n_o, tav, py_int.
  set (x := 1.0 + (tmax - tba) / 20.0).
  destruct (Rle_dec 0 x) as [Hx | Hx].
  - destruct (base_Int_part x) as [Hlo Hhi].
    assert (H0 : (0 <= Int_part x)%Z).
    { assert (H : IZR (-1) < IZR (Int_part x)) by lra.
      apply lt_IZR in H. lia. }
    split.
    + intros [_ Hn]. apply IZR_le in Hn. unfold x in *. lra.
    + intros Hd. split; [lia |].
      assert (H : IZR (Int_part x) < IZR 12) by (unfold x in *; lra).
      apply lt_IZR in H. lia.
  - destruct (base_Int_part (- x)) as [Hlo Hhi].
    assert (H0 : (0 <= Int_part (- x))%Z).
    { assert (H : IZR (-1) < IZR (Int_part (- x))) by lra.
      apply lt_IZR in H. lia. }
    split.
    + intros [Hn _].
      assert (Hm : (Int_part (- x) <= 10)%Z) by lia.
      apply IZR_le in Hm. unfold x in *. lra.
    + intros Hd. split; [| lia].
      assert (H : IZR (Int_part (- x)) < IZR 11) by (unfold x in *; lra).
      apply lt_IZR in H. lia.
Qed.

(** X21.  [protect] returns exactly when the temperature rise [tmax - tba]
    lies strictly between -240 K and 220 K, and raises [IndexError]
    for every other pair of temperatures: a rise of 220 K or more falls
    off the end of the tables, a fall of less than 240 K is taken from
    the end of the tables by the negative index. *)
Theorem protect_domain (aio tfes acs aturn tdump fcond fcu tba tmax : R) :
  ((exists ajwpro,
      protect aio tfes acs aturn tdump fcond fcu tba tmax
      = Returns (ajwpro, dump_voltage aio tfes tdump))
   <-> -240 < tmax - tba < 220)
  /\ (protect aio tfes acs aturn tdump fcond fcu tba tmax
      = Raises IndexError
      <-> tmax - tba <= -240 \/ 220 <= tmax - tba).
Proof.
  pose proof (n_o_range tba tmax) as Hr.
  destruct (Z_le_dec (-10) (n_o tba tmax)) as [Hlo | Hlo];
    [destruct (Z_le_dec (n_o tba tmax) 11) as [Hhi | Hhi] |].
  - destruct (ProtectFacts.protect_returns aio tfes acs aturn tdump fcond
                fcu tba tmax (conj Hlo Hhi)) as [a Ha].
    assert (Hd : -240 < tmax - tba < 220) by (apply Hr; lia).
    split; split.
    + intros _. exact Hd.
    + intros _. exists a. exact Ha.
    + rewrite Ha. discriminate.
    + intros H. lra.
  - assert (Hraise := ProtectFacts.protect_raises aio tfes acs aturn tdump
                        fcond fcu tba tmax ltac:(right; lia)).
    assert (Hd : ~ (-240 < tmax - tba < 220))
      by (intros H; apply Hr in H; lia).
    split; split.
    + intros [a Ha]. rewrite Hraise in Ha. discriminate.
    + intros H. contradiction.
    + intros _. lra.
    + intros _. exact Hraise.
  - assert (Hraise := ProtectFacts.protect_raises aio tfes acs aturn tdump
                        fcond fcu tba tmax ltac:(left; lia)).
    assert (Hd : ~ (-240 < tmax - tba < 220))
      by (intros H; apply Hr in H; lia).
    split; split.
    + intros [a Ha]. rewrite Hraise in Ha. discriminate.
    + intros H. contradiction.
    + intros _. lra.
    + intros _. exact Hraise.
Qed.

End ProtectDomain.
